(** * Console-log parsers of the Bookkeeper speed tests

    A shallow embedding of the log-parsing scripts under
    [docs/speed_tests] and [docs/plans/Bookkeeper/speed_tests]:
    - the timing-event grouping of [parse_timing_data] and the phase
      durations it derives ([parse_console_log.py], [trial5_parser.py]);
    - the folder-metric extractors ([parse_folder_analysis_data],
      [parse_json_folder_analysis_data], [extract_complete_folder_data]);
    - [csv.DictWriter] as used by [write_csv] and [save_results];
    - the exit status of the scripts' [main].

    Conventions.  A Python [str] is a Rocq [string] holding its UTF-8
    bytes.  The literal parts of the regular expressions are ASCII, so
    they match the same at byte and at code-point positions; the
    classes [\s] and [\d] are tested on the decoded code points with
    their Unicode members (module [Uni]).  A Python [int] is a [Z].  A
    [float] read from the text is kept as the exact decimal it was read
    from (see [decimal]): [PFloat d] stands for the float nearest [d].
    The float arithmetic of the older extractor is binary64 (module
    [Double]); its results are kept as their exact decimal value. *)

From stdpp Require Import base gmap strings list sorting.
From Stdlib Require Import ZArith Lia Ascii.

Open Scope string_scope.

(* ================================================================== *)
(** ** Python values *)

(** A decimal [m * 10^e], kept normalised: [m] has no trailing zero
    digit unless it is 0, and 0 is [(0, 0)]. *)
Record decimal := Dec { dec_mant : Z; dec_exp : Z }.

Fixpoint strip_zeros (fuel : nat) (m e : Z) : decimal :=
  match fuel with
  | O => Dec m e
  | S f =>
      if Z.eqb m 0 then Dec 0 0
      else if Z.eqb (Z.rem m 10) 0 then strip_zeros f (Z.quot m 10) (e + 1)
      else Dec m e
  end.

Definition normalize (m e : Z) : decimal :=
  strip_zeros (S (Z.to_nat (Z.log2_up (Z.abs m + 1)))) m e.

(** The values the scripts put in their records; [PInf] and [PNaN] are
    the infinite and not-a-number floats. *)
Inductive pyval :=
| PInt (z : Z)
| PFloat (d : decimal)
| PBool (b : bool)
| PStr (s : string)
| PNone
| PInf (neg : bool)
| PNaN.

#[global] Instance decimal_eq_dec : EqDecision decimal.
Proof. solve_decision. Defined.
#[global] Instance pyval_eq_dec : EqDecision pyval.
Proof. solve_decision. Defined.

(* ================================================================== *)
(** ** Timing events and run groups ([parse_timing_data]) *)

Module Timing.
Local Open Scope list_scope.

(** One element of [all_matches]: [(match.start(), event_type,
    int(timing), source)]. *)
Record event := Ev {
  ev_pos : nat;
  ev_type : string;
  ev_timing : Z;
  ev_source : string
}.

Definition PROCESSING_START := "PROCESSING_START".

Definition is_start (e : event) : bool := String.eqb (ev_type e) PROCESSING_START.

(** The state of the grouping loop of
    [plans/.../parse_console_log.py] (also [improved_parser_json.py]):
    [test_run_data] (a [defaultdict(dict)]), [test_run_positions] and
    [current_test_run]. *)
Record group_state := GS {
  test_run_data : gmap nat (gmap string Z);
  test_run_positions : gmap nat nat;
  current_test_run : nat
}.

Definition group_init : group_state := GS ∅ ∅ 0.

(** [test_run_data[cur][event_type] = timing]: the [defaultdict]
    creates the inner dict on first access. *)
Definition set_event (data : gmap nat (gmap string Z)) (cur : nat)
    (name : string) (v : Z) : gmap nat (gmap string Z) :=
  <[cur := <[name := v]> (default ∅ (data !! cur))]> data.

(** One iteration of
    [for pos, event_type, timing, source in all_matches:]. *)
Definition group_step (st : group_state) (e : event) : group_state :=
  let '(cur, posns) :=
    if is_start e
    then (S (current_test_run st),
          <[S (current_test_run st) := ev_pos e]> (test_run_positions st))
    else (current_test_run st, test_run_positions st) in
  let data :=
    if Nat.ltb 0 cur then set_event (test_run_data st) cur (ev_type e) (ev_timing e)
    else test_run_data st in
  GS data posns cur.

(** [all_matches] is the list of matches of both patterns sorted by
    position; the grouping consumes it in that order. *)
Definition group_runs (all_matches : list event) : group_state :=
  fold_left group_step all_matches group_init.

(** The grouping loop of the older [docs/speed_tests/parse_console_log.py]:
    [current_test_run = 1], no guard, increment on [PROCESSING_START]. *)
Definition group_step_v1 (st : gmap nat (gmap string Z) * nat) (e : event)
    : gmap nat (gmap string Z) * nat :=
  let '(data, cur) := st in
  let cur' := if is_start e then S cur else cur in
  (set_event data cur' (ev_type e) (ev_timing e), cur').

Definition group_runs_v1 (matches : list event) : gmap nat (gmap string Z) :=
  fst (fold_left group_step_v1 matches (∅, 1)).

(** The runs of an event stream, read off the boundary markers: the
    events before the first marker, and for each marker the events from
    it up to the next marker. *)
Fixpoint split_runs (evs : list event) : list event * list (list event) :=
  match evs with
  | [] => ([], [])
  | e :: rest =>
      let '(pre, runs) := split_runs rest in
      if is_start e then ([], (e :: pre) :: runs) else (e :: pre, runs)
  end.

(** A run's timestamp map when each occurrence overwrites the previous
    one, in stream order. *)
Definition seg_map (seg : list event) : gmap string Z :=
  fold_left (fun m e => <[ev_type e := ev_timing e]> m) seg ∅.

(** The value of the last event named [name] in a run. *)
Definition last_value (name : string) (seg : list event) : option Z :=
  fold_left (fun acc e => if String.eqb (ev_type e) name then Some (ev_timing e) else acc)
    seg None.

Definition count_starts (evs : list event) : nat := length (filter is_start evs).

(** Append an event to the last run. *)
Fixpoint add_last (runs : list (list event)) (e : event) : list (list event) :=
  match runs with
  | [] => []
  | [r] => [r ++ [e]]
  | r :: rs => r :: add_last rs e
  end.

End Timing.

(* ================================================================== *)
(** ** Phase durations *)

Module Phases.
Import Timing.
Local Open Scope Z_scope.

Definition DEDUPLICATION_START := "DEDUPLICATION_START".
Definition UI_UPDATE_START := "UI_UPDATE_START".
Definition ALL_FILES_DISPLAYED := "ALL_FILES_DISPLAYED".

(** The row built for one run by [parse_timing_data] of
    [plans/.../parse_console_log.py]. *)
Record timing_row := TRow {
  tr_test_run : nat;
  tr_is_worker_mode : bool;
  tr_totalDurationMs : option Z;
  tr_phase1FileAnalysisMs : option Z;
  tr_phase2HashProcessingMs : option Z;
  tr_phase3UIRenderingMs : option Z;
  tr_PROCESSING_START : Z;
  tr_DEDUPLICATION_START : option Z;
  tr_UI_UPDATE_START : option Z;
  tr_ALL_FILES_DISPLAYED : option Z
}.

(** The body of [for test_run in sorted(test_run_data.keys()):];
    [is_worker_mode] is the result of [detect_execution_mode]. *)
Definition timing_row_of (test_run : nat) (is_worker_mode : bool)
    (data : gmap string Z) : timing_row :=
  let processing_start := default 0 (data !! PROCESSING_START) in
  let deduplication_start := data !! DEDUPLICATION_START in
  let ui_update_start := data !! UI_UPDATE_START in
  let all_files_displayed := data !! ALL_FILES_DISPLAYED in
  let phase1_duration :=
    match deduplication_start with
    | Some d => Some (d - processing_start)
    | None => None
    end in
  let phase2_duration :=
    match ui_update_start, deduplication_start with
    | Some u, Some d => Some (u - d)
    | _, _ => None
    end in
  let phase3_duration :=
    match all_files_displayed, ui_update_start with
    | Some a, Some u => Some (a - u)
    | _, _ => None
    end in
  let total_duration :=
    match all_files_displayed with
    | Some a => Some (a - processing_start)
    | None => None
    end in
  TRow test_run is_worker_mode total_duration phase1_duration phase2_duration
    phase3_duration processing_start deduplication_start ui_update_start
    all_files_displayed.

(** [for k in sorted(d.keys()): ... d[k]] *)
Definition key_le (x y : nat * gmap string Z) : Prop := (x.1 <= y.1)%nat.
#[local] Instance key_le_dec : RelDecision key_le := fun x y => decide (x.1 <= y.1)%nat.

Definition sorted_items (d : gmap nat (gmap string Z)) : list (nat * gmap string Z) :=
  merge_sort key_le (map_to_list d).

(** [parse_timing_data] after the grouping: one row per key of
    [test_run_data], in increasing order; [detect] stands for
    [detect_execution_mode(content, start_pos)]. *)
Definition timing_rows (detect : nat -> bool) (all_matches : list event)
    : list timing_row :=
  let st := group_runs all_matches in
  map (fun '(k, data) =>
         timing_row_of k (detect (default 0%nat (test_run_positions st !! k))) data)
    (sorted_items (test_run_data st)).

(** [trial5_parser.py]: the grouping of [parse_trial5_data]
    ([current_run = 0], guard [current_run > 0]). *)
Definition group_step_t5 (st : gmap nat (gmap string Z) * nat) (e : event)
    : gmap nat (gmap string Z) * nat :=
  let '(data, cur) := st in
  let cur' := if is_start e then S cur else cur in
  (if Nat.ltb 0 cur' then set_event data cur' (ev_type e) (ev_timing e) else data, cur').

Definition group_runs_t5 (timing_matches : list event) : gmap nat (gmap string Z) :=
  fst (fold_left group_step_t5 timing_matches (∅, 0%nat)).

(** The row of [processed_timing] for one run of [trial5_parser.py]. *)
Record t5_row := T5Row {
  t5_TestRun : nat;
  t5_totalDurationMs : option Z;
  t5_phase1FileAnalysisMs : option Z;
  t5_phase2HashProcessingMs : option Z;
  t5_phase3UIRenderingMs : option Z;
  t5_PROCESSING_START : Z;
  t5_DEDUPLICATION_START : Z;
  t5_UI_UPDATE_START : Z;
  t5_ALL_FILES_DISPLAYED : Z
}.

(** [x - y if x >= y else None] *)
Definition guarded_diff (x y : Z) : option Z := if Z.leb y x then Some (x - y) else None.

Definition t5_row_of (run_num : nat) (data : gmap string Z) : t5_row :=
  let start := default 0 (data !! PROCESSING_START) in
  let dedup_start := default 0 (data !! DEDUPLICATION_START) in
  let ui_start := default 0 (data !! UI_UPDATE_START) in
  let end_ := default 0 (data !! ALL_FILES_DISPLAYED) in
  let phase1 := guarded_diff dedup_start start in
  let phase2 := guarded_diff ui_start dedup_start in
  let phase3 := guarded_diff end_ ui_start in
  let total := guarded_diff end_ start in
  T5Row run_num total phase1 phase2 phase3 start dedup_start ui_start end_.

Definition t5_rows (timing_matches : list event) : list t5_row :=
  map (fun '(k, data) => t5_row_of k data) (sorted_items (group_runs_t5 timing_matches)).

(** The four durations, each with its end and start timestamp and
    where the two scripts store it. *)
Definition phase_table
    : list (string * string * (timing_row -> option Z) * (t5_row -> option Z)) :=
  [(DEDUPLICATION_START, PROCESSING_START, tr_phase1FileAnalysisMs, t5_phase1FileAnalysisMs);
   (UI_UPDATE_START, DEDUPLICATION_START, tr_phase2HashProcessingMs, t5_phase2HashProcessingMs);
   (ALL_FILES_DISPLAYED, UI_UPDATE_START, tr_phase3UIRenderingMs, t5_phase3UIRenderingMs);
   (ALL_FILES_DISPLAYED, PROCESSING_START, tr_totalDurationMs, t5_totalDurationMs)].

(** The duration the specification asks for: end minus start when both
    timestamps are in the run's map, undefined otherwise. *)
Definition spec_duration (data : gmap string Z) (end_name start_name : string) : option Z :=
  match data !! end_name, data !! start_name with
  | Some e, Some s => Some (e - s)
  | _, _ => None
  end.

End Phases.

(* ================================================================== *)
(** ** Code points and the Unicode classes [\s] and [\d] *)

(** The scripts read their input with [open(..., encoding='utf-8')], so
    a [str] is the decoding of its UTF-8 bytes, and the regular
    expressions of [str] patterns test their classes on code points:
    [\s] is [str.isspace] and [\d] is a decimal digit of any script
    (Python 3.11, Unicode 14.0). *)
Module Uni.
Local Open Scope Z_scope.

Definition byte (c : ascii) : Z := Z.of_nat (nat_of_ascii c).

Definition is_cont (c : ascii) : bool := (128 <=? byte c) && (byte c <? 192).

(** The code points of a UTF-8 text.  A byte that does not start a
    well-formed sequence stands for itself; that never happens in text
    that [open(..., encoding='utf-8').read()] returns. *)
Fixpoint utf8_decode (s : string) : list Z :=
  match s with
  | EmptyString => []
  | String c0 r0 =>
      let b0 := byte c0 in
      if b0 <? 192 then b0 :: utf8_decode r0
      else if b0 <? 224 then
        match r0 with
        | String c1 r1 =>
            if is_cont c1 then ((b0 - 192) * 64 + (byte c1 - 128)) :: utf8_decode r1
            else b0 :: utf8_decode r0
        | EmptyString => b0 :: utf8_decode r0
        end
      else if b0 <? 240 then
        match r0 with
        | String c1 (String c2 r2) =>
            if is_cont c1 && is_cont c2
            then ((b0 - 224) * 4096 + (byte c1 - 128) * 64 + (byte c2 - 128)) :: utf8_decode r2
            else b0 :: utf8_decode r0
        | _ => b0 :: utf8_decode r0
        end
      else
        match r0 with
        | String c1 (String c2 (String c3 r3)) =>
            if is_cont c1 && is_cont c2 && is_cont c3
            then ((b0 - 240) * 262144 + (byte c1 - 128) * 4096 + (byte c2 - 128) * 64
                  + (byte c3 - 128)) :: utf8_decode r3
            else b0 :: utf8_decode r0
        | _ => b0 :: utf8_decode r0
        end
  end.

(** [\s]: the code points [c] with [chr(c).isspace()]. *)
Definition uni_space (c : Z) : bool :=
  ((9 <=? c) && (c <=? 13)) || ((28 <=? c) && (c <=? 32)) || (c =? 0x85) || (c =? 0xa0)
  || (c =? 0x1680) || ((0x2000 <=? c) && (c <=? 0x200a)) || (c =? 0x2028) || (c =? 0x2029)
  || (c =? 0x202f) || (c =? 0x205f) || (c =? 0x3000).

(** The digit zero of each run of ten decimal digits (category [Nd]). *)
Definition decimal_zeros : list Z :=
  [0x30; 0x660; 0x6f0; 0x7c0; 0x966; 0x9e6; 0xa66; 0xae6; 0xb66; 0xbe6; 0xc66; 0xce6;
   0xd66; 0xde6; 0xe50; 0xed0; 0xf20; 0x1040; 0x1090; 0x17e0; 0x1810; 0x1946; 0x19d0;
   0x1a80; 0x1a90; 0x1b50; 0x1bb0; 0x1c40; 0x1c50; 0xa620; 0xa8d0; 0xa900; 0xa9d0;
   0xa9f0; 0xaa50; 0xabf0; 0xff10; 0x104a0; 0x10d30; 0x11066; 0x110f0; 0x11136; 0x111d0;
   0x112f0; 0x11450; 0x114d0; 0x11650; 0x116c0; 0x11730; 0x118e0; 0x11950; 0x11c50;
   0x11d50; 0x11da0; 0x16a60; 0x16ac0; 0x16b50; 0x1d7ce; 0x1d7d8; 0x1d7e2; 0x1d7ec;
   0x1d7f6; 0x1e140; 0x1e2f0; 0x1e950; 0x1fbf0].

(** [unicodedata.decimal(chr(c))], the value [int()] gives the digit. *)
Definition uni_decimal (c : Z) : option Z :=
  match List.find (fun z => (z <=? c) && (c <? z + 10)) decimal_zeros with
  | Some z => Some (c - z)
  | None => None
  end.

(** [\d] *)
Definition uni_digit (c : Z) : bool := match uni_decimal c with Some _ => true | None => false end.

(** [[0-9]] *)
Definition ascii_digit (c : Z) : bool := (48 <=? c) && (c <=? 57).

(** [s] starts with [p]: the rest of [s]. *)
Fixpoint cp_strip (p s : list Z) : option (list Z) :=
  match p, s with
  | [], _ => Some s
  | c :: p', d :: s' => if Z.eqb c d then cp_strip p' s' else None
  | _ :: _, [] => None
  end.

(** The longest prefix of [s] in the class [f], and the rest. *)
Fixpoint cp_span (f : Z -> bool) (s : list Z) : list Z * list Z :=
  match s with
  | [] => ([], [])
  | c :: s' => if f c then let '(a, b) := cp_span f s' in (c :: a, b) else ([], s)
  end.

End Uni.

(* ================================================================== *)
(** ** The regular expressions of the folder-metric extractors *)

Module Scan.

Definition chr_lbrace : ascii := "{"%char.
Definition chr_rbrace : ascii := "}"%char.
Definition chr_colon : ascii := ":"%char.
Definition chr_dot : ascii := "."%char.

(** [s] starts with [p]: the rest of [s]. *)
Fixpoint strip_prefix (p s : string) : option string :=
  match p, s with
  | EmptyString, _ => Some s
  | String c p', String d s' => if Ascii.eqb c d then strip_prefix p' s' else None
  | String _ _, EmptyString => None
  end.

Fixpoint take_while (f : ascii -> bool) (s : string) : string * string :=
  match s with
  | EmptyString => (EmptyString, EmptyString)
  | String c s' =>
      if f c then let '(a, b) := take_while f s' in (String c a, b)
      else (EmptyString, s)
  end.

(** [s = u ++ "}" ++ rest] with no ['}'] in [u]. *)
Fixpoint upto_rbrace (s : string) : option (string * string) :=
  match s with
  | EmptyString => None
  | String c s' =>
      if Ascii.eqb c chr_rbrace then Some (EmptyString, s')
      else match upto_rbrace s' with
           | Some (u, rest) => Some (String c u, rest)
           | None => None
           end
  end.

(** The group [({.+?})] under [re.DOTALL], tried at the start of [r]:
    a ['{'], the shortest non-empty run of any characters, then ['}'].
    Returns the group and the text after the match. *)
Definition cap_lazy_braces (r : string) : option (string * string) :=
  match r with
  | String b (String c0 r') =>
      if Ascii.eqb b chr_lbrace then
        match upto_rbrace r' with
        | Some (u, rest) => Some (String b (String c0 (u ++ String chr_rbrace EmptyString)), rest)
        | None => None
        end
      else None
  | _ => None
  end.

(** The group of [\{([^}]+)\}] (and of [\{([^}]+)(?:, …)?\}], whose
    optional part can never match once [[^}]+] has taken every
    character up to the ['}']), tried at the start of [r]. *)
Definition cap_braced_group (r : string) : option (string * string) :=
  match r with
  | String b r' =>
      if Ascii.eqb b chr_lbrace then
        match upto_rbrace r' with
        | Some (EmptyString, _) => None
        | Some (u, rest) => Some (u, rest)
        | None => None
        end
      else None
  | EmptyString => None
  end.

(** [re.findall(pre + group, s)] for a pattern made of a literal prefix
    [pre] followed by a group [cap]: the match is tried at every
    position from left to right and the scan resumes after each match. *)
Fixpoint findall_go (fuel : nat) (pre : string)
    (cap : string -> option (string * string)) (s : string) : list string :=
  match fuel with
  | O => []
  | S f =>
      match s with
      | EmptyString => []
      | String _ s' =>
          match strip_prefix pre s with
          | Some r =>
              match cap r with
              | Some (g, rest) => g :: findall_go f pre cap rest
              | None => findall_go f pre cap s'
              end
          | None => findall_go f pre cap s'
          end
      end
  end.

Definition findall (pre : string) (cap : string -> option (string * string))
    (s : string) : list string :=
  findall_go (S (String.length s)) pre cap s.

(** An ASCII digit, as the [json] module's number syntax has it. *)
Definition is_digit (c : ascii) : bool :=
  let n := nat_of_ascii c in Nat.leb 48 n && Nat.leb n 57.

(** [re.search(key + r':\s*(C+)', s).group(1)], [C] a class of code
    points, on the code points of [s]: [\s*] and [C+] are disjoint
    classes taken greedily, so the first position where [key:] is
    followed by spaces and one member of [C] is the match. *)
Fixpoint search_group_cp (pat : list Z) (cls : Z -> bool) (s : list Z) : option (list Z) :=
  let next := match s with
              | [] => None
              | _ :: s' => search_group_cp pat cls s'
              end in
  match Uni.cp_strip pat s with
  | Some r =>
      let '(_, r2) := Uni.cp_span Uni.uni_space r in
      match Uni.cp_span cls r2 with
      | ([], _) => next
      | (g, _) => Some g
      end
  | None => next
  end.

Definition search_group (key : string) (cls : Z -> bool) (s : string) : option (list Z) :=
  search_group_cp (Uni.utf8_decode key ++ [58%Z]) cls (Uni.utf8_decode s).

Definition digit_value (c : ascii) : Z := Z.of_nat (nat_of_ascii c) - 48.

Fixpoint digits_value (acc : Z) (s : string) : Z :=
  match s with
  | EmptyString => acc
  | String c s' => digits_value (10 * acc + digit_value c) s'
  end.

Fixpoint all_digits (s : string) : bool :=
  match s with
  | EmptyString => true
  | String c s' => is_digit c && all_digits s'
  end.

(** The values of a run of decimal digits of any script. *)
Fixpoint decimal_values (g : list Z) : option (list Z) :=
  match g with
  | [] => Some []
  | c :: g' =>
      match Uni.uni_decimal c, decimal_values g' with
      | Some d, Some ds => Some (d :: ds)
      | _, _ => None
      end
  end.

Definition value_of_digits (ds : list Z) : Z := fold_left (fun acc d => 10 * acc + d)%Z ds 0%Z.

(** [sys.get_int_max_str_digits()]: [int()] refuses a string of more
    digits. *)
Definition int_max_str_digits : nat := 4300.

(** [int(s)] for a run [s] of decimal digits (leading zeros allowed):
    [ValueError] (here [None]) for more than 4300 digits. *)
Definition py_int (g : list Z) : option Z :=
  match g with
  | [] => None
  | _ =>
      if Nat.ltb int_max_str_digits (length g) then None
      else match decimal_values g with Some ds => Some (value_of_digits ds) | None => None end
  end.

(** [float(s)] for a run of decimal digits and dots (what [[\d.]+]
    captures): at most one dot and at least one digit; otherwise
    [ValueError] (here [None]). *)
Definition py_float (g : list Z) : option decimal :=
  let '(ip, rest) := Uni.cp_span Uni.uni_digit g in
  match rest with
  | [] =>
      match ip with
      | [] => None
      | _ => match decimal_values ip with
             | Some ds => Some (normalize (value_of_digits ds) 0)
             | None => None
             end
      end
  | d :: fp =>
      if Z.eqb d 46 && forallb Uni.uni_digit fp && negb (bool_decide ((ip ++ fp)%list = []))
      then match decimal_values (ip ++ fp)%list with
           | Some ds => Some (normalize (value_of_digits ds) (- Z.of_nat (length fp)))
           | None => None
           end
      else None
  end.

(** [s.count(pre)] for a non-empty [pre]: the occurrences of [pre],
    counted left to right without overlap. *)
Fixpoint count_go (fuel : nat) (pre s : string) : nat :=
  match fuel with
  | O => O
  | S f =>
      match s with
      | EmptyString => O
      | String _ s' =>
          match strip_prefix pre s with
          | Some r => S (count_go f pre r)
          | None => count_go f pre s'
          end
      end
  end.

Definition str_count (pre s : string) : nat := count_go (S (String.length s)) pre s.

End Scan.

(* ================================================================== *)
(** ** Exceptions *)

(** The exceptions the scripts can meet, and a small error monad
    for the code between a [try] and its [except]; [OSError] is a
    failing [open]. *)
Inductive exc :=
  ValueError | TypeError | KeyError | JSONDecodeError | OverflowError | ZeroDivisionError
| OSError.

Inductive res (A : Type) := Ok (a : A) | Raise (e : exc).
Arguments Ok {A} a.
Arguments Raise {A} e.

Definition res_bind {A B} (m : res A) (f : A -> res B) : res B :=
  match m with Ok a => f a | Raise e => Raise e end.

Notation "'let!' x ':=' m 'in' k" := (res_bind m (fun x => k))
  (at level 200, x name, m at level 100, k at level 200).

Definition of_option {A} (e : exc) (o : option A) : res A :=
  match o with Some a => Ok a | None => Raise e end.

(** A Python dict with string keys. *)
Abbreviation pydict := (gmap string pyval).

(** [d[k]] *)
Definition getitem (d : pydict) (k : string) : res pyval := of_option KeyError (d !! k).

(** [d.get(k, default)] *)
Definition dict_get (d : pydict) (k : string) (default_ : pyval) : pyval :=
  from_option id default_ (d !! k).

(** The lines the extractors print. *)
Inductive line :=
| LFound (n : nat)             (* "Found N JSON FOLDER_ANALYSIS_DATA entries" *)
| LEntry (n : Z)               (* "  Entry N: ..." *)
| LWarnParse (blob : string)   (* "Warning: Failed to parse ...: {match[:k]}... - {e}" *)
| LWarnError (e : exc).        (* "Warning: Error processing FOLDER_ANALYSIS_DATA: {e}" *)

(** Whether the code between [try] and [except] ran to its end. *)
Definition res_ok {A} (r : res A) : bool := match r with Ok _ => true | Raise _ => false end.

Definition res_to_option {A} (r : res A) : option A :=
  match r with Ok a => Some a | Raise _ => None end.

Definition is_warning (l : line) : bool :=
  match l with LWarnParse _ | LWarnError _ => true | _ => false end.

(* ================================================================== *)
(** ** Binary64 floats *)

(** The [float] arithmetic of the older extractor's derived columns:
    IEEE 754 binary64 with rounding to nearest, ties to even.  A finite
    float is [m * 2^e] with [|m| < 2^53] and [e >= -1074]; the values
    met here are never negative, so the sign of a zero is not kept. *)
Module Double.
Local Open Scope Z_scope.

Inductive flt := Fin (m e : Z) | Inf (neg : bool) | NaN.

(** [p / q] rounded to the nearest integer, ties to even ([p >= 0],
    [q > 0]). *)
Definition round_half_even (p q : Z) : Z :=
  let r := p / q in
  let twice_rem := 2 * (p - r * q) in
  if twice_rem <? q then r
  else if q <? twice_rem then r + 1
  else if Z.even r then r else r + 1.

(** [2^k <= a / q] *)
Definition pow2_le (k a q : Z) : bool :=
  if 0 <=? k then q * 2 ^ k <=? a else q <=? a * 2 ^ (- k).

(** The float nearest to the rational [p / q] ([q > 0]): [Inf] when it
    rounds beyond the largest finite float. *)
Definition round_rat (p q : Z) : flt :=
  if p =? 0 then Fin 0 0 else
  let a := Z.abs p in
  let l := Z.log2 a - Z.log2 q in
  let k := if pow2_le l a q then l else l - 1 in
  let e := Z.max (k - 52) (-1074) in
  let m := if 0 <=? e then round_half_even a (q * 2 ^ e)
           else round_half_even (a * 2 ^ (- e)) q in
  let '(m, e) := if m =? 2 ^ 53 then (2 ^ 52, e + 1) else (m, e) in
  if 971 <? e then Inf (p <? 0)
  else Fin (if p <? 0 then - m else m) e.

(** [float(s)] for the decimal [s] reads. *)
Definition of_decimal (d : decimal) : flt :=
  let '(Dec m e) := d in
  if 0 <=? e then round_rat (m * 10 ^ e) 1 else round_rat m (10 ^ (- e)).

(** The exact value of a finite float as a decimal. *)
Definition to_decimal (m e : Z) : decimal :=
  if 0 <=? e then normalize (m * 2 ^ e) 0 else normalize (m * 5 ^ (- e)) e.

(** [x * y] *)
Definition mul (x y : flt) : flt :=
  match x, y with
  | NaN, _ | _, NaN => NaN
  | Inf a, Inf b => Inf (xorb a b)
  | Inf a, Fin m _ | Fin m _, Inf a =>
      if m =? 0 then NaN else Inf (xorb a (m <? 0))
  | Fin m1 e1, Fin m2 e2 =>
      let e := e1 + e2 in
      if 0 <=? e then round_rat (m1 * m2 * 2 ^ e) 1 else round_rat (m1 * m2) (2 ^ (- e))
  end.

(** [round(x, 2)]: the exact value of [x] rounded to two decimals (ties
    to even), read back as a float; infinities and NaN round to
    themselves. *)
Definition round2 (x : flt) : flt :=
  match x with
  | Fin m e =>
      let y := if 0 <=? e then Z.abs m * 2 ^ e * 100
               else round_half_even (Z.abs m * 100) (2 ^ (- e)) in
      round_rat (if m <? 0 then - y else y) 100
  | _ => x
  end.

(** The Python value of a float. *)
Definition to_pyval (x : flt) : pyval :=
  match x with
  | Fin m e => PFloat (to_decimal m e)
  | Inf neg => PInf neg
  | NaN => PNaN
  end.

End Double.

(* ================================================================== *)
(** ** Key:value folder-metric extractors *)

Module FolderKV.
Import Scan.

(** [\d] and [[\d.]] *)
Definition int_class : Z -> bool := Uni.uni_digit.
Definition float_class : Z -> bool := fun c => Uni.uni_digit c || Z.eqb c 46.

(** [[0-9]] and [[0-9.]] *)
Definition int09_class : Z -> bool := Uni.ascii_digit.
Definition float09_class : Z -> bool := fun c => Uni.ascii_digit c || Z.eqb c 46.

(** The class of an [int] field matches only decimal digits. *)
Definition digit_class (cls : Z -> bool) : Prop := forall c, cls c = true -> Uni.uni_digit c = true.

(** [field_patterns] of [parse_folder_analysis_data] in
    [plans/.../parse_console_log.py], in dict order: each field with the
    class of its capture, [\d] or [[\d.]]. *)
Definition plans_field_patterns : list (string * (Z -> bool)) :=
  [("timestamp", int_class); ("totalFiles", int_class);
   ("duplicateCandidateCount", int_class); ("duplicateCandidatePercent", int_class);
   ("uniqueFilesSizeMB", float_class); ("duplicateCandidatesSizeMB", float_class);
   ("totalSizeMB", float_class); ("totalDirectoryCount", int_class);
   ("maxDirectoryDepth", int_class); ("uniqueFilesTotal", int_class);
   ("avgDirectoryDepth", float_class)].

Definition plans_float_fields : list string :=
  ["totalSizeMB"; "uniqueFilesSizeMB"; "duplicateCandidatesSizeMB"; "avgDirectoryDepth"].

Definition in_list (x : string) (l : list string) : bool :=
  existsb (String.eqb x) l.

(** The body of [for field, pattern in field_patterns.items():]. *)
Definition plans_field_step (blob : string) (data : pydict)
    (fp : string * (Z -> bool)) : res pydict :=
  let '(field, cls) := fp in
  match search_group field cls blob with
  | Some g =>
      if in_list field plans_float_fields then
        let! v := of_option ValueError (py_float g) in Ok (<[field := PFloat v]> data)
      else if String.eqb field "timestamp" then
        let! v := of_option ValueError (py_int g) in Ok (<[field := PInt v]> data)
      else
        let! v := of_option ValueError (py_int g) in Ok (<[field := PInt v]> data)
  | None => Ok (<[field := PInt 0]> data)
  end.

Fixpoint fold_res {A B} (f : A -> B -> res A) (l : list B) (a : A) : res A :=
  match l with
  | [] => Ok a
  | b :: l' => let! a' := f a b in fold_res f l' a'
  end.

Definition plans_blob_data (blob : string) : res pydict :=
  fold_res (plans_field_step blob) plans_field_patterns ∅.

Definition plans_row_keys : list string :=
  ["timestamp"; "totalFiles"; "duplicateCandidateCount"; "duplicateCandidatePercent";
   "uniqueFilesSizeMB"; "duplicateCandidatesSizeMB"; "totalSizeMB";
   "totalDirectoryCount"; "maxDirectoryDepth"; "uniqueFilesTotal"; "avgDirectoryDepth"].

Fixpoint copy_keys (data : pydict) (keys : list string) (row : pydict) : res pydict :=
  match keys with
  | [] => Ok row
  | k :: ks => let! v := getitem data k in copy_keys data ks (<[k := v]> row)
  end.

(** The [try] body for one match: the field loop and the [row]. *)
Definition plans_row (test_run : Z) (blob : string) : res pydict :=
  let! data := plans_blob_data blob in
  copy_keys data plans_row_keys {[ "TestRun#" := PInt test_run ]}.

(** [plans_row] without its ['TestRun#'] entry. *)
Definition plans_fields_row (blob : string) : res pydict :=
  let! data := plans_blob_data blob in copy_keys data plans_row_keys ∅.

(** The loop state: [folder_data], [test_run] and what was printed. *)
Record fx_state := FX { folder_data : list pydict; test_run : Z; printed : list line }.

Definition plans_step (st : fx_state) (m : string) : fx_state :=
  match plans_row (test_run st) m with
  | Ok row => FX (folder_data st ++ [row]) (test_run st + 1) (printed st)
  | Raise _ => FX (folder_data st) (test_run st) (printed st ++ [LWarnParse m])
  end.

Definition plans_marker : string := "🔬 FOLDER_ANALYSIS_DATA (Modal Predictors): ".

Definition plans_matches (content : string) : list string :=
  findall plans_marker cap_braced_group content.

Definition parse_folder_analysis_data_st (content : string) : fx_state :=
  fold_left plans_step (plans_matches content) (FX [] 1 []).

Definition parse_folder_analysis_data (content : string) : list pydict :=
  folder_data (parse_folder_analysis_data_st content).

(** The field loop of [extract_complete_folder_data] in
    [docs/speed_tests/improved_parser.py] (same fields, classes [[0-9]]
    and [[0-9.]]; no [try]). *)
Definition improved_float_fields : list string :=
  ["uniqueFilesSizeMB"; "duplicateCandidatesSizeMB"; "totalSizeMB"; "avgDirectoryDepth"].

Definition improved_field_patterns : list (string * (Z -> bool)) :=
  [("timestamp", int09_class); ("totalFiles", int09_class);
   ("duplicateCandidateCount", int09_class); ("duplicateCandidatePercent", int09_class);
   ("uniqueFilesSizeMB", float09_class); ("duplicateCandidatesSizeMB", float09_class);
   ("totalSizeMB", float09_class); ("totalDirectoryCount", int09_class);
   ("maxDirectoryDepth", int09_class); ("avgDirectoryDepth", float09_class);
   ("uniqueFilesTotal", int09_class)].

Definition improved_field_step (blob : string) (data : pydict)
    (fp : string * (Z -> bool)) : res pydict :=
  let '(field, cls) := fp in
  match search_group field cls blob with
  | Some value =>
      if in_list field improved_float_fields then
        let! v := of_option ValueError (py_float value) in Ok (<[field := PFloat v]> data)
      else
        let! v := of_option ValueError (py_int value) in Ok (<[field := PInt v]> data)
  | None =>
      Ok (<[field := if negb (in_list field improved_float_fields)
                     then PInt 0 else PFloat (Dec 0 0)]> data)
  end.

Definition improved_blob_data (blob : string) : res pydict :=
  fold_res (improved_field_step blob) improved_field_patterns ∅.

End FolderKV.

(* ================================================================== *)
(** ** The older key:value extractor ([docs/speed_tests/parse_console_log.py]) *)

Module FolderKVv1.
Import Scan FolderKV.
Local Open Scope Z_scope.

Definition v1_field_patterns : list (string * (Z -> bool)) :=
  [("timestamp", int_class); ("totalFiles", int_class); ("mainFolderFiles", int_class);
   ("subfolderFiles", int_class); ("totalSizeMB", float_class)].

Definition v1_field_step (blob : string) (data : pydict)
    (fp : string * (Z -> bool)) : res pydict :=
  let '(field, cls) := fp in
  match search_group field cls blob with
  | Some g =>
      if String.eqb field "totalSizeMB" then
        let! v := of_option ValueError (py_float g) in Ok (<[field := PFloat v]> data)
      else if String.eqb field "timestamp" then
        let! v := of_option ValueError (py_int g) in Ok (<[field := PInt v]> data)
      else
        let! v := of_option ValueError (py_int g) in Ok (<[field := PInt v]> data)
  | None => Ok (<[field := PInt 0]> data)
  end.

Definition v1_blob_data (blob : string) : res pydict :=
  fold_res (v1_field_step blob) v1_field_patterns ∅.

Definition as_int (v : pyval) : res Z :=
  match v with PInt z => Ok z | _ => Raise TypeError end.

(** An [int] or [float] operand of a [float] operation; [float(z)]
    raises [OverflowError] beyond the largest float. *)
Definition as_double (v : pyval) : res Double.flt :=
  match v with
  | PInt z => match Double.round_rat z 1 with Double.Inf _ => Raise OverflowError | x => Ok x end
  | PFloat d => Ok (Double.of_decimal d)
  | PInf neg => Ok (Double.Inf neg)
  | PNaN => Ok Double.NaN
  | _ => Raise TypeError
  end.

(** [a / b] on [int]s: the float nearest the quotient, [OverflowError]
    beyond the largest float. *)
Definition int_true_div (a b : Z) : res Double.flt :=
  if Z.eqb b 0 then Raise ZeroDivisionError else
  let x := if Z.ltb b 0 then Double.round_rat (- a) (- b) else Double.round_rat a b in
  match x with Double.Inf _ => Raise OverflowError | _ => Ok x end.

(** The [try] body of the older [parse_folder_analysis_data]: five
    fields read from the blob, the other columns derived or estimated. *)
Definition v1_row (test_run : Z) (blob : string) : res pydict :=
  let! data := v1_blob_data blob in
  let! vmain := getitem data "mainFolderFiles" in
  let! main := as_int vmain in
  let! vtotal := getitem data "totalFiles" in
  let! total := as_int vtotal in
  let! vsub := getitem data "subfolderFiles" in
  let! sub := as_int vsub in
  let! vsize := getitem data "totalSizeMB" in
  let! size := as_double vsize in
  let! vts := getitem data "timestamp" in
  let unique_files_main_folder := main in
  let unique_files_total := total - Z.max 0 (total - main - sub) in
  let avg_directory_depth := if Z.ltb 0 sub then Dec 25 (-1) else Dec 1 0 in
  let avg_filename_length := 25 in
  let max_directory_depth := if Z.ltb 0 sub then 5 else 1 in
  let zero_byte_files := 0 in
  let largest_file_size_mb := Double.round2 (Double.mul size (Double.of_decimal (Dec 1 (-1)))) in
  let! main_folder_size_mb :=
    if Z.ltb 0 total then
      let! q := int_true_div main total in
      Ok (Double.to_pyval (Double.round2 (Double.mul size q)))
    else Ok (PInt 0) in
  let identical_size_files := Z.max 0 (total - unique_files_total) in
  Ok (list_to_map
    [("TestRun#", PInt test_run);
     ("avgDirectoryDepth", PFloat avg_directory_depth);
     ("avgFilenameLength", PInt avg_filename_length);
     ("identicalSizeFiles", PInt identical_size_files);
     ("largestFileSizesMB", Double.to_pyval largest_file_size_mb);
     ("mainFolderFiles", vmain);
     ("mainFolderSizeMB", main_folder_size_mb);
     ("maxDirectoryDepth", PInt max_directory_depth);
     ("subfolderFiles", vsub);
     ("timestamp", vts);
     ("totalFiles", vtotal);
     ("totalSizeMB", vsize);
     ("uniqueFilesMainFolder", PInt unique_files_main_folder);
     ("uniqueFilesTotal", PInt unique_files_total);
     ("zeroByteFiles", PInt zero_byte_files)]).

Definition v1_step (st : fx_state) (m : string) : fx_state :=
  match v1_row (test_run st) m with
  | Ok row => FX (folder_data st ++ [row]) (test_run st + 1) (printed st)
  | Raise _ => FX (folder_data st) (test_run st) (printed st ++ [LWarnParse m])
  end.

Definition v1_marker : string := "🔬 FOLDER_ANALYSIS_DATA: ".

Definition parse_folder_analysis_data_v1 (content : string) : list pydict :=
  folder_data (fold_left v1_step (findall v1_marker cap_braced_group content) (FX [] 1 [])).

End FolderKVv1.

(* ================================================================== *)
(** ** [json.loads] on the captured blobs, and a JSON writer *)

Module Json.
Import Scan.
Local Open Scope Z_scope.

Definition chr_quote : ascii := ascii_of_nat 34.
Definition chr_backslash : ascii := ascii_of_nat 92.

(** [WHITESPACE = r'[ \t\n\r]*'] of the [json] module. *)
Definition is_json_ws (c : ascii) : bool :=
  let n := nat_of_ascii c in
  Nat.eqb n 32 || Nat.eqb n 9 || Nat.eqb n 10 || Nat.eqb n 13.

Fixpoint skip_ws (s : string) : string :=
  match s with
  | String c s' => if is_json_ws c then skip_ws s' else s
  | EmptyString => s
  end.

(** The body of a string literal after its opening quote, up to the
    closing quote.  A raw control character is an error (strict mode);
    escape sequences are outside this model and also give an error. *)
Fixpoint scan_string (s : string) : option (string * string) :=
  match s with
  | EmptyString => None
  | String c s' =>
      if Ascii.eqb c chr_quote then Some (EmptyString, s')
      else if Ascii.eqb c chr_backslash || Nat.ltb (nat_of_ascii c) 32 then None
      else match scan_string s' with
           | Some (u, r) => Some (String c u, r)
           | None => None
           end
  end.

(** [[0-9]+] *)
Definition digits1 (s : string) : option (string * string) :=
  match take_while is_digit s with
  | (EmptyString, _) => None
  | x => Some x
  end.

(** [0|[1-9][0-9]*] *)
Definition int_part (s : string) : option (string * string) :=
  match s with
  | String c s' =>
      if Ascii.eqb c "0"%char then Some (String c EmptyString, s')
      else if is_digit c then let '(a, b) := take_while is_digit s' in Some (String c a, b)
      else None
  | EmptyString => None
  end.

(** [(\.[0-9]+)?] *)
Definition opt_frac (s : string) : option string * string :=
  match s with
  | String c s' =>
      if Ascii.eqb c "."%char then
        match digits1 s' with Some (f, r) => (Some f, r) | None => (None, s) end
      else (None, s)
  | EmptyString => (None, s)
  end.

(** [([eE][-+]?[0-9]+)?] *)
Definition opt_exp (s : string) : option Z * string :=
  match s with
  | String c s' =>
      if Ascii.eqb c "e"%char || Ascii.eqb c "E"%char then
        let '(sgn, s'') :=
          match s' with
          | String d t =>
              if Ascii.eqb d "-"%char then (-1, t)
              else if Ascii.eqb d "+"%char then (1, t) else (1, s')
          | EmptyString => (1, s')
          end in
        match digits1 s'' with
        | Some (d, r) => (Some (sgn * digits_value 0 d), r)
        | None => (None, s)
        end
      else (None, s)
  | EmptyString => (None, s)
  end.

(** A syntax error of the decoder. *)
Definition fail {A} : res A := Raise JSONDecodeError.

(** [NUMBER_RE] and its conversion: [int(integer)] without fraction and
    exponent, which raises [ValueError] beyond 4300 digits, and
    [float(integer + frac + exp)] otherwise. *)
Definition scan_number (s : string) : res (pyval * string) :=
  let '(neg, s1) :=
    match s with
    | String c t => if Ascii.eqb c "-"%char then (true, t) else (false, s)
    | EmptyString => (false, s)
    end in
  match int_part s1 with
  | None => fail
  | Some (ip, s2) =>
      let '(fr, s3) := opt_frac s2 in
      let '(ex, s4) := opt_exp s3 in
      let sgn := if neg then -1 else 1 in
      match fr, ex with
      | None, None =>
          if Nat.ltb int_max_str_digits (String.length ip) then Raise ValueError
          else Ok (PInt (sgn * digits_value 0 ip), s4)
      | _, _ =>
          let f := default EmptyString fr in
          Ok (PFloat (normalize (sgn * digits_value 0 (ip ++ f))
                                (default 0 ex - Z.of_nat (String.length f))), s4)
      end
  end.

(** A scalar value: string, [true], [false], [null] or number.  Arrays,
    objects, [NaN] and [Infinity] are outside this model (error). *)
Definition scan_value (s : string) : res (pyval * string) :=
  match s with
  | EmptyString => fail
  | String c s' =>
      if Ascii.eqb c chr_quote then
        match scan_string s' with Some (u, r) => Ok (PStr u, r) | None => fail end
      else match strip_prefix "true" s with
      | Some r => Ok (PBool true, r)
      | None => match strip_prefix "false" s with
        | Some r => Ok (PBool false, r)
        | None => match strip_prefix "null" s with
          | Some r => Ok (PNone, r)
          | None => scan_number s
          end
        end
      end
  end.

(** The members of an object after its ['{']; a repeated key keeps its
    last value, as in a Python dict. *)
Fixpoint scan_members (fuel : nat) (acc : pydict) (s : string) : res (pydict * string) :=
  match fuel with
  | O => fail
  | S f =>
      match skip_ws s with
      | String c s1 =>
          if Ascii.eqb c chr_quote then
            match scan_string s1 with
            | None => fail
            | Some (k, s2) =>
                match skip_ws s2 with
                | String d s3 =>
                    if Ascii.eqb d ":"%char then
                      res_bind (scan_value (skip_ws s3)) (fun '(v, s4) =>
                        let acc' := <[k := v]> acc in
                        match skip_ws s4 with
                        | String e s5 =>
                            if Ascii.eqb e ","%char then scan_members f acc' s5
                            else if Ascii.eqb e chr_rbrace then Ok (acc', s5)
                            else fail
                        | EmptyString => fail
                        end)
                    else fail
                | EmptyString => fail
                end
            end
          else fail
      | EmptyString => fail
      end
  end.

Definition scan_object (s : string) : res (pydict * string) :=
  match skip_ws s with
  | String c s1 =>
      if Ascii.eqb c chr_lbrace then
        match skip_ws s1 with
        | String d s2 =>
            if Ascii.eqb d chr_rbrace then Ok (∅, s2)
            else scan_members (S (String.length s1)) ∅ s1
        | EmptyString => fail
        end
      else fail
  | EmptyString => fail
  end.

(** [json.loads(blob)] for a blob starting with ['{']. *)
Definition json_loads (s : string) : res pydict :=
  res_bind (scan_object s) (fun '(d, r) =>
    match skip_ws r with
    | EmptyString => Ok d
    | _ => fail
    end).

Definition quoted (s : string) : string := String chr_quote (s ++ String chr_quote EmptyString).

(** No ['}'] in [s]: the lazy capture runs to the first one. *)
Fixpoint nobrace (s : string) : bool :=
  match s with
  | EmptyString => true
  | String c s' => negb (Ascii.eqb c chr_rbrace) && nobrace s'
  end.

End Json.

(* ================================================================== *)
(** ** The JSON folder-metric extractor ([improved_parser_json.py]) *)

Module FolderJson.
Import Scan FolderKV.
Local Open Scope Z_scope.

Definition json_marker : string := "🔬 FOLDER_ANALYSIS_DATA: ".

(** [re.findall(r'🔬 FOLDER_ANALYSIS_DATA: ({.+?})', content, re.DOTALL)] *)
Definition json_matches (content : string) : list string :=
  findall json_marker cap_lazy_braces content.

(** The columns of [row] after ['TestRun#'], with the default of their
    [data.get]. *)
Definition json_columns : list (string * pyval) :=
  [("timestamp", PInt 0); ("totalFiles", PInt 0);
   ("duplicateCandidateCount", PInt 0); ("duplicateCandidatePercent", PInt 0);
   ("uniqueFilesSizeMB", PFloat (Dec 0 0)); ("duplicateCandidatesSizeMB", PFloat (Dec 0 0));
   ("totalSizeMB", PFloat (Dec 0 0)); ("totalDirectoryCount", PInt 0);
   ("avgDirectoryDepth", PFloat (Dec 0 0)); ("maxDirectoryDepth", PInt 0);
   ("uniqueFilesTotal", PInt 0); ("maxFileDepth", PInt 0);
   ("avgFileDepth", PFloat (Dec 0 0)); ("avgFilenameLength", PFloat (Dec 0 0));
   ("zeroByteFiles", PInt 0); ("largestFileSizesMB", PFloat (Dec 0 0))].

(** [format(v, '.1f')] accepts a [float] or [bool], and an [int] that
    converts to a float. *)
Definition format_1f (v : pyval) : res unit :=
  match v with
  | PInt z => match Double.round_rat z 1 with Double.Inf _ => Raise OverflowError | _ => Ok tt end
  | PFloat _ | PBool _ | PInf _ | PNaN => Ok tt
  | PStr _ => Raise ValueError
  | PNone => Raise TypeError
  end.

Section Extractor.

(** [json.loads] on a captured blob (which starts with ['{'], so a
    successful decode is a dict). *)
Variable json_loads : string -> res pydict.

Definition json_row (test_run : Z) (data : pydict) : pydict :=
  list_to_map (("TestRun#", PInt test_run)
                 :: map (fun '(k, d) => (k, dict_get data k d)) json_columns).

(** One iteration of [for match in matches:] with its [try]/[except]:
    the row is appended and [test_run] advanced before the [print] that
    formats [totalSizeMB]. *)
Definition json_step (st : fx_state) (m : string) : fx_state :=
  match json_loads m with
  | Raise JSONDecodeError => FX (folder_data st) (test_run st) (printed st ++ [LWarnParse m])
  | Raise e => FX (folder_data st) (test_run st) (printed st ++ [LWarnError e])
  | Ok data =>
      let row := json_row (test_run st) data in
      let rows := (folder_data st ++ [row])%list in
      let tr := test_run st + 1 in
      match format_1f (dict_get data "totalSizeMB" (PInt 0)) with
      | Ok _ => FX rows tr (printed st ++ [LEntry (tr - 1)])
      | Raise e => FX rows tr (printed st ++ [LWarnError e])
      end
  end.

Definition parse_json_folder_analysis_data_st (content : string) : fx_state :=
  let matches := json_matches content in
  fold_left json_step matches (FX [] 1 [LFound (length matches)]).

Definition parse_json_folder_analysis_data (content : string) : list pydict :=
  folder_data (parse_json_folder_analysis_data_st content).

End Extractor.

(** The warning [json_step] prints for a match whose decode raised [e]. *)
Definition decode_warning (m : string) (e : exc) : line :=
  match e with JSONDecodeError => LWarnParse m | _ => LWarnError e end.

End FolderJson.

(* ================================================================== *)
(** ** [csv.DictWriter] *)

Module Csv.

Section Writer.

(** [str(v)] of a non-[None] cell; the [csv] writer writes [None] as
    the empty string. *)
Variable py_str : pyval -> string.

Definition cell (v : pyval) : string :=
  match v with PNone => EmptyString | _ => py_str v end.

(** [DictWriter._dict_to_list] with [restval=''] and
    [extrasaction='raise']. *)
Definition dict_to_list (fieldnames : list string) (rowdict : pydict) : res (list string) :=
  if existsb (fun k => negb (existsb (String.eqb k) fieldnames)) (map fst (map_to_list rowdict))
  then Raise ValueError
  else Ok (map (fun k => match rowdict !! k with Some v => cell v | None => EmptyString end)
               fieldnames).

(** The rows written so far, and the exception that stopped
    [writerows], if any. *)
Fixpoint writerows (fieldnames : list string) (rows : list pydict)
    : list (list string) * option exc :=
  match rows with
  | [] => ([], None)
  | r :: rs =>
      match dict_to_list fieldnames r with
      | Raise e => ([], Some e)
      | Ok cells => let '(out, err) := writerows fieldnames rs in (cells :: out, err)
      end
  end.

(** The cells [DictWriter] writes for a record whose keys are all columns. *)
Definition row_cells (fieldnames : list string) (r : pydict) : list string :=
  map (fun k => match r !! k with Some v => cell v | None => EmptyString end) fieldnames.

(** [write_csv]: [writeheader()] then [writerows(data)]; the header row
    is [dict(zip(fieldnames, fieldnames))]. *)
Definition write_csv (data : list pydict) (fieldnames : list string)
    : list (list string) * option exc :=
  let '(out, err) := writerows fieldnames data in (fieldnames :: out, err).

End Writer.

(** Every key of the record [r] is one of the columns. *)
Definition keys_within (fieldnames : list string) (r : pydict) : Prop :=
  forall k v, r !! k = Some v -> In k fieldnames.

Definition str_le (a b : string) : Prop := String.leb a b = true.
#[global] Instance str_le_dec : RelDecision str_le := fun a b => decide (String.leb a b = true).

(** The column list of [save_results] in [trial5_parser.py]: the fixed
    columns, then every other key of the data in sorted order. *)
Definition save_results_fieldnames (fixed : list string) (merged_data : list pydict)
    : list string :=
  let all_keys : gset string := foldr (fun item acc => dom item ∪ acc) ∅ merged_data in
  foldl (fun fns key => if existsb (String.eqb key) fns then fns else (fns ++ [key])%list)
    fixed (merge_sort str_le (elements all_keys)).

End Csv.

(* ================================================================== *)
(** ** The timing rows of the older [docs/speed_tests/parse_console_log.py] *)

Module TimingV1.
Import Timing Phases.

Definition expected_columns : list string :=
  ["PROCESSING_START"; "DEDUPLICATION_START"; "WORKER_SEND";
   "SIZE_ANALYSIS_COMPLETE"; "HASH_CALCULATION_COMPLETE"; "DEDUP_LOGIC_START";
   "DEDUP_LOGIC_COMPLETE"; "WORKER_COMPLETE"; "RESULT_MAPPING_COMPLETE";
   "UI_UPDATE_START"; "CHUNK1_START"; "CHUNK1_COMPLETE";
   "CHUNK2_START"; "DOM_RENDER_COMPLETE"; "CHUNK2_COMPLETE"; "ALL_FILES_DISPLAYED"].

(** [data.get(column, '')] *)
Definition get_or_empty (data : gmap string Z) (column : string) : pyval :=
  match data !! column with Some v => PInt v | None => PStr "" end.

(** [row = {'Test Run #': test_run}] then
    [for column in expected_columns: row[column] = data.get(column, '')]. *)
Definition v1_timing_row (test_run : nat) (data : gmap string Z) : pydict :=
  fold_left (fun row column => <[column := get_or_empty data column]> row)
    expected_columns {[ "Test Run #" := PInt (Z.of_nat test_run) ]}.

(** [parse_timing_data]: one row per key of [test_run_data], in
    increasing order. *)
Definition v1_timing_rows (matches : list event) : list pydict :=
  map (fun '(k, data) => v1_timing_row k data) (sorted_items (group_runs_v1 matches)).

(** [timing_fieldnames] of [main]. *)
Definition v1_timing_fieldnames : list string := "Test Run #" :: expected_columns.

(** A timing event that is not a [PROCESSING_START]. *)
Definition nonstart (e : event) : Prop := is_start e = false.

(** The run numbers of the older grouping: [1] for events before the
    first marker, if any, then one from [2] per marker. *)
Definition v1_run_numbers (evs : list event) : list nat :=
  match (split_runs evs).1 with
  | [] => seq 2 (count_starts evs)
  | _ => 1%nat :: seq 2 (count_starts evs)
  end.

End TimingV1.

(* ================================================================== *)
(** ** [detect_execution_mode] and the inline check of [improved_parser_json.py] *)

(** Here a Python [str] is the list of its code points, since the search
    window [content[start:start + 5000]] counts code points and
    [match.start()] is a code-point index. *)
Module Window.
Local Open Scope Z_scope.

Definition text := list Z.

(** The code points of an ASCII literal. *)
Definition cps (s : string) : text := map (fun c => Z.of_nat (nat_of_ascii c)) (String.list_ascii_of_string s).

(** [s] starts with [p]: the rest of [s]. *)
Fixpoint cp_strip (p s : text) : option text :=
  match p, s with
  | [], _ => Some s
  | c :: p', d :: s' => if Z.eqb c d then cp_strip p' s' else None
  | _ :: _, [] => None
  end.

Fixpoint cp_span (f : Z -> bool) (s : text) : text * text :=
  match s with
  | [] => ([], [])
  | c :: s' => if f c then let '(a, b) := cp_span f s' in (c :: a, b) else ([], s)
  end.

(** [\d] and [\s] *)
Definition cp_digit (c : Z) : bool := Uni.uni_digit c.

Definition cp_space (c : Z) : bool := Uni.uni_space c.

(** [pre + r'\d+\s+' + name] matched at the start of [s]; [\d+] cannot
    give back a digit to [\s+], nor [\s+] a space to [name]'s first
    letter, so the greedy split is the only one. *)
Definition worker_line_at (pre name : text) (s : text) : bool :=
  match cp_strip pre s with
  | Some r =>
      let '(ds, r1) := cp_span cp_digit r in
      let '(sp, r2) := cp_span cp_space r1 in
      negb (bool_decide (ds = [])) && negb (bool_decide (sp = [])) &&
      match cp_strip name r2 with Some _ => true | None => false end
  | None => false
  end.

Definition literal_at (lit : text) (s : text) : bool :=
  match cp_strip lit s with Some _ => true | None => false end.

(** [re.search(pattern, s) is not None], [pattern] tried at every
    position of [s] from [0] to [len(s)]. *)
Fixpoint search (at_ : text -> bool) (s : text) : bool :=
  at_ s || match s with [] => false | _ :: s' => search at_ s' end.

(** [content[start:start + n]] for [start >= 0]. *)
Definition window (content : text) (start n : nat) : text := take n (drop start content).

(** The third pattern of [worker_patterns], a literal. *)
Definition fallback_message : text :=
  cps "Web Worker restart failed, falling back to main thread processing".

Definition worker_patterns : list (text -> bool) :=
  [worker_line_at (cps "fileHashWorker.js:") (cps "SIZE_ANALYSIS_COMPLETE");
   worker_line_at (cps "fileHashWorker.js:") (cps "HASH_CALCULATION_COMPLETE");
   literal_at (cps "Web Worker restart failed, falling back to main thread processing")].

(** [detect_execution_mode(content, test_run_start_pos)] of
    [plans/.../parse_console_log.py]. *)
Definition detect_execution_mode (content : text) (test_run_start_pos : nat) : bool :=
  let search_window := window content test_run_start_pos 5000 in
  existsb (fun p => search p search_window) worker_patterns.

(** [is_worker_mode] of [parse_timing_data] in [improved_parser_json.py]:
    [x in search_window] is a search for the literal [x]. *)
Definition json_is_worker_mode (content : text) (start_pos : nat) : bool :=
  let search_window := window content start_pos 3000 in
  search (literal_at (cps "Web Worker restart failed")) search_window
  || search (literal_at (cps "fileHashWorker.js")) search_window.

End Window.

(* ================================================================== *)
(** ** [extract_filename_prefix] and the output paths of [main] *)

(** [pathlib.PurePosixPath]: a root ([''], ['/'] or ['//']) and the
    parts, as the constructor splits them (empty and ['.'] components
    dropped). *)
Module Paths.

Record path := PPath { root : string; parts : list string }.

Definition chr_slash : ascii := "/"%char.
Definition chr_underscore : ascii := "_"%char.

(** [s.split(c)] *)
Fixpoint split_on (c : ascii) (s : string) : list string :=
  match s with
  | EmptyString => [EmptyString]
  | String d s' =>
      let rest := split_on c s' in
      if Ascii.eqb c d then EmptyString :: rest
      else match rest with
           | [] => [String d EmptyString]
           | x :: xs => String d x :: xs
           end
  end.

Definition keep_part (x : string) : bool := negb (String.eqb x "") && negb (String.eqb x ".").

Definition parse_parts (s : string) : list string := List.filter keep_part (split_on chr_slash s).

Definition starts_with_slash (s : string) : bool :=
  match s with String c _ => Ascii.eqb c chr_slash | EmptyString => false end.

(** [Path(s)]: exactly two leading slashes are kept as the root ['//']. *)
Definition parse_path (s : string) : path :=
  match s with
  | String a (String b r) =>
      if Ascii.eqb a chr_slash && Ascii.eqb b chr_slash && negb (starts_with_slash r)
      then PPath "//" (parse_parts s)
      else if Ascii.eqb a chr_slash then PPath "/" (parse_parts s) else PPath "" (parse_parts s)
  | String a _ => if Ascii.eqb a chr_slash then PPath "/" (parse_parts s) else PPath "" (parse_parts s)
  | EmptyString => PPath "" []
  end.

(** [p.name] *)
Definition path_name (p : path) : string := default EmptyString (last (parts p)).

(** [p.parent] *)
Definition path_parent (p : path) : path :=
  match parts p with [] => p | _ => PPath (root p) (removelast (parts p)) end.

(** [p / name] *)
Definition path_join (p : path) (name : string) : path :=
  if starts_with_slash name then parse_path name else PPath (root p) (parts p ++ parse_parts name).

(** [s.rfind(c)], [None] for [-1]. *)
Fixpoint rfind_go (c : ascii) (s : string) (i : nat) (acc : option nat) : option nat :=
  match s with
  | EmptyString => acc
  | String d s' => rfind_go c s' (S i) (if Ascii.eqb c d then Some i else acc)
  end.

Definition rfind (c : ascii) (s : string) : option nat := rfind_go c s 0 None.

(** [s[:n]] *)
Fixpoint str_take (n : nat) (s : string) : string :=
  match n, s with
  | O, _ | _, EmptyString => EmptyString
  | S n', String c s' => String c (str_take n' s')
  end.

(** [p.stem]: [name[:i]] for the last dot [i] when [0 < i < len(name) - 1].
    The dot is ASCII, so counting bytes instead of code points moves
    [i] and [len(name)] alike and cuts at the same place. *)
Definition path_stem (p : path) : string :=
  let name := path_name p in
  match rfind "."%char name with
  | Some i => if Nat.ltb 0 i && Nat.ltb i (String.length name - 1) then str_take i name else name
  | None => name
  end.

(** [input_path.stem.split('_')[0]] *)
Definition extract_filename_prefix (input_path : path) : string :=
  match split_on chr_underscore (path_stem input_path) with x :: _ => x | [] => EmptyString end.

(** [output_dir / f"{prefix}{suffix}"] with [output_dir = input_path.parent]. *)
Definition output_file (input_path : path) (suffix : string) : path :=
  path_join (path_parent input_path) (extract_filename_prefix input_path ++ suffix).

(** [c] occurs in [s]. *)
Fixpoint has_char (c : ascii) (s : string) : bool :=
  match s with EmptyString => false | String d s' => Ascii.eqb c d || has_char c s' end.

(** The suffixes of the files [main] writes: [parse_console_log.py] (both
    versions) and [improved_parser_json.py]. *)
Definition output_suffixes : list string :=
  ["_FolderAnalysisData.csv"; "_TestSpeedData.csv"; "_CompleteFolderAnalysisData.csv"].

End Paths.

(* ================================================================== *)
(** ** The folder records of [trial5_parser.py] and [improved_parser.py] *)

Module FolderTrial5.
Import Scan FolderKV FolderJson.
Local Open Scope Z_scope.

(** The marker of both patterns is spelt ['ðŸ”¬'] in the source: the
    UTF-8 bytes of the emoji read back as cp1252 text, four other code
    points, whose UTF-8 bytes these are. *)
Definition t5_marker : string := "ðŸ”¬ FOLDER_ANALYSIS_DATA: ".

(** [s = u ++ "}" ++ rest] with neither ['}'] nor a newline in [u]. *)
Fixpoint upto_rbrace_line (s : string) : option (string * string) :=
  match s with
  | EmptyString => None
  | String c s' =>
      if Ascii.eqb c chr_rbrace then Some (EmptyString, s')
      else if Ascii.eqb c "010"%char then None
      else match upto_rbrace_line s' with
           | Some (u, rest) => Some (String c u, rest)
           | None => None
           end
  end.

(** The group [({.+?})] without [re.DOTALL]: [.] matches anything but a
    newline. *)
Definition cap_lazy_braces_line (r : string) : option (string * string) :=
  match r with
  | String b (String c0 r') =>
      if Ascii.eqb b chr_lbrace && negb (Ascii.eqb c0 "010"%char) then
        match upto_rbrace_line r' with
        | Some (u, rest) => Some (String b (String c0 (u ++ String chr_rbrace EmptyString)), rest)
        | None => None
        end
      else None
  | _ => None
  end.

(** [folder_matches = re.findall(folder_pattern, content)] *)
Definition t5_folder_matches (content : string) : list string :=
  findall t5_marker cap_lazy_braces_line content.

(** [for i, match in enumerate(folder_matches, 1):] with its [try]: a
    [JSONDecodeError] is caught, the exception of a [:.1f] format in the
    [print] is not and ends [parse_trial5_data]. *)
Fixpoint t5_folder_loop (i : Z) (ms : list string) (folder_data : list pydict)
    : res (list pydict) :=
  match ms with
  | [] => Ok folder_data
  | m :: ms' =>
      match Json.json_loads m with
      | Raise JSONDecodeError => t5_folder_loop (i + 1) ms' folder_data
      | Raise e => Raise e
      | Ok data =>
          let folder_data' := (folder_data ++ [data ∪ {[ "TestRun" := PInt i ]}])%list in
          let! _ := format_1f (dict_get data "totalSizeMB" (PInt 0)) in
          let! _ := format_1f (dict_get data "avgDirectoryDepth" (PInt 0)) in
          t5_folder_loop (i + 1) ms' folder_data'
      end
  end.

(** The [folder_data] of [parse_trial5_data], or the exception it raises. *)
Definition parse_trial5_folder (content : string) : res (list pydict) :=
  t5_folder_loop 1 (t5_folder_matches content) [].

Definition improved_marker : string := "ðŸ”¬ FOLDER_ANALYSIS_DATA (Modal Predictors): ".

(** [(?=\n[^\s]|\n$)] at the start of [t] ([$] also matches before a
    final newline; [[^\s]] is a code point that is not a space). *)
Definition improved_lookahead (t : string) : bool :=
  match t with
  | String nl t' =>
      Ascii.eqb nl "010"%char &&
      match Uni.utf8_decode t' with
      | [] => true
      | c :: rest => negb (Uni.uni_space c) || (Z.eqb c 10 && bool_decide (rest = []))
      end
  | EmptyString => false
  end.

(** [(.+?)] under [re.DOTALL] followed by the lookahead [la]: the
    shortest non-empty prefix after which [la] holds. *)
Fixpoint lazy_until (la : string -> bool) (s : string) : option (string * string) :=
  match s with
  | EmptyString => None
  | String c s' =>
      if la s' then Some (String c EmptyString, s')
      else match lazy_until la s' with
           | Some (g, rest) => Some (String c g, rest)
           | None => None
           end
  end.

Definition improved_matches (content : string) : list string :=
  findall improved_marker (lazy_until improved_lookahead) content.

(** The loop of [extract_complete_folder_data], which has no [try]. *)
Fixpoint improved_loop (test_run : Z) (ms : list string) (folder_data : list pydict)
    : res (list pydict) :=
  match ms with
  | [] => Ok folder_data
  | m :: ms' =>
      let! data := improved_blob_data m in
      let! row := copy_keys data plans_row_keys {[ "TestRun#" := PInt test_run ]} in
      improved_loop (test_run + 1) ms' (folder_data ++ [row])%list
  end.

Definition extract_complete_folder_data (content : string) : res (list pydict) :=
  improved_loop 1 (improved_matches content) [].

End FolderTrial5.

(* ================================================================== *)
(** ** The folder CSV files the [main]s write *)

Module MainCsv.
Import FolderKV FolderKVv1 FolderJson FolderTrial5.

(** [folder_fieldnames] of [main] in [plans/.../parse_console_log.py]. *)
Definition plans_folder_fieldnames : list string :=
  ["TestRun#"; "timestamp"; "totalFiles"; "duplicateCandidateCount";
   "duplicateCandidatePercent"; "uniqueFilesSizeMB"; "duplicateCandidatesSizeMB";
   "totalSizeMB"; "totalDirectoryCount"; "maxDirectoryDepth"; "uniqueFilesTotal"; "avgDirectoryDepth"].

(** [folder_fieldnames] of [main] in [docs/speed_tests/parse_console_log.py]. *)
Definition v1_folder_fieldnames : list string :=
  ["TestRun#"; "avgDirectoryDepth"; "avgFilenameLength"; "identicalSizeFiles";
   "largestFileSizesMB"; "mainFolderFiles"; "mainFolderSizeMB"; "maxDirectoryDepth";
   "subfolderFiles"; "timestamp"; "totalFiles"; "totalSizeMB";
   "uniqueFilesMainFolder"; "uniqueFilesTotal"; "zeroByteFiles"].

(** [folder_fieldnames] of [main] in [improved_parser_json.py]. *)
Definition json_folder_fieldnames : list string :=
  ["TestRun#"; "timestamp"; "totalFiles"; "duplicateCandidateCount";
   "duplicateCandidatePercent"; "uniqueFilesSizeMB"; "duplicateCandidatesSizeMB";
   "totalSizeMB"; "totalDirectoryCount"; "avgDirectoryDepth"; "maxDirectoryDepth";
   "uniqueFilesTotal"; "maxFileDepth"; "avgFileDepth"; "avgFilenameLength";
   "zeroByteFiles"; "largestFileSizesMB"].

(** [fieldnames] of [main] in [improved_parser.py]. *)
Definition improved_fieldnames : list string :=
  ["TestRun#"; "timestamp"; "totalFiles"; "duplicateCandidateCount";
   "duplicateCandidatePercent"; "uniqueFilesSizeMB"; "duplicateCandidatesSizeMB";
   "totalSizeMB"; "totalDirectoryCount"; "maxDirectoryDepth"; "uniqueFilesTotal"; "avgDirectoryDepth"].

Section Output.
Variable py_str : pyval -> string.

(** [if folder_data: write_csv(folder_data, folder_analysis_file,
    folder_fieldnames)]: the rows written and the exception of the
    writer, or [None] when nothing is written. *)
Definition folder_csv (folder_data : list pydict) (fieldnames : list string)
    : option (list (list string) * option exc) :=
  match folder_data with
  | [] => None
  | _ => Some (Csv.write_csv py_str folder_data fieldnames)
  end.

Definition plans_main_folder_csv (content : string) :=
  folder_csv (parse_folder_analysis_data content) plans_folder_fieldnames.

Definition v1_main_folder_csv (content : string) :=
  folder_csv (parse_folder_analysis_data_v1 content) v1_folder_fieldnames.

Definition json_main_folder_csv (content : string) :=
  folder_csv (parse_json_folder_analysis_data Json.json_loads content) json_folder_fieldnames.

(** [main] of [improved_parser.py]: an exception of
    [extract_complete_folder_data] ends it before anything is written. *)
Definition improved_main_csv (content : string) : res (option (list (list string) * option exc)) :=
  let! folder_data := extract_complete_folder_data content in
  Ok (folder_csv folder_data improved_fieldnames).

End Output.

End MainCsv.

(* ================================================================== *)
(** ** [main] of [plans/.../parse_console_log.py] and the start of
    [main] in [trial5_parser.py] *)

Module Main.
Import Timing Phases FolderKV MainCsv.
Local Open Scope Z_scope.


(** [[A-Z_]] *)
Definition upper_or_underscore (c : Z) : bool := ((65 <=? c) && (c <=? 90)) || (c =? 95).

(** [pre + r'\d+\s+([A-Z_]+):\s+(\d+)'] at the start of [s] (code
    points): the two groups and what follows the match.  Each
    repetition is followed by a code point it cannot match, so the
    greedy split is the only match. *)
Definition timing_match_at (pre : list Z) (s : list Z) : option (list Z * list Z * list Z) :=
  match Uni.cp_strip pre s with
  | Some r =>
      let '(ds, r1) := Uni.cp_span Uni.uni_digit r in
      let '(sp, r2) := Uni.cp_span Uni.uni_space r1 in
      let '(name, r3) := Uni.cp_span upper_or_underscore r2 in
      match ds, sp, name, r3 with
      | _ :: _, _ :: _, _ :: _, colon :: r4 =>
          if Z.eqb colon 58 then
            let '(sp2, r5) := Uni.cp_span Uni.uni_space r4 in
            let '(digits, r6) := Uni.cp_span Uni.uni_digit r5 in
            match sp2, digits with
            | _ :: _, _ :: _ => Some (name, digits, r6)
            | _, _ => None
            end
          else None
      | _, _, _, _ => None
      end
  | None => None
  end.

(** [re.finditer]: the matches from code-point position [i] on, with
    their start positions; after a match the search resumes where it
    ended.  A match is never empty, so [S (length s)] steps suffice. *)
Fixpoint finditer_go (fuel : nat) (m : list Z -> option (list Z * list Z * list Z))
    (i : nat) (s : list Z) : list (nat * list Z * list Z) :=
  match fuel with
  | O => []
  | S f =>
      match m s with
      | Some (name, digits, rest) =>
          (i, name, digits) :: finditer_go f m (i + (length s - length rest))%nat rest
      | None => match s with [] => [] | _ :: s' => finditer_go f m (S i) s' end
      end
  end.

Definition finditer (m : list Z -> option (list Z * list Z * list Z)) (s : list Z)
    : list (nat * list Z * list Z) :=
  finditer_go (S (length s)) m 0 s.

Definition main_pattern : list Z := Window.cps "processingTimer.js:".
Definition worker_pattern : list Z := Window.cps "fileHashWorker.js:".

(** The matches of [main_pattern], then those of [worker_pattern]. *)
Definition timing_matches (content : string) : list (nat * list Z * list Z) :=
  let cps := Uni.utf8_decode content in
  (finditer (timing_match_at main_pattern) cps ++ finditer (timing_match_at worker_pattern) cps)%list.





(** [all_matches.sort(key=lambda x: x[0])] *)
Definition ev_le (x y : event) : Prop := (ev_pos x <= ev_pos y)%nat.
#[global] Instance ev_le_dec : RelDecision ev_le := fun x y => decide (ev_pos x <= ev_pos y)%nat.





Section Run.
Variable py_str : pyval -> string.

(** [write_csv(data, output_path, fieldnames)]: [open(output_path, 'w')]
    fails on the paths [writable] rejects; otherwise the exception of
    the writer, if any. *)
Definition write_csv (writable : Paths.path -> bool) (data : list pydict)
    (output_path : Paths.path) (fieldnames : list string) : res unit :=
  if writable output_path then
    match snd (Csv.write_csv py_str data fieldnames) with None => Ok tt | Some e => Raise e end
  else Raise OSError.


End Run.


Section Trial5.
Variable after_read : string -> Z.


End Trial5.

End Main.

(* ================================================================== *)
(** * Sample inputs *)

Module Samples.
Import Timing Phases.
Local Open Scope Z_scope.

(** A main-thread timing event. *)
Definition ev_main (pos : nat) (name : string) (t : Z) : event := Ev pos name t "main".

(** A run without [UI_UPDATE_START], and its timestamp map. *)
Definition demo_stream : list event :=
  [ev_main 0 PROCESSING_START 100; ev_main 40 DEDUPLICATION_START 150;
   ev_main 80 ALL_FILES_DISPLAYED 400].

Definition demo_group : gmap string Z :=
  <[ALL_FILES_DISPLAYED := 400]> (<[DEDUPLICATION_START := 150]> {[PROCESSING_START := 100]}).

(** A run whose deduplication starts before its processing start. *)
Definition backwards_group : gmap string Z :=
  <[DEDUPLICATION_START := 50]> {[PROCESSING_START := 100]}.

(** An event before the only boundary marker. *)
Definition early_stream : list event :=
  [ev_main 0 DEDUPLICATION_START 5; ev_main 30 PROCESSING_START 10].

(** Two JSON markers; the first blob lacks its closing brace.  The
    second blob is [{"a": 1}]. *)
Definition unclosed_then_good : string :=
  FolderJson.json_marker ++ "{bad " ++ FolderJson.json_marker ++
  String "{"%char (Json.quoted "a" ++ ": 1}").

(** The same for the key:value extractor: the first blob has a bad
    float and no closing brace. *)
Definition kv_unclosed_then_good : string :=
  FolderKV.plans_marker ++ "{totalSizeMB: 1.2.3 " ++ FolderKV.plans_marker ++
  "{totalFiles: 3}".








(** A record with a key outside the columns [["a"]]. *)
Definition record_with_extra_key : pydict := <[ "b" := PInt 2 ]> {[ "a" := PInt 1 ]}.

End Samples.

(* ================================================================== *)
(** * Properties *)

(* ------------------------------------------------------------------ *)
(** ** Run groups *)

Module TimingFacts.
Import Timing.
Local Open Scope list_scope.

Lemma add_last_snoc (rs : list (list event)) (r : list event) (e : event) :
  add_last (rs ++ [r]) e = rs ++ [r ++ [e]].
Proof.
  induction rs as [|r0 rs IH]; [reflexivity|].
  simpl. rewrite IH. destruct rs; reflexivity.
Qed.

Lemma split_runs_snoc (evs : list event) (e : event) :
  split_runs (evs ++ [e]) =
  (if is_start e
   then ((split_runs evs).1, (split_runs evs).2 ++ [[e]])
   else (match (split_runs evs).2 with
         | [] => (split_runs evs).1 ++ [e]
         | _ => (split_runs evs).1
         end, add_last (split_runs evs).2 e)).
Proof.
  induction evs as [|x xs IH]; simpl.
  - destruct (is_start e); reflexivity.
  - rewrite IH. destruct (split_runs xs) as [pre runs]. simpl.
    destruct (is_start e) eqn:He, (is_start x) eqn:Hx; simpl; try reflexivity.
    all: destruct runs; reflexivity.
Qed.

Lemma seg_map_snoc (seg : list event) (e : event) :
  seg_map (seg ++ [e]) = <[ev_type e := ev_timing e]> (seg_map seg).
Proof. unfold seg_map. rewrite fold_left_app. reflexivity. Qed.

Lemma seg_map_lookup_gen (seg : list event) (m : gmap string Z) (name : string) :
  fold_left (fun m e => <[ev_type e := ev_timing e]> m) seg m !! name =
  fold_left (fun acc e => if String.eqb (ev_type e) name then Some (ev_timing e) else acc)
    seg (m !! name).
Proof.
  revert m. induction seg as [|e seg IH]; intros m; simpl; [reflexivity|].
  rewrite IH. f_equal.
  destruct (String.eqb_spec (ev_type e) name) as [->|Hne].
  - apply lookup_insert_eq.
  - apply lookup_insert_ne. congruence.
Qed.

(** Last write wins inside a run. *)
Lemma seg_map_lookup (seg : list event) (name : string) :
  seg_map seg !! name = last_value name seg.
Proof. apply seg_map_lookup_gen. Qed.

(** Every run starts with its boundary marker. *)
Lemma split_runs_heads (evs : list event) (r : list event) :
  r ∈ (split_runs evs).2 -> exists e rest, r = e :: rest /\ is_start e = true.
Proof.
  induction evs as [|x xs IH]; simpl; intros Hr.
  - inversion Hr.
  - destruct (split_runs xs) as [pre runs] eqn:Hs. simpl in *.
    destruct (is_start x) eqn:Hx; simpl in Hr.
    + apply elem_of_cons in Hr as [->|Hr]; eauto.
    + eauto.
Qed.

(** The grouping of [plans/.../parse_console_log.py], described by the
    runs: group [k+1] is the timestamp map of the [k]-th run, and there
    is no group 0 and no group for the events before the first marker. *)
Lemma group_runs_spec (evs : list event) :
  current_test_run (group_runs evs) = length (split_runs evs).2 /\
  test_run_data (group_runs evs) !! 0%nat = None /\
  (forall k, test_run_data (group_runs evs) !! S k = seg_map <$> (split_runs evs).2 !! k).
Proof.
  induction evs as [|e evs IH] using rev_ind.
  - split; [reflexivity|]. split; [reflexivity|]. intros k. reflexivity.
  - unfold group_runs in *. rewrite fold_left_app. simpl.
    rewrite split_runs_snoc.
    destruct (fold_left group_step evs group_init) as [data posns cur].
    destruct (split_runs evs) as [pre runs]. simpl in *.
    destruct IH as (Hcur & H0 & Hk). subst cur.
    unfold group_step. simpl.
    destruct (is_start e) eqn:He; simpl.
    + rewrite length_app. simpl. split; [lia|].
      unfold set_event. split.
      { rewrite lookup_insert_ne by lia. exact H0. }
      intros k. rewrite (Hk (length runs)), lookup_ge_None_2 by lia. simpl.
      destruct (decide (k = length runs)) as [->|Hne].
      * rewrite lookup_insert_eq, lookup_app_r, Nat.sub_diag by lia. reflexivity.
      * rewrite lookup_insert_ne by lia. rewrite Hk.
        destruct (decide (k < length runs)) as [Hlt|Hge].
        -- rewrite lookup_app_l by lia. reflexivity.
        -- rewrite !lookup_ge_None_2; [reflexivity| |]; rewrite ?length_app; simpl; lia.
    + destruct runs as [|r rs] using rev_ind; simpl.
      * split; [reflexivity|]. split; [exact H0|]. intros k. rewrite Hk. reflexivity.
      * clear IHrs. rewrite add_last_snoc. rewrite !length_app. simpl.
        replace (length rs + 1)%nat with (S (length rs)) by lia.
        simpl. split; [reflexivity|].
        unfold set_event. split.
        { rewrite lookup_insert_ne by lia. exact H0. }
        intros k. rewrite (Hk (length rs)).
        rewrite lookup_app_r, Nat.sub_diag by lia. simpl.
        destruct (decide (k = length rs)) as [->|Hne].
        -- rewrite lookup_insert_eq, lookup_app_r, Nat.sub_diag by lia. simpl.
           rewrite seg_map_snoc. reflexivity.
        -- rewrite lookup_insert_ne by lia. rewrite Hk.
           destruct (decide (k < length rs)) as [Hlt|Hge].
           ++ rewrite !lookup_app_l by lia. reflexivity.
           ++ rewrite !lookup_ge_None_2; [reflexivity| |]; rewrite ?length_app; simpl; lia.
Qed.

Lemma group_runs_t5_sim (evs : list event) (st : group_state) :
  fold_left Phases.group_step_t5 evs (test_run_data st, current_test_run st) =
  (test_run_data (fold_left group_step evs st), current_test_run (fold_left group_step evs st)).
Proof.
  revert st. induction evs as [|e evs IH]; intros st; [reflexivity|].
  simpl. rewrite <- IH. f_equal.
  unfold group_step, Phases.group_step_t5. destruct st as [data posns cur]. simpl.
  destruct (is_start e); reflexivity.
Qed.

(** [trial5_parser.py] groups the events exactly as [parse_console_log.py]. *)
Lemma group_runs_t5_eq (evs : list event) :
  Phases.group_runs_t5 evs = test_run_data (group_runs evs).
Proof.
  unfold Phases.group_runs_t5, group_runs.
  change (∅ : gmap nat (gmap string Z), 0%nat) with
    (test_run_data group_init, current_test_run group_init).
  rewrite group_runs_t5_sim. reflexivity.
Qed.

(** The older grouping: group 1 collects the events before the first
    marker, group [k+2] is the [k]-th run. *)
Lemma group_runs_v1_spec (evs : list event) :
  snd (fold_left group_step_v1 evs (∅, 1%nat)) = S (length (split_runs evs).2) /\
  group_runs_v1 evs !! 0%nat = None /\
  group_runs_v1 evs !! 1%nat =
    match (split_runs evs).1 with [] => None | pre => Some (seg_map pre) end /\
  (forall k, group_runs_v1 evs !! S (S k) = seg_map <$> (split_runs evs).2 !! k).
Proof.
  unfold group_runs_v1.
  induction evs as [|e evs IH] using rev_ind.
  - split; [reflexivity|]. split; [reflexivity|]. split; [reflexivity|]. intros k. reflexivity.
  - rewrite fold_left_app. simpl. rewrite split_runs_snoc.
    destruct (fold_left group_step_v1 evs (∅, 1%nat)) as [data cur].
    destruct (split_runs evs) as [pre runs]. simpl in *.
    destruct IH as (Hcur & H0 & H1 & Hk). subst cur.
    unfold set_event.
    destruct (is_start e) eqn:He; simpl.
    + rewrite length_app. simpl. split; [lia|].
      split; [rewrite lookup_insert_ne by lia; exact H0|].
      split; [rewrite lookup_insert_ne by lia; exact H1|].
      intros k. rewrite (Hk (length runs)), lookup_ge_None_2 by lia. simpl.
      destruct (decide (k = length runs)) as [->|Hne].
      * rewrite lookup_insert_eq, lookup_app_r, Nat.sub_diag by lia. reflexivity.
      * rewrite lookup_insert_ne by lia. rewrite Hk.
        destruct (decide (k < length runs)) as [Hlt|Hge].
        -- rewrite lookup_app_l by lia. reflexivity.
        -- rewrite !lookup_ge_None_2; [reflexivity| |]; rewrite ?length_app; simpl; lia.
    + destruct runs as [|r rs] using rev_ind; simpl.
      * split; [reflexivity|].
        split; [rewrite lookup_insert_ne by lia; exact H0|].
        split.
        { rewrite lookup_insert_eq, H1.
          assert (Hm : match pre ++ [e] with [] => None | l => Some (seg_map l) end
                       = Some (seg_map (pre ++ [e]))) by (destruct pre; reflexivity).
          rewrite Hm, seg_map_snoc. destruct pre; reflexivity. }
        intros k. rewrite lookup_insert_ne by lia. rewrite Hk. reflexivity.
      * clear IHrs. rewrite add_last_snoc. rewrite !length_app. simpl.
        replace (length rs + 1)%nat with (S (length rs)) by lia.
        split; [reflexivity|].
        split; [rewrite lookup_insert_ne by lia; exact H0|].
        split.
        { rewrite lookup_insert_ne by lia. rewrite H1.
          destruct (rs ++ [r]) eqn:Hrs; [destruct rs; discriminate|]. reflexivity. }
        intros k. rewrite (Hk (length rs)).
        rewrite lookup_app_r, Nat.sub_diag by lia. simpl.
        destruct (decide (k = length rs)) as [->|Hne].
        -- rewrite lookup_insert_eq, lookup_app_r, Nat.sub_diag by lia. simpl.
           rewrite seg_map_snoc. reflexivity.
        -- rewrite lookup_insert_ne by lia. rewrite Hk.
           destruct (decide (k < length rs)) as [Hlt|Hge].
           ++ rewrite !lookup_app_l by lia. reflexivity.
           ++ rewrite !lookup_ge_None_2; [reflexivity| |]; rewrite ?length_app; simpl; lia.
Qed.

Lemma last_value_from_some (name : string) (seg : list event) (x : Z) :
  is_Some (fold_left (fun acc e => if String.eqb (ev_type e) name then Some (ev_timing e) else acc)
             seg (Some x)).
Proof.
  revert x. induction seg as [|e seg IH]; intros x; simpl; [eauto|].
  destruct (String.eqb (ev_type e) name); apply IH.
Qed.

(** Every run group holds a [PROCESSING_START] timestamp. *)
Lemma group_has_start (evs : list event) (k : nat) (data : gmap string Z) :
  test_run_data (group_runs evs) !! k = Some data -> is_Some (data !! PROCESSING_START).
Proof.
  destruct (group_runs_spec evs) as (_ & H0 & Hk).
  destruct k as [|k]; [congruence|]. rewrite Hk.
  destruct ((split_runs evs).2 !! k) as [r|] eqn:Hr; simpl; [|discriminate].
  intros [= <-].
  destruct (split_runs_heads evs r) as (e & rest & -> & He).
  { eapply list_elem_of_lookup_2. exact Hr. }
  rewrite seg_map_lookup. unfold last_value. simpl.
  unfold is_start in He. rewrite He. apply last_value_from_some.
Qed.

End TimingFacts.

Module TimingClaims.
Import Timing Phases TimingFacts Samples.
Local Open Scope Z_scope.

(** C5: within a run group the stored value of an event name is the
    value of its last occurrence in that run, in both versions of
    [parse_timing_data]; a group is built from its own run only, so an
    occurrence in another run never overwrites it. *)
Theorem run_group_last_write_wins (evs : list event) (k : nat) (name : string) :
  (test_run_data (group_runs evs) !! S k ≫= fun data => data !! name) =
    ((split_runs evs).2 !! k ≫= last_value name) /\
  (group_runs_v1 evs !! S (S k) ≫= fun data => data !! name) =
    ((split_runs evs).2 !! k ≫= last_value name).
Proof.
  destruct (group_runs_spec evs) as (_ & _ & Hk).
  destruct (group_runs_v1_spec evs) as (_ & _ & _ & Hk1).
  rewrite Hk, Hk1.
  destruct ((split_runs evs).2 !! k) as [r|]; simpl; [|split; reflexivity].
  rewrite seg_map_lookup. split; reflexivity.
Qed.

(** C1 (amended): in [parse_console_log.py] each duration of a run
    group is end minus start when both timestamps are in the group and
    [None] otherwise; in [trial5_parser.py] an absent timestamp is read
    as 0 and a duration is [None] exactly when the (defaulted) end is
    below the (defaulted) start. *)
Theorem phase_durations_of_run_groups (evs : list event) (k : nat) (w : bool)
    (data : gmap string Z) :
  test_run_data (group_runs evs) !! k = Some data ->
  forall end_name start_name proj proj5,
    In (end_name, start_name, proj, proj5) phase_table ->
    proj (timing_row_of k w data) = spec_duration data end_name start_name /\
    proj5 (t5_row_of k data) =
      guarded_diff (default 0 (data !! end_name)) (default 0 (data !! start_name)).
Proof.
  intros Hg en sn proj proj5 Hin.
  destruct (group_has_start evs k data Hg) as [ps Hps].
  simpl in Hin.
  destruct Hin as [H|[H|[H|[H|[]]]]]; injection H as <- <- <- <-;
    unfold timing_row_of, t5_row_of, spec_duration; simpl; rewrite ?Hps;
    repeat match goal with |- context [data !! ?x] => destruct (data !! x) end;
    split; reflexivity.
Qed.

(** C7 (amended): neither calculator checks that a run's timestamps
    increase, and neither raises: when both endpoints are present and
    the end is below the start, [parse_console_log.py] stores the
    negative difference and [trial5_parser.py] stores [None]. *)
Theorem decreasing_timestamps_unchecked (data : gmap string Z) (k : nat) (w : bool)
    end_name start_name proj proj5 (x y : Z) :
  In (end_name, start_name, proj, proj5) phase_table ->
  data !! end_name = Some x -> data !! start_name = Some y -> x < y ->
  proj (timing_row_of k w data) = Some (x - y) /\ x - y < 0 /\
  proj5 (t5_row_of k data) = None.
Proof.
  intros Hin Hx Hy Hlt. simpl in Hin.
  assert (Hg : guarded_diff x y = None).
  { unfold guarded_diff. destruct (Z.leb_spec y x); [lia|reflexivity]. }
  destruct Hin as [H|[H|[H|[H|[]]]]]; injection H as <- <- <- <-;
    unfold timing_row_of, t5_row_of; simpl; rewrite Hx, Hy; simpl;
    (split; [reflexivity|split; [lia|exact Hg]]).
Qed.

Lemma phase_durations_of_run_groups_witness :
  test_run_data (group_runs demo_stream) !! 1%nat = Some demo_group /\
  tr_phase1FileAnalysisMs (timing_row_of 1 false demo_group) =
    spec_duration demo_group DEDUPLICATION_START PROCESSING_START /\
  t5_phase1FileAnalysisMs (t5_row_of 1 demo_group) =
    guarded_diff (default 0 (demo_group !! DEDUPLICATION_START))
                 (default 0 (demo_group !! PROCESSING_START)).
Proof.
  assert (Hg : test_run_data (group_runs demo_stream) !! 1%nat = Some demo_group)
    by reflexivity.
  split; [exact Hg|].
  apply (phase_durations_of_run_groups demo_stream 1 false demo_group Hg
           DEDUPLICATION_START PROCESSING_START tr_phase1FileAnalysisMs
           t5_phase1FileAnalysisMs).
  simpl. left. reflexivity.
Defined.

(** C1 fails for [trial5_parser.py]: a run without [UI_UPDATE_START]
    gets a UI-rendering phase of [ALL_FILES_DISPLAYED - 0 = 400] where
    the claim wants [None]. *)
Lemma trial5_absent_start_read_as_zero :
  t5_rows demo_stream =
    [T5Row 1 (Some 300) (Some 50) None (Some 400) 100 150 0 400] /\
  Phases.group_runs_t5 demo_stream !! 1%nat = Some demo_group /\
  t5_phase3UIRenderingMs (t5_row_of 1 demo_group) = Some 400 /\
  spec_duration demo_group ALL_FILES_DISPLAYED UI_UPDATE_START = None.
Proof. split; [reflexivity|]. split; [reflexivity|]. split; reflexivity. Qed.

Lemma decreasing_timestamps_unchecked_witness :
  tr_phase1FileAnalysisMs (timing_row_of 1 false backwards_group) = Some (50 - 100) /\
  50 - 100 < 0 /\
  t5_phase1FileAnalysisMs (t5_row_of 1 backwards_group) = None.
Proof.
  apply (decreasing_timestamps_unchecked backwards_group 1 false DEDUPLICATION_START
           PROCESSING_START tr_phase1FileAnalysisMs t5_phase1FileAnalysisMs 50 100).
  - simpl. left. reflexivity.
  - reflexivity.
  - reflexivity.
  - lia.
Defined.

(** C7 fails for [trial5_parser.py]: the backwards phase is [None],
    not the negative difference. *)
Lemma trial5_backwards_phase_is_none :
  t5_phase1FileAnalysisMs (t5_row_of 1 backwards_group) = None /\
  t5_phase1FileAnalysisMs (t5_row_of 1 backwards_group) <> Some (50 - 100).
Proof. split; [reflexivity|discriminate]. Qed.

(** C2 in the older [docs/speed_tests/parse_console_log.py]: an event
    before the only marker makes a second group (numbered 1), and the
    marker's run is group 2; the later grouping discards that event
    and yields one group. *)
Lemma older_grouping_keeps_pre_marker_events :
  count_starts early_stream = 1%nat /\
  size (group_runs_v1 early_stream) = 2%nat /\
  group_runs_v1 early_stream !! 1%nat = Some {[DEDUPLICATION_START := 5]} /\
  group_runs_v1 early_stream !! 2%nat = Some {[PROCESSING_START := 10]} /\
  size (test_run_data (group_runs early_stream)) = 1%nat /\
  test_run_data (group_runs early_stream) !! 1%nat = Some {[PROCESSING_START := 10]}.
Proof. repeat split; reflexivity. Qed.

End TimingClaims.

(* ------------------------------------------------------------------ *)
(** ** The record loops of the folder-metric extractors *)

Module FolderFacts.
Import Scan FolderKV FolderJson.
Local Open Scope Z_scope.

(** A loop body that appends the row of a match that succeeds and
    advances [test_run], and leaves both alone on a match that fails. *)
Section Fold.
Context {A : Type}.
Variable dec : string -> option A.
Variable mk : Z -> A -> pydict.
Variable step : fx_state -> string -> fx_state.
Hypothesis step_data : forall st m,
  folder_data (step st m) =
    match dec m with
    | Some a => (folder_data st ++ [mk (test_run st) a])%list
    | None => folder_data st
    end.
Hypothesis step_run : forall st m,
  test_run (step st m) =
    match dec m with Some _ => test_run st + 1 | None => test_run st end.

Lemma fold_steps ms st :
  folder_data (fold_left step ms st) =
    (folder_data st ++ imap (fun i a => mk (test_run st + Z.of_nat i) a) (omap dec ms))%list /\
  test_run (fold_left step ms st) = test_run st + Z.of_nat (length (omap dec ms)).
Proof.
  induction ms as [|m ms IH] using rev_ind; simpl.
  - rewrite app_nil_r. split; [reflexivity | lia].
  - rewrite fold_left_app. simpl. rewrite step_data, step_run.
    destruct IH as [IH1 IH2]. rewrite omap_app. simpl.
    destruct (dec m) as [a|]; simpl.
    + rewrite imap_app, IH1, IH2, length_app. simpl. split; [|lia].
      rewrite <- app_assoc. simpl.
      replace (test_run st + Z.of_nat (length (omap dec ms) + 0))
        with (test_run st + Z.of_nat (length (omap dec ms))) by lia.
      reflexivity.
    + rewrite !app_nil_r. split; assumption.
Qed.

End Fold.

(** The matches that fail, and the place of a match that succeeds
    among the successes. *)
Lemma length_omap_filter {A} (dec : string -> option A) (ms : list string) :
  (length (omap dec ms) + length (filter (fun m => ~ is_Some (dec m)) ms))%nat
    = length ms.
Proof.
  induction ms as [|m ms IH]; [reflexivity|].
  rewrite filter_cons. simpl. unfold omap in IH.
  case_decide as Hd; destruct (dec m) as [a|] eqn:E; simpl.
  - exfalso. apply Hd. exists a. reflexivity.
  - lia.
  - lia.
  - exfalso. destruct Hd as [? ?]. discriminate.
Qed.



Lemma copy_keys_insert data ks r k v :
  ~ In k ks ->
  copy_keys data ks (<[k := v]> r) =
    match copy_keys data ks r with Ok r' => Ok (<[k := v]> r') | Raise e => Raise e end.
Proof.
  revert r. induction ks as [|k' ks IH]; intros r Hk; simpl; [reflexivity|].
  destruct (getitem data k') as [v'|e]; simpl; [|reflexivity].
  rewrite insert_insert_ne by (intros ->; apply Hk; left; reflexivity).
  apply IH. intros Hin. apply Hk. right. exact Hin.
Qed.

Lemma plans_row_fields tr m :
  plans_row tr m =
    match plans_fields_row m with
    | Ok r => Ok (<[ "TestRun#" := PInt tr ]> r)
    | Raise e => Raise e
    end.
Proof.
  unfold plans_row, plans_fields_row.
  destruct (plans_blob_data m) as [data|e]; cbn [res_bind]; [|reflexivity].
  change ({[ "TestRun#" := PInt tr ]} : pydict) with (<[ "TestRun#" := PInt tr ]> (∅ : pydict)).
  apply copy_keys_insert. simpl. intuition discriminate.
Qed.

Section Loops.
Variable loads : string -> res pydict.

Lemma json_fold ms st :
  folder_data (fold_left (json_step loads) ms st) =
    (folder_data st ++ imap (fun i d => json_row (test_run st + Z.of_nat i) d)
                            (omap (fun m => res_to_option (loads m)) ms))%list /\
  test_run (fold_left (json_step loads) ms st) =
    test_run st + Z.of_nat (length (omap (fun m => res_to_option (loads m)) ms)).
Proof.
  apply fold_steps; intros st' m; unfold json_step;
    destruct (loads m) as [d|[]]; simpl; try reflexivity;
    destruct (format_1f _); reflexivity.
Qed.

Lemma json_step_printed st m :
  printed (json_step loads st m) =
    (printed st ++ [match loads m with
                    | Ok d => match format_1f (dict_get d "totalSizeMB" (PInt 0)) with
                              | Ok _ => LEntry (test_run st)
                              | Raise e => LWarnError e
                              end
                    | Raise e => decode_warning m e
                    end])%list.
Proof.
  unfold json_step. destruct (loads m) as [d|[]]; simpl; try reflexivity.
  destruct (format_1f _); simpl; repeat f_equal; lia.
Qed.

Lemma json_fold_printed ms st :
  length (printed (fold_left (json_step loads) ms st)) = (length (printed st) + length ms)%nat /\
  forall p m e, ms !! p = Some m -> loads m = Raise e ->
    printed (fold_left (json_step loads) ms st) !! (length (printed st) + p)%nat
      = Some (decode_warning m e).
Proof.
  induction ms as [|x ms IH] using rev_ind.
  - simpl. split; [lia|]. intros p m e Hp. rewrite lookup_nil in Hp. discriminate.
  - rewrite fold_left_app. simpl. rewrite json_step_printed.
    destruct IH as [IHl IHp]. rewrite !length_app, IHl. simpl. split; [lia|].
    intros p m e Hp He.
    destruct (decide (p < length ms)%nat) as [Hlt|Hge].
    + rewrite lookup_app_l in Hp by lia. rewrite lookup_app_l by lia. apply IHp; assumption.
    + rewrite lookup_app_r in Hp by lia.
      destruct (p - length ms)%nat eqn:Hd; [|simpl in Hp; discriminate].
      simpl in Hp. injection Hp as ->.
      rewrite lookup_app_r by lia. rewrite IHl, He.
      replace (length (printed st) + p - (length (printed st) + length ms))%nat with O by lia.
      reflexivity.
Qed.

End Loops.

Lemma plans_fold ms st :
  folder_data (fold_left plans_step ms st) =
    (folder_data st ++ imap (fun i r => <[ "TestRun#" := PInt (test_run st + Z.of_nat i) ]> r)
                            (omap (fun m => res_to_option (plans_fields_row m)) ms))%list /\
  test_run (fold_left plans_step ms st) =
    test_run st + Z.of_nat (length (omap (fun m => res_to_option (plans_fields_row m)) ms)).
Proof.
  apply (fold_steps (fun m => res_to_option (plans_fields_row m))
           (fun tr r => <[ "TestRun#" := PInt tr ]> r)); intros st' m;
    unfold plans_step; rewrite plans_row_fields;
    destruct (plans_fields_row m); reflexivity.
Qed.

Lemma plans_fold_printed ms st :
  printed (fold_left plans_step ms st) =
    (printed st ++ map LWarnParse
       (filter (fun m => ~ is_Some (res_to_option (plans_fields_row m))) ms))%list.
Proof.
  induction ms as [|x ms IH] using rev_ind.
  - simpl. rewrite app_nil_r. reflexivity.
  - rewrite fold_left_app, filter_app, map_app, app_assoc, <- IH. simpl.
    unfold plans_step. rewrite plans_row_fields, filter_cons.
    case_decide as Hd; destruct (plans_fields_row x) as [r|e]; simpl.
    + exfalso. apply Hd. eexists. reflexivity.
    + reflexivity.
    + rewrite app_nil_r. reflexivity.
    + exfalso. destruct Hd as [? ?]. discriminate.
Qed.

End FolderFacts.

Module FolderClaims.
Import Scan FolderKV FolderJson FolderFacts Samples.
Local Open Scope Z_scope.



(** C3 (amended): the extractors never raise, and they work on the
    regular-expression matches, not on the markers.  With any decoder,
    the JSON extractor yields one record per match that decodes, so the
    records and the failing matches together number the matches; it
    prints one line per match after the count line, and the line of a
    match whose decode raised is its warning.  The key:value extractor
    yields one record per match whose fields parse and one warning per
    other match, in order. *)
Theorem extractors_skip_failing_matches (loads : string -> res pydict) (content : string) :
  (length (parse_json_folder_analysis_data loads content)
   + length (filter (fun m => ~ is_Some (res_to_option (loads m))) (json_matches content)))%nat
    = length (json_matches content) /\
  length (printed (parse_json_folder_analysis_data_st loads content))
    = S (length (json_matches content)) /\
  (forall p m e, json_matches content !! p = Some m -> loads m = Raise e ->
     printed (parse_json_folder_analysis_data_st loads content) !! S p
       = Some (decode_warning m e)) /\
  (length (parse_folder_analysis_data content)
   + length (printed (parse_folder_analysis_data_st content)))%nat
    = length (plans_matches content) /\
  printed (parse_folder_analysis_data_st content)
    = map LWarnParse (filter (fun m => ~ is_Some (res_to_option (plans_fields_row m)))
                        (plans_matches content)).
Proof.
  unfold parse_json_folder_analysis_data, parse_json_folder_analysis_data_st,
    parse_folder_analysis_data, parse_folder_analysis_data_st.
  destruct (json_fold loads (json_matches content)
              (FX [] 1 [LFound (length (json_matches content))])) as [Hj _].
  destruct (json_fold_printed loads (json_matches content)
              (FX [] 1 [LFound (length (json_matches content))])) as [Hl Hp].
  destruct (plans_fold (plans_matches content) (FX [] 1 [])) as [Hk _].
  pose proof (plans_fold_printed (plans_matches content) (FX [] 1 [])) as Hkp.
  simpl in Hj, Hl, Hp, Hk, Hkp.
  rewrite Hj, Hl, Hk, Hkp, length_imap, length_imap, length_map.
  split; [apply length_omap_filter|].
  split; [reflexivity|].
  split; [exact Hp|].
  split; [apply length_omap_filter|reflexivity].
Qed.

(** C3 fails as stated: a blob without its closing brace makes the
    lazy capture run on to the next marker's brace, so two markers with
    one malformed blob give one match, one warning and no record. *)
Lemma unclosed_blob_swallows_next_marker :
  str_count json_marker unclosed_then_good = 2%nat /\
  length (json_matches unclosed_then_good) = 1%nat /\
  parse_json_folder_analysis_data Json.json_loads unclosed_then_good = [] /\
  length (filter is_warning
            (printed (parse_json_folder_analysis_data_st Json.json_loads unclosed_then_good)))
    = 1%nat /\
  str_count plans_marker kv_unclosed_then_good = 2%nat /\
  parse_folder_analysis_data kv_unclosed_then_good = [] /\
  length (printed (parse_folder_analysis_data_st kv_unclosed_then_good)) = 1%nat.
Proof. repeat split; vm_compute; reflexivity. Qed.



(** C6 in [plans/.../parse_console_log.py]: a float field
    ([totalSizeMB]) is a float when the blob has it and the integer [0]
    when it is absent, while [improved_parser.py] defaults it to [0.0]. *)
Lemma plans_absent_float_field_is_int :
  (res_to_option (plans_row 1 "totalFiles: 3") ≫= fun r => r !! "totalSizeMB")
    = Some (PInt 0) /\
  (res_to_option (plans_row 1 "totalFiles: 3, totalSizeMB: 2") ≫= fun r => r !! "totalSizeMB")
    = Some (PFloat (normalize 2 0)) /\
  (res_to_option (improved_blob_data "totalFiles: 3") ≫= fun r => r !! "totalSizeMB")
    = Some (PFloat (Dec 0 0)).
Proof. repeat split; vm_compute; reflexivity. Qed.

End FolderClaims.

(* ------------------------------------------------------------------ *)
(** ** The CSV writer *)

Module CsvFacts.
Import Csv.

Lemma existsb_eqb_In (k : string) (l : list string) :
  existsb (String.eqb k) l = true <-> In k l.
Proof.
  rewrite existsb_exists. split.
  - intros (x & Hx & He). apply String.eqb_eq in He. subst. exact Hx.
  - intros H. exists k. split; [exact H | apply String.eqb_refl].
Qed.

Section Rows.
Variable py_str : pyval -> string.

Lemma dict_to_list_ok fieldnames r :
  keys_within fieldnames r -> dict_to_list py_str fieldnames r = Ok (row_cells py_str fieldnames r).
Proof.
  intros Hr. unfold dict_to_list.
  destruct (existsb _ _) eqn:E; [exfalso|reflexivity].
  apply existsb_exists in E as (k & Hk & Hn).
  apply in_map_iff in Hk as ([k' v] & <- & Hin).
  apply list_elem_of_In, elem_of_map_to_list in Hin. simpl in Hn.
  apply Hr, existsb_eqb_In in Hin. rewrite Hin in Hn. discriminate.
Qed.

Lemma dict_to_list_extra fieldnames r k v :
  r !! k = Some v -> ~ In k fieldnames -> dict_to_list py_str fieldnames r = Raise ValueError.
Proof.
  intros Hk Hn. unfold dict_to_list.
  replace (existsb _ _) with true; [reflexivity|]. symmetry.
  apply existsb_exists. exists k. split.
  - apply in_map_iff. exists (k, v). split; [reflexivity|].
    apply list_elem_of_In, elem_of_map_to_list. exact Hk.
  - destruct (existsb (String.eqb k) fieldnames) eqn:E; [|reflexivity].
    apply existsb_eqb_In in E. contradiction.
Qed.

Lemma writerows_ok fieldnames data :
  Forall (keys_within fieldnames) data ->
  writerows py_str fieldnames data = (map (row_cells py_str fieldnames) data, None).
Proof.
  induction 1 as [|r data Hr _ IH]; simpl; [reflexivity|].
  rewrite dict_to_list_ok by exact Hr. rewrite IH. reflexivity.
Qed.

Lemma writerows_stops fieldnames pre r rest k v :
  Forall (keys_within fieldnames) pre -> r !! k = Some v -> ~ In k fieldnames ->
  writerows py_str fieldnames (pre ++ r :: rest) = (map (row_cells py_str fieldnames) pre, Some ValueError).
Proof.
  intros Hpre Hk Hn. induction Hpre as [|r' pre Hr' _ IH]; simpl.
  - rewrite (dict_to_list_extra _ _ k v Hk Hn). reflexivity.
  - rewrite dict_to_list_ok by exact Hr'. rewrite IH. reflexivity.
Qed.

End Rows.

Lemma all_keys_complete (merged : list pydict) r k v :
  In r merged -> r !! k = Some v ->
  k ∈ (foldr (fun item acc => dom item ∪ acc) ∅ merged : gset string).
Proof.
  intros Hin Hk. induction merged as [|r' merged IH]; simpl in *; [contradiction|].
  apply elem_of_union. destruct Hin as [<-|Hin].
  - left. apply elem_of_dom. exists v. exact Hk.
  - right. apply IH. exact Hin.
Qed.

Lemma extend_fieldnames_complete (l fns : list string) k :
  In k fns \/ In k l ->
  In k (foldl (fun fns key => if existsb (String.eqb key) fns then fns else (fns ++ [key])%list)
           fns l).
Proof.
  revert fns. induction l as [|key l IH]; intros fns H; simpl.
  - destruct H as [H|H]; [exact H | contradiction].
  - apply IH. destruct H as [H|[->|H]].
    + left. destruct (existsb _ _); [exact H | apply in_or_app; left; exact H].
    + left. destruct (existsb (String.eqb k) fns) eqn:E.
      * apply existsb_eqb_In. exact E.
      * apply in_or_app. right. left. reflexivity.
    + right. exact H.
Qed.

Lemma extend_fieldnames_prefix (l fns : list string) :
  exists extra,
    foldl (fun fns key => if existsb (String.eqb key) fns then fns else (fns ++ [key])%list)
      fns l = (fns ++ extra)%list.
Proof.
  revert fns. induction l as [|key l IH]; intros fns; simpl.
  - exists []. rewrite app_nil_r. reflexivity.
  - destruct (existsb _ _).
    + apply IH.
    + destruct (IH (fns ++ [key])%list) as [extra ->].
      exists (key :: extra). rewrite <- app_assoc. reflexivity.
Qed.

End CsvFacts.

Module CsvClaims.
Import Csv CsvFacts Samples.

(** C9 (amended): [write_csv] writes the header row [fieldnames] first.
    When every key of every record is a column, it then writes one row
    per record, each cell the record's value under that column and the
    empty string for a column the record lacks.  A record with a key
    outside the columns makes [writerows] raise [ValueError]
    ([extrasaction='raise']) after the rows before it.
    [save_results] avoids that: its column list starts with the fixed
    columns and contains every key of the merged records. *)
Theorem dict_writer_rows (py_str : pyval -> string) (fieldnames : list string)
    (data : list pydict) :
  (write_csv py_str data fieldnames).1 !! 0%nat = Some fieldnames /\
  (Forall (keys_within fieldnames) data ->
     write_csv py_str data fieldnames
       = (fieldnames :: map (row_cells py_str fieldnames) data, None)) /\
  (forall pre r rest k v,
     data = (pre ++ r :: rest)%list -> Forall (keys_within fieldnames) pre ->
     r !! k = Some v -> ~ In k fieldnames ->
     write_csv py_str data fieldnames
       = (fieldnames :: map (row_cells py_str fieldnames) pre, Some ValueError)) /\
  (forall fixed : list string,
     (exists extra, save_results_fieldnames fixed data = (fixed ++ extra)%list) /\
     Forall (keys_within (save_results_fieldnames fixed data)) data).
Proof.
  split; [|split; [|split]].
  - unfold write_csv. destruct (writerows _ _ _). reflexivity.
  - intros Hall. unfold write_csv. rewrite writerows_ok by exact Hall. reflexivity.
  - intros pre r rest k v -> Hpre Hk Hn. unfold write_csv.
    rewrite (writerows_stops py_str fieldnames pre r rest k v Hpre Hk Hn). reflexivity.
  - intros fixed. split; [apply extend_fieldnames_prefix|].
    apply Forall_forall. intros r Hr k v Hk.
    apply extend_fieldnames_complete. right.
    apply (Permutation_in _ (Permutation_sym (merge_sort_Permutation _ _))).
    apply list_elem_of_In, elem_of_elements.
    exact (all_keys_complete data r k v (proj1 (list_elem_of_In _ _) Hr) Hk).
Qed.

(** C9 fails as stated: a record key that is not a column raises
    [ValueError] instead of being rendered as empty. *)
Lemma extra_key_raises :
  write_csv (fun _ => "1") [record_with_extra_key] ["a"] = ([["a"]], Some ValueError).
Proof. vm_compute. reflexivity. Qed.

End CsvClaims.

(* ------------------------------------------------------------------ *)
(** ** The JSON writer and the JSON extractor *)

(** Decoding what [encode_obj] writes gives back its members, and the
    lazy capture of the extractor takes exactly the written blob. *)
Module JsonFacts.
Import Scan Json.
Local Open Scope Z_scope.
Lemma str_app_cons x (a b : string) : String x a ++ b = String x (a ++ b).
Proof. reflexivity. Qed.



Lemma str_app_nil_r (a : string) : a ++ EmptyString = a.
Proof. induction a as [|x a IH]; [reflexivity|]. rewrite str_app_cons, IH. reflexivity. Qed.


Lemma str_length_app s t : String.length (s ++ t) = (String.length s + String.length t)%nat.
Proof. induction s as [|x s IH]; [reflexivity|]. rewrite str_app_cons. simpl. rewrite IH. reflexivity. Qed.

Lemma nobrace_app s t : nobrace (s ++ t) = nobrace s && nobrace t.
Proof. induction s as [|x s IH]; [reflexivity|]. rewrite str_app_cons. simpl. rewrite IH, andb_assoc. reflexivity. Qed.





Section FindallFuel.

Variable pre : string.

Variable cap : string -> option (string * string).

Hypothesis cap_shorter : forall r g rest, cap r = Some (g, rest) ->
  (String.length rest < String.length r)%nat.


End FindallFuel.






Lemma json_row_keys n data k x : FolderJson.json_row n data !! k = Some x ->
  k = "TestRun#" \/ exists d, In (k, d) FolderJson.json_columns.
Proof.
  unfold FolderJson.json_row. intros H. apply elem_of_list_to_map_2, list_elem_of_In in H.
  destruct H as [E|H]; [injection E as <- _; left; reflexivity|].
  apply in_map_iff in H as ([k' d] & E & Hin). injection E as <- _. right. exists d. exact Hin.
Qed.

End JsonFacts.

Module JsonClaims.
Import Scan Json FolderJson FolderKVv1 JsonFacts Samples.
Local Open Scope Z_scope.




End JsonClaims.

(* ================================================================== *)
(** * Properties of the rest of the extractors *)

Module RowFacts.
Import Timing Phases TimingFacts TimingV1.
Local Open Scope list_scope.

(** The shape of the runs: no marker before the first one, each run one
    marker followed by non-markers, the markers in stream order. *)
Lemma split_runs_shape (evs : list event) :
  Forall nonstart (split_runs evs).1 /\
  map hd_error (split_runs evs).2 = map Some (filter is_start evs) /\
  Forall (fun r => exists e rest, r = e :: rest /\ Forall nonstart rest) (split_runs evs).2.
Proof.
  induction evs as [|x xs IH]; simpl.
  - split; [constructor|]. split; constructor.
  - destruct (split_runs xs) as [pre runs]. simpl in *. destruct IH as (Hpre & Hhd & Hr).
    rewrite filter_cons. destruct (is_start x) eqn:Hx; simpl.
    + split; [constructor|]. split; [rewrite Hhd; reflexivity|].
      constructor; [|exact Hr]. exists x, pre. split; [reflexivity|exact Hpre].
    + split; [constructor; [exact Hx|exact Hpre]|]. split; [exact Hhd|exact Hr].
Qed.

Lemma length_split_runs (evs : list event) :
  length (split_runs evs).2 = count_starts evs.
Proof.
  destruct (split_runs_shape evs) as (_ & Hhd & _).
  unfold count_starts. rewrite <- (length_map hd_error), Hhd, length_map. reflexivity.
Qed.

Lemma last_value_nonstart (rest : list event) (a0 : option Z) :
  Forall nonstart rest ->
  fold_left (fun acc e => if String.eqb (ev_type e) PROCESSING_START then Some (ev_timing e) else acc)
    rest a0 = a0.
Proof.
  intros H. revert a0. induction H as [|x rest Hx _ IH]; intros a0; simpl; [reflexivity|].
  unfold nonstart, is_start in Hx. rewrite Hx. apply IH.
Qed.

(** The [k]-th run is the [k]-th marker with the non-markers after it,
    and its [PROCESSING_START] is that marker's timing. *)
Lemma run_lookup (evs : list event) (k : nat) (e : event) :
  filter is_start evs !! k = Some e ->
  exists r, (split_runs evs).2 !! k = Some r /\ seg_map r !! PROCESSING_START = Some (ev_timing e).
Proof.
  intros He. destruct (split_runs_shape evs) as (_ & Hhd & Hr).
  assert (Hk : map hd_error (split_runs evs).2 !! k = Some (Some e))
    by (rewrite Hhd, list_lookup_fmap, He; reflexivity).
  rewrite list_lookup_fmap in Hk.
  destruct ((split_runs evs).2 !! k) as [r|] eqn:Hrk; [|discriminate]. simpl in Hk.
  exists r. split; [reflexivity|].
  rewrite Forall_lookup in Hr. destruct (Hr k r Hrk) as (e' & rest & -> & Hrest).
  simpl in Hk. injection Hk as ->.
  assert (Hs : is_start e = true).
  { apply list_elem_of_lookup_2, list_elem_of_filter in He. destruct He as [He _]. apply Is_true_true. exact He. }
  rewrite seg_map_lookup. unfold last_value. simpl. unfold is_start in Hs. rewrite Hs.
  apply last_value_nonstart. exact Hrest.
Qed.

(** [test_run_positions]: the position of the [k]-th marker under [k+1]. *)
Lemma group_positions (evs : list event) :
  current_test_run (group_runs evs) = count_starts evs /\
  forall i, test_run_positions (group_runs evs) !! i =
    match i with O => None | S k => ev_pos <$> filter is_start evs !! k end.
Proof.
  unfold group_runs, count_starts.
  induction evs as [|e evs IH] using rev_ind.
  - split; [reflexivity|]. intros [|k]; reflexivity.
  - rewrite fold_left_app, filter_app. simpl.
    destruct (fold_left group_step evs group_init) as [data posns cur]. simpl in *.
    destruct IH as [Hcur Hp]. subst cur. unfold group_step. simpl. rewrite filter_cons.
    destruct (is_start e) eqn:He; simpl.
    + rewrite length_app. simpl. split; [lia|]. intros [|k].
      * rewrite lookup_insert_ne by lia. apply Hp.
      * destruct (decide (k = length (filter is_start evs))) as [->|Hne].
        -- rewrite lookup_insert_eq, lookup_app_r, Nat.sub_diag by lia. reflexivity.
        -- rewrite lookup_insert_ne by lia. rewrite Hp.
           destruct (decide (k < length (filter is_start evs))) as [Hlt|Hge].
           ++ rewrite lookup_app_l by lia. reflexivity.
           ++ rewrite !lookup_ge_None_2; [reflexivity| |]; rewrite ?length_app; simpl; lia.
    + rewrite app_nil_r. split; [reflexivity|]. exact Hp.
Qed.

Lemma key_le_total : Total key_le.
Proof. intros x y. unfold key_le. lia. Qed.
#[local] Existing Instance key_le_total.

(** [sorted(d.keys())]: the keys of [d], listed in increasing order. *)
Lemma sorted_items_keys (d : gmap nat (gmap string Z)) (l : list nat) :
  (forall i, is_Some (d !! i) <-> i ∈ l) -> Sorted le l -> NoDup l ->
  map fst (sorted_items d) = l.
Proof.
  intros Hd Hs Hn. apply (Sorted_unique (A := nat) le).
  - unfold sorted_items. eapply Sorted_fmap; [|apply Sorted_merge_sort; apply _].
    intros x y H. exact H.
  - exact Hs.
  - unfold sorted_items. rewrite (merge_sort_Permutation key_le (map_to_list d)).
    apply NoDup_Permutation; [apply NoDup_fst_map_to_list | exact Hn|].
    intros i. rewrite <- Hd. split.
    + intros ([i' x] & -> & Hx)%list_elem_of_fmap. apply elem_of_map_to_list in Hx.
      simpl. eexists. exact Hx.
    + intros [x Hx]. apply list_elem_of_fmap. exists (i, x). split; [reflexivity|].
      apply elem_of_map_to_list. exact Hx.
Qed.

Lemma Sorted_seq (s n : nat) : Sorted le (seq s n).
Proof.
  revert s. induction n as [|n IH]; intros s; simpl; [constructor|].
  constructor; [apply IH|]. destruct n; constructor. lia.
Qed.

Lemma sorted_items_seq (d : gmap nat (gmap string Z)) (n : nat) :
  (forall i, is_Some (d !! i) <-> (1 <= i <= n)%nat) ->
  map fst (sorted_items d) = seq 1 n.
Proof.
  intros Hd. apply sorted_items_keys; [|apply Sorted_seq|apply NoDup_seq].
  intros i. rewrite Hd, elem_of_seq. lia.
Qed.

Lemma sorted_items_lookup (d : gmap nat (gmap string Z)) (k i : nat) (x : gmap string Z) :
  sorted_items d !! k = Some (i, x) -> d !! i = Some x.
Proof.
  intros H. apply list_elem_of_lookup_2 in H. unfold sorted_items in H.
  rewrite (merge_sort_Permutation key_le (map_to_list d)) in H.
  apply elem_of_map_to_list. exact H.
Qed.

Lemma group_keys (evs : list event) (i : nat) :
  is_Some (test_run_data (group_runs evs) !! i) <-> (1 <= i <= count_starts evs)%nat.
Proof.
  destruct (group_runs_spec evs) as (_ & H0 & Hk). rewrite <- length_split_runs.
  destruct i as [|k]; [rewrite H0; split; [intros [? ?]; discriminate | lia]|].
  rewrite Hk, fmap_is_Some, lookup_lt_is_Some. lia.
Qed.

(** The [k]-th item of [sorted_items] of the grouping. *)
Lemma sorted_group_lookup (evs : list event) (k : nat) (e : event) :
  filter is_start evs !! k = Some e ->
  exists r, sorted_items (test_run_data (group_runs evs)) !! k = Some (S k, seg_map r) /\
            seg_map r !! PROCESSING_START = Some (ev_timing e).
Proof.
  intros He. destruct (run_lookup evs k e He) as (r & Hr & Hps).
  exists r. split; [|exact Hps].
  pose proof (sorted_items_seq _ _ (group_keys evs)) as Hseq.
  assert (Hlt : (k < length (sorted_items (test_run_data (group_runs evs))))%nat).
  { rewrite <- (length_map fst), Hseq, length_seq. unfold count_starts.
    apply lookup_lt_Some in He. exact He. }
  apply lookup_lt_is_Some in Hlt as [[i x] Hix].
  assert (Hi : i = S k).
  { assert (H1 : map fst (sorted_items (test_run_data (group_runs evs))) !! k = Some i)
      by (rewrite list_lookup_fmap, Hix; reflexivity).
    rewrite Hseq, lookup_seq in H1. destruct H1 as [H1 _]. lia. }
  subst i. rewrite Hix. apply sorted_items_lookup in Hix.
  destruct (group_runs_spec evs) as (_ & _ & Hk). rewrite Hk, Hr in Hix.
  injection Hix as <-. reflexivity.
Qed.

End RowFacts.

Module RowExtras.
Import Timing Phases TimingFacts RowFacts.

(** X1: [parse_timing_data] of [plans/.../parse_console_log.py] returns
    one row per [PROCESSING_START] match; the [k]-th row has
    ['Test Run #'] = [k+1], its own marker's timestamp as
    ['PROCESSING_START'], and the worker mode detected at that marker's
    position. *)
Theorem timing_rows_per_marker (detect : nat -> bool) (evs : list event) :
  length (timing_rows detect evs) = count_starts evs /\
  forall k e, filter is_start evs !! k = Some e ->
    exists r, timing_rows detect evs !! k = Some r /\ tr_test_run r = S k /\
      tr_PROCESSING_START r = ev_timing e /\ tr_is_worker_mode r = detect (ev_pos e).
Proof.
  split.
  - unfold timing_rows. rewrite length_map, <- (length_map fst).
    rewrite (sorted_items_seq _ _ (group_keys evs)), length_seq. reflexivity.
  - intros k e He. destruct (sorted_group_lookup evs k e He) as (r & Hs & Hps).
    unfold timing_rows. rewrite list_lookup_fmap, Hs. simpl.
    eexists. split; [reflexivity|]. unfold timing_row_of. simpl.
    rewrite Hps. destruct (group_positions evs) as [_ Hp]. rewrite Hp, He. simpl. auto.
Qed.

(** X2: the timing rows of [parse_trial5_data] are one per
    [PROCESSING_START] match, the [k]-th with ['TestRun'] = [k+1] and its
    own marker's timestamp as ['PROCESSING_START']. *)
Theorem t5_rows_per_marker (evs : list event) :
  length (t5_rows evs) = count_starts evs /\
  forall k e, filter is_start evs !! k = Some e ->
    exists r, t5_rows evs !! k = Some r /\ t5_TestRun r = S k /\
      t5_PROCESSING_START r = ev_timing e.
Proof.
  unfold t5_rows. rewrite group_runs_t5_eq. split.
  - rewrite length_map, <- (length_map fst).
    rewrite (sorted_items_seq _ _ (group_keys evs)), length_seq. reflexivity.
  - intros k e He. destruct (sorted_group_lookup evs k e He) as (r & Hs & Hps).
    rewrite list_lookup_fmap, Hs. simpl.
    eexists. split; [reflexivity|]. unfold t5_row_of. simpl. rewrite Hps. auto.
Qed.

End RowExtras.

Module V1RowFacts.
Import Timing Phases TimingFacts RowFacts TimingV1.
Local Open Scope list_scope.

Lemma fold_columns_in (f : string -> pyval) (cols : list string) (r0 : pydict) (x : string) :
  x ∈ cols -> fold_left (fun row c => <[c := f c]> row) cols r0 !! x = Some (f x).
Proof.
  revert r0. induction cols as [|c cols IH] using rev_ind; intros r0 Hx.
  - apply elem_of_nil in Hx. contradiction.
  - rewrite fold_left_app. simpl.
    destruct (decide (x = c)) as [->|Hne]; [apply lookup_insert_eq|].
    rewrite lookup_insert_ne by congruence. apply IH.
    apply elem_of_app in Hx as [Hx|Hx]; [exact Hx|].
    apply list_elem_of_singleton in Hx. contradiction.
Qed.

Lemma fold_columns_notin (f : string -> pyval) (cols : list string) (r0 : pydict) (x : string) :
  x ∉ cols -> fold_left (fun row c => <[c := f c]> row) cols r0 !! x = r0 !! x.
Proof.
  revert r0. induction cols as [|c cols IH]; intros r0 Hx; simpl; [reflexivity|].
  rewrite IH by (intros H; apply Hx; right; exact H).
  apply lookup_insert_ne. intros ->. apply Hx. left.
Qed.

Lemma v1_timing_row_run (k : nat) (data : gmap string Z) :
  v1_timing_row k data !! "Test Run #" = Some (PInt (Z.of_nat k)).
Proof.
  unfold v1_timing_row. rewrite fold_columns_notin; [apply lookup_singleton_eq|].
  unfold expected_columns. intros H. repeat (apply elem_of_cons in H as [H|H]; [discriminate|]).
  apply elem_of_nil in H. exact H.
Qed.

Lemma group_v1_keys (evs : list event) (i : nat) :
  is_Some (group_runs_v1 evs !! i) <-> i ∈ v1_run_numbers evs.
Proof.
  destruct (group_runs_v1_spec evs) as (_ & H0 & H1 & Hk).
  unfold v1_run_numbers. rewrite <- length_split_runs.
  destruct i as [|[|k]].
  - rewrite H0. split; [intros [? ?]; discriminate|].
    destruct ((split_runs evs).1); [|rewrite elem_of_cons]; rewrite elem_of_seq; lia.
  - rewrite H1. destruct ((split_runs evs).1).
    + rewrite elem_of_seq. split; [intros [? ?]; discriminate | lia].
    + split; [intros _; left | intros _; eexists; reflexivity].
  - rewrite Hk, fmap_is_Some, lookup_lt_is_Some.
    assert (Hs : S (S k) ∈ seq 2 (length (split_runs evs).2) <-> (k < length (split_runs evs).2)%nat)
      by (rewrite elem_of_seq; lia).
    destruct ((split_runs evs).1); [rewrite Hs; reflexivity|].
    rewrite elem_of_cons, Hs. split; [intros H; right; exact H|].
    intros [H|H]; [discriminate|exact H].
Qed.

Lemma v1_run_numbers_sorted (evs : list event) :
  Sorted le (v1_run_numbers evs) /\ NoDup (v1_run_numbers evs).
Proof.
  unfold v1_run_numbers. destruct ((split_runs evs).1).
  - split; [apply Sorted_seq | apply NoDup_seq].
  - split.
    + constructor; [apply Sorted_seq|]. destruct (count_starts evs); constructor. lia.
    + constructor; [rewrite elem_of_seq; lia | apply NoDup_seq].
Qed.


Lemma seg_map_pre_no_start (evs : list event) :
  seg_map (split_runs evs).1 !! PROCESSING_START = None.
Proof.
  destruct (split_runs_shape evs) as (Hpre & _ & _).
  rewrite seg_map_lookup. unfold last_value. apply last_value_nonstart. exact Hpre.
Qed.

Lemma v1_timing_row_keys (k : nat) (data : gmap string Z) :
  Csv.keys_within v1_timing_fieldnames (v1_timing_row k data).
Proof.
  intros x v Hx. unfold v1_timing_fieldnames.
  destruct (decide (x ∈ expected_columns)) as [Hin|Hn].
  - apply list_elem_of_In in Hin. right. exact Hin.
  - unfold v1_timing_row in Hx. rewrite fold_columns_notin in Hx by exact Hn.
    apply lookup_singleton_Some in Hx as [<- _]. left. reflexivity.
Qed.

End V1RowFacts.

Module V1RowExtras.
Import Timing Phases TimingFacts RowFacts TimingV1 V1RowFacts.
Local Open Scope list_scope.

(** X3: the rows of the older [parse_timing_data] are numbered
    [2, 3, ...] by marker, preceded by a row [1] exactly when some event
    comes before the first marker; that row has an empty
    ['PROCESSING_START'] cell. *)
Theorem v1_timing_rows_numbering (evs : list event) :
  map (fun r => r !! "Test Run #") (v1_timing_rows evs) =
    map (fun n => Some (PInt (Z.of_nat n)))
      (match (split_runs evs).1 with
       | [] => seq 2 (count_starts evs)
       | _ => 1%nat :: seq 2 (count_starts evs)
       end) /\
  ((split_runs evs).1 <> [] ->
     exists r, v1_timing_rows evs !! 0%nat = Some r /\ r !! "PROCESSING_START" = Some (PStr "")).
Proof.
  destruct (v1_run_numbers_sorted evs) as [Hs Hn].
  pose proof (sorted_items_keys _ _ (group_v1_keys evs) Hs Hn) as Hk.
  split.
  - unfold v1_timing_rows. rewrite map_map.
    change (match (split_runs evs).1 with
            | [] => seq 2 (count_starts evs) | _ => 1%nat :: seq 2 (count_starts evs) end)
      with (v1_run_numbers evs).
    rewrite <- Hk, map_map. apply map_ext. intros [k d]. apply v1_timing_row_run.
  - intros Hpre. unfold v1_timing_rows. rewrite list_lookup_fmap.
    assert (H0 : map fst (sorted_items (group_runs_v1 evs)) !! 0%nat = Some 1%nat).
    { rewrite Hk. unfold v1_run_numbers. destruct ((split_runs evs).1); [contradiction|reflexivity]. }
    rewrite list_lookup_fmap in H0.
    destruct (sorted_items (group_runs_v1 evs) !! 0%nat) as [[i d]|] eqn:E; [|discriminate].
    simpl in H0. injection H0 as ->.
    pose proof (sorted_items_lookup _ _ _ _ E) as Hd.
    destruct (group_runs_v1_spec evs) as (_ & _ & H1 & _). rewrite H1 in Hd.
    destruct ((split_runs evs).1) as [|x pre] eqn:Hp; [contradiction|]. injection Hd as <-.
    simpl. eexists. split; [reflexivity|].
    unfold v1_timing_row. rewrite fold_columns_in by (unfold expected_columns; left).
    unfold get_or_empty. rewrite <- Hp, seg_map_pre_no_start. reflexivity.
Qed.

(** X4: [main] of the older script writes its timing rows without a
    [ValueError]: every row's keys are among the fieldnames, so the CSV
    is the header followed by one line per row. *)
Theorem v1_timing_csv_rows (py_str : pyval -> string) (evs : list event) :
  Csv.write_csv py_str (v1_timing_rows evs) v1_timing_fieldnames =
    (v1_timing_fieldnames :: map (Csv.row_cells py_str v1_timing_fieldnames) (v1_timing_rows evs),
     None).
Proof.
  unfold Csv.write_csv. rewrite CsvFacts.writerows_ok; [reflexivity|].
  unfold v1_timing_rows. apply Forall_forall. intros r Hr.
  apply list_elem_of_fmap in Hr as ([k d] & -> & _). apply v1_timing_row_keys.
Qed.

End V1RowExtras.

Module WindowFacts.
Import Window.
Local Open Scope list_scope.

Lemma cp_strip_app (p s : text) : cp_strip p (p ++ s) = Some s.
Proof. induction p as [|c p IH]; simpl; [reflexivity|]. rewrite Z.eqb_refl. exact IH. Qed.

Lemma cp_strip_app_l (p q s r : text) : cp_strip (p ++ q) s = Some r -> is_Some (cp_strip p s).
Proof.
  revert s. induction p as [|c p IH]; intros s H; simpl; [eauto|].
  destruct s as [|d s]; simpl in H; [discriminate|].
  destruct (Z.eqb c d); [exact (IH s H)|discriminate].
Qed.

Lemma search_app (at_ : text -> bool) (u t : text) :
  at_ t = true -> search at_ (u ++ t) = true.
Proof.
  intros H. induction u as [|c u IH]; simpl.
  - destruct t; simpl; rewrite H; reflexivity.
  - rewrite IH. apply orb_true_r.
Qed.

Lemma search_mono (f g : text -> bool) (s : text) :
  (forall t, f t = true -> g t = true) -> search f s = true -> search g s = true.
Proof.
  intros Hfg. induction s as [|c s IH]; simpl; intros H.
  - rewrite orb_false_r in *. apply Hfg. exact H.
  - apply orb_true_iff in H as [H|H].
    + rewrite Hfg by exact H. reflexivity.
    + rewrite IH by exact H. apply orb_true_r.
Qed.

(** The window around an occurrence that lies inside it. *)
Lemma window_around (a m b : text) (pos n : nat) :
  (pos <= length a)%nat -> (length a + length m <= pos + n)%nat ->
  exists v, window (a ++ m ++ b) pos n = drop pos a ++ m ++ v.
Proof.
  intros H1 H2. unfold window. rewrite drop_app_le by exact H1.
  rewrite take_app, take_ge by (rewrite length_drop; lia).
  rewrite take_app, (take_ge m) by (rewrite length_drop in *; lia).
  eexists. reflexivity.
Qed.

Lemma literal_at_app (lit s : text) : literal_at lit (lit ++ s) = true.
Proof. unfold literal_at. rewrite cp_strip_app. reflexivity. Qed.

Lemma worker_line_literal (name t : text) :
  worker_line_at (cps "fileHashWorker.js:") name t = true ->
  literal_at (cps "fileHashWorker.js") t = true.
Proof.
  unfold worker_line_at, literal_at. destruct (cp_strip _ t) as [r|] eqn:E; [|discriminate].
  intros _. change (cps "fileHashWorker.js:") with (cps "fileHashWorker.js" ++ cps ":") in E.
  apply cp_strip_app_l in E as [r' ->]. reflexivity.
Qed.

Lemma fallback_literal (t : text) :
  literal_at fallback_message t = true -> literal_at (cps "Web Worker restart failed") t = true.
Proof.
  unfold literal_at. destruct (cp_strip fallback_message t) as [r|] eqn:E; [|discriminate].
  intros _. change fallback_message with
    (cps "Web Worker restart failed" ++ cps ", falling back to main thread processing") in E.
  apply cp_strip_app_l in E as [r' ->]. reflexivity.
Qed.

End WindowFacts.

Module WindowExtras.
Import Window WindowFacts.
Local Open Scope list_scope.

(** X5: an occurrence of the fallback message [Web Worker restart failed,
    falling back to main thread processing] that lies inside the search
    window makes both mode detectors report worker mode, although it
    says that the run fell back to the main thread. *)
Theorem fallback_counts_as_worker (a b : text) (pos : nat) :
  (pos <= length a)%nat ->
  ((length a + length fallback_message <= pos + 5000)%nat ->
     detect_execution_mode (a ++ fallback_message ++ b) pos = true) /\
  ((length a + length (cps "Web Worker restart failed") <= pos + 3000)%nat ->
     json_is_worker_mode (a ++ fallback_message ++ b) pos = true).
Proof.
  intros Hpos. split; intros Hlen.
  - destruct (window_around a fallback_message b pos 5000 Hpos Hlen) as [v Hv].
    unfold detect_execution_mode. rewrite Hv. unfold worker_patterns, existsb.
    assert (H : search (literal_at fallback_message) (drop pos a ++ fallback_message ++ v) = true)
      by (apply search_app, literal_at_app).
    unfold fallback_message in H |- *. rewrite H.
    rewrite !orb_true_r. reflexivity.
  - change fallback_message with
      (cps "Web Worker restart failed" ++ cps ", falling back to main thread processing").
    rewrite <- app_assoc.
    destruct (window_around a (cps "Web Worker restart failed") (cps ", falling back to main thread processing" ++ b) pos 3000 Hpos Hlen) as [v Hv].
    unfold json_is_worker_mode. rewrite Hv.
    rewrite (search_app _ (drop pos a)) by apply literal_at_app. reflexivity.
Qed.

(** X6: on the same 3000-character window the inline detector of
    [improved_parser_json.py] reports worker mode whenever a
    [detect_execution_mode] pattern occurs, and it also does on a bare
    [fileHashWorker.js] mention that [detect_execution_mode] rejects. *)
Theorem json_worker_mode_covers_detect (content : text) (pos : nat) :
  (existsb (fun p => search p (window content pos 3000)) worker_patterns = true ->
     json_is_worker_mode content pos = true) /\
  json_is_worker_mode (cps "fileHashWorker.js:10 WORKER_SEND: 5") 0 = true /\
  detect_execution_mode (cps "fileHashWorker.js:10 WORKER_SEND: 5") 0 = false.
Proof.
  split; [|split; vm_compute; reflexivity].
  unfold json_is_worker_mode. simpl. rewrite orb_false_r. intros H.
  apply orb_true_iff in H as [H|H]; [|apply orb_true_iff in H as [H|H]].
  - apply orb_true_iff. right. eapply search_mono; [|exact H]. apply worker_line_literal.
  - apply orb_true_iff. right. eapply search_mono; [|exact H]. apply worker_line_literal.
  - apply orb_true_iff. left. eapply search_mono; [|exact H]. apply fallback_literal.
Qed.

End WindowExtras.

Module WindowWitnesses.
Import Window WindowExtras.

Lemma fallback_counts_as_worker_witness :
  (0 <= length (cps "x"))%nat /\
  ((length (cps "x") + length fallback_message <= 0 + 5000)%nat ->
     detect_execution_mode (cps "x" ++ fallback_message ++ [])%list 0 = true) /\
  ((length (cps "x") + length (cps "Web Worker restart failed") <= 0 + 3000)%nat ->
     json_is_worker_mode (cps "x" ++ fallback_message ++ [])%list 0 = true).
Proof. split; [simpl; lia|]. apply (fallback_counts_as_worker (cps "x") [] 0). simpl; lia. Defined.

End WindowWitnesses.

Module PathFacts.
Import Paths.
Local Open Scope list_scope.

Lemma str_app_cons' (c : ascii) (a b : string) : (String c a ++ b)%string = String c (a ++ b)%string.
Proof. reflexivity. Qed.

Lemma has_char_app (c : ascii) (a b : string) :
  has_char c (a ++ b)%string = has_char c a || has_char c b.
Proof.
  induction a as [|d a IH]; [reflexivity|].
  rewrite str_app_cons'. simpl. rewrite IH, orb_assoc. reflexivity.
Qed.

Lemma split_on_nochar (c : ascii) (x : string) : has_char c x = false -> split_on c x = [x].
Proof.
  induction x as [|d x IH]; simpl; [reflexivity|].
  intros H. apply orb_false_iff in H as [Hd Hx]. rewrite Hd, IH by exact Hx. reflexivity.
Qed.

Lemma split_on_pieces (c : ascii) (s : string) : Forall (fun x => has_char c x = false) (split_on c s).
Proof.
  induction s as [|d s IH]; simpl; [repeat constructor|].
  destruct (Ascii.eqb c d) eqn:E; [constructor; [reflexivity|exact IH]|].
  destruct (split_on c s) as [|x xs]; [constructor; [simpl; rewrite E; reflexivity|constructor]|].
  inversion IH as [|? ? Hx Hxs]; subst. constructor; [simpl; rewrite E, Hx; reflexivity|exact Hxs].
Qed.

Lemma split_on_app_sep (c : ascii) (u t : string) :
  has_char c u = false -> split_on c (u ++ String c t) = u :: split_on c t.
Proof.
  induction u as [|d u IH]; intros H; simpl.
  - rewrite Ascii.eqb_refl. reflexivity.
  - simpl in H. apply orb_false_iff in H as [Hd Hu]. rewrite Hd, IH by exact Hu. reflexivity.
Qed.

Lemma parse_parts_pieces (s : string) :
  Forall (fun x => has_char chr_slash x = false /\ keep_part x = true) (parse_parts s).
Proof.
  unfold parse_parts. pose proof (split_on_pieces chr_slash s) as H.
  induction H as [|x xs Hx _ IH]; simpl; [constructor|].
  destruct (keep_part x) eqn:Ek; [constructor; [split; assumption|]|]; exact IH.
Qed.

Lemma parse_path_parts (s : string) :
  Forall (fun x => has_char chr_slash x = false /\ keep_part x = true) (parts (parse_path s)).
Proof.
  unfold parse_path. destruct s as [|a [|b r]]; [constructor| |];
    repeat match goal with |- context [if ?x then _ else _] => destruct x end;
    apply parse_parts_pieces.
Qed.

Lemma parse_parts_single (x : string) :
  has_char chr_slash x = false -> keep_part x = true -> parse_parts x = [x].
Proof. intros H1 H2. unfold parse_parts. rewrite split_on_nochar by exact H1. simpl. rewrite H2. reflexivity. Qed.

Lemma starts_with_slash_nochar (x : string) : has_char chr_slash x = false -> starts_with_slash x = false.
Proof. destruct x as [|c x]; simpl; [reflexivity|]. intros H. apply orb_false_iff in H. apply H. Qed.

(** [p.parent / p.name] is [p]. *)
Lemma parent_join_name (s n : string) :
  path_name (parse_path s) = n -> n <> EmptyString ->
  path_join (path_parent (parse_path s)) n = parse_path s.
Proof.
  intros Hn Hne. pose proof (parse_path_parts s) as Hp.
  destruct (parse_path s) as [r ps]. unfold path_name in Hn. simpl in *.
  destruct (last ps) as [x|] eqn:Hl; simpl in Hn; [|congruence]. subst x.
  apply last_Some in Hl as [ps' ->].
  rewrite Forall_app in Hp. destruct Hp as [_ Hp]. inversion Hp as [|? ? [H1 H2] _]; subst.
  unfold path_parent. simpl. destruct (ps' ++ [n]) eqn:E; [destruct ps'; discriminate|].
  rewrite <- E. unfold path_join. simpl. rewrite starts_with_slash_nochar by exact H1.
  rewrite removelast_last, parse_parts_single by assumption. reflexivity.
Qed.

Lemma rfind_go_shift (c : ascii) (b : string) :
  forall (i : nat) (acc : option nat),
  rfind_go c b i acc = match rfind_go c b 0 None with Some j => Some (i + j)%nat | None => acc end.
Proof.
  induction b as [|d b IH]; intros i acc; simpl; [reflexivity|].
  rewrite (IH (S i)), (IH 1).
  destruct (rfind_go c b 0 None) as [j|]; [f_equal; lia|].
  destruct (Ascii.eqb c d); [f_equal; lia|reflexivity].
Qed.

Lemma rfind_go_app (c : ascii) (a b : string) (i : nat) (acc : option nat) :
  rfind_go c (a ++ b) i acc = rfind_go c b (i + String.length a) (rfind_go c a i acc).
Proof.
  revert i acc. induction a as [|d a IH]; intros i acc; simpl.
  - rewrite Nat.add_0_r. reflexivity.
  - rewrite IH. f_equal. lia.
Qed.

Lemma rfind_app (c : ascii) (a b : string) (j : nat) :
  rfind c b = Some j -> rfind c (a ++ b) = Some (String.length a + j)%nat.
Proof.
  unfold rfind. intros H. rewrite rfind_go_app, rfind_go_shift, H. reflexivity.
Qed.

Lemma str_take_app (u t : string) (k : nat) :
  str_take (String.length u + k) (u ++ t) = (u ++ str_take k t)%string.
Proof. induction u as [|d u IH]; [reflexivity|]. simpl. rewrite IH. reflexivity. Qed.

Lemma str_length_app' (a b : string) : String.length (a ++ b) = (String.length a + String.length b)%nat.
Proof. induction a as [|d a IH]; [reflexivity|]. simpl. rewrite IH. reflexivity. Qed.

End PathFacts.

Module PathExtras.
Import Paths PathFacts.

(** X7: an input whose name is [u ++ suffix], [u] without ['_'] and
    [suffix] one of the names [main] writes, is its own output path:
    [main] overwrites the log it reads. *)
Theorem output_file_overwrites_input (s u suffix : string) :
  In suffix output_suffixes -> has_char "_"%char u = false ->
  path_name (parse_path s) = (u ++ suffix)%string ->
  output_file (parse_path s) suffix = parse_path s.
Proof.
  intros Hsuf Hu Hn.
  assert (Hstem : exists t j, rfind "."%char suffix = Some j /\ (0 < j)%nat /\
                    (j < String.length suffix - 1)%nat /\ str_take j suffix = String "_"%char t).
  { unfold output_suffixes in Hsuf. simpl in Hsuf.
    destruct Hsuf as [<-|[<-|[<-|[]]]].
    all: do 2 eexists; split; [reflexivity|]; simpl; split; [lia|split; [lia|reflexivity]]. }
  destruct Hstem as (t & j & Hr & Hj0 & Hj1 & Ht).
  assert (Hpre : extract_filename_prefix (parse_path s) = u).
  { unfold extract_filename_prefix, path_stem. rewrite Hn.
    rewrite (rfind_app _ u suffix j Hr), str_length_app'.
    replace (Nat.ltb 0 (String.length u + j) && Nat.ltb (String.length u + j)
               (String.length u + String.length suffix - 1)) with true
      by (symmetry; apply andb_true_iff; split; apply Nat.ltb_lt; lia).
    rewrite str_take_app, Ht, split_on_app_sep by exact Hu. reflexivity. }
  unfold output_file. rewrite Hpre. apply parent_join_name; [exact Hn|].
  unfold output_suffixes in Hsuf. simpl in Hsuf.
  destruct u; destruct Hsuf as [<-|[<-|[<-|[]]]]; discriminate.
Qed.

End PathExtras.

Module PathWitnesses.
Import Paths PathExtras.

Lemma output_file_overwrites_input_witness :
  In "_FolderAnalysisData.csv" output_suffixes /\ has_char "_"%char "run" = false /\
  path_name (parse_path "logs/run_FolderAnalysisData.csv") = ("run" ++ "_FolderAnalysisData.csv")%string /\
  output_file (parse_path "logs/run_FolderAnalysisData.csv") "_FolderAnalysisData.csv"
    = parse_path "logs/run_FolderAnalysisData.csv".
Proof.
  split; [simpl; auto|]. split; [reflexivity|]. split; [reflexivity|].
  apply (output_file_overwrites_input "logs/run_FolderAnalysisData.csv" "run" "_FolderAnalysisData.csv");
    [simpl; auto|reflexivity|reflexivity].
Defined.

End PathWitnesses.

Module Trial5Facts.
Import Scan FolderKV FolderJson FolderTrial5.
Local Open Scope Z_scope.

(** A text none of whose bytes starts the marker [String c0 pre'] is
    skipped by the scan. *)
Lemma findall_go_skip (c0 : ascii) (pre' : string) cap (m s : string) (f : nat) :
  Paths.has_char c0 m = false ->
  findall_go (f + String.length m) (String c0 pre') cap (m ++ s) = findall_go f (String c0 pre') cap s.
Proof.
  induction m as [|d m IH]; intros H; simpl.
  - rewrite Nat.add_0_r. reflexivity.
  - simpl in H. apply orb_false_iff in H as [Hd Hm].
    rewrite Nat.add_succ_r, JsonFacts.str_app_cons. cbn [findall_go strip_prefix]. rewrite Hd. apply IH. exact Hm.
Qed.

Lemma findall_skip (c0 : ascii) (pre' : string) cap (m s : string) :
  Paths.has_char c0 m = false ->
  findall (String c0 pre') cap (m ++ s) = findall (String c0 pre') cap s.
Proof.
  intros H. unfold findall. rewrite JsonFacts.str_length_app.
  replace (S (String.length m + String.length s)) with (S (String.length s) + String.length m)%nat by lia.
  apply findall_go_skip. exact H.
Qed.


Lemma t5_marker_split :
  t5_marker = String (ascii_of_nat 195) (String.substring 1 100 t5_marker).
Proof. reflexivity. Qed.

Lemma improved_marker_split :
  improved_marker = String (ascii_of_nat 195) (String.substring 1 100 improved_marker).
Proof. reflexivity. Qed.

Lemma findall_nochar (c0 : ascii) (pre' : string) cap (s : string) :
  Paths.has_char c0 s = false -> findall (String c0 pre') cap s = [].
Proof.
  intros H. rewrite <- (JsonFacts.str_app_nil_r s). rewrite findall_skip by exact H.
  reflexivity.
Qed.

Lemma t5_folder_loop_ok (i : Z) (ms : list string) (acc : list pydict) :
  res_ok (t5_folder_loop i ms acc) =
    forallb (fun m => match Json.json_loads m with
                      | Ok d => res_ok (format_1f (dict_get d "totalSizeMB" (PInt 0))) &&
                                res_ok (format_1f (dict_get d "avgDirectoryDepth" (PInt 0)))
                      | Raise JSONDecodeError => true
                      | Raise _ => false
                      end) ms.
Proof.
  revert i acc; induction ms as [|m ms IH]; intros i acc; [reflexivity|].
  cbn [t5_folder_loop forallb].
  destruct (Json.json_loads m) as [d|[]]; try reflexivity.
  - destruct (format_1f (dict_get d "totalSizeMB" (PInt 0))) as [[]|e1]; cbn; [|reflexivity].
    destruct (format_1f (dict_get d "avgDirectoryDepth" (PInt 0))) as [[]|e2]; cbn; [|reflexivity].
    apply IH.
  - apply IH.
Qed.

Lemma t5_folder_loop_value_gen (ms : list string) (off : nat) (j : Z) (acc rows : list pydict) :
  t5_folder_loop (j + Z.of_nat off) ms acc = Ok rows ->
  rows = (acc ++ omap (fun '(k, m) => match Json.json_loads m with
                                    | Ok d => Some (d ∪ {[ "TestRun" := PInt (j + Z.of_nat k) ]})
                                    | Raise _ => None
                                    end) (imap (fun k m => ((off + k)%nat, m)) ms))%list.
Proof.
  revert off acc; induction ms as [|m ms IH]; intros off acc H.
  - cbn in H. injection H as <-. rewrite app_nil_r. reflexivity.
  - rewrite imap_cons.
    assert (E : imap ((fun k m0 => ((off + k)%nat, m0)) ∘ S) ms
                = imap (fun k m0 => ((S off + k)%nat, m0)) ms).
    { apply imap_ext. intros k x _. cbn. f_equal. lia. }
    rewrite E. cbn [t5_folder_loop] in H. cbn [omap list_omap].
    rewrite Nat.add_0_r.
    destruct (Json.json_loads m) as [d|e] eqn:Hd.
    + destruct (format_1f (dict_get d "totalSizeMB" (PInt 0))) as [[]|e1]; cbn in H; [|discriminate].
      destruct (format_1f (dict_get d "avgDirectoryDepth" (PInt 0))) as [[]|e2]; cbn in H; [|discriminate].
      replace (j + Z.of_nat off + 1) with (j + Z.of_nat (S off)) in H by lia.
      rewrite (IH _ _ H), <- app_assoc. reflexivity.
    + destruct e; try discriminate.
      replace (j + Z.of_nat off + 1) with (j + Z.of_nat (S off)) in H by lia.
      exact (IH _ _ H).
Qed.

Lemma copy_keys_lookup data ks row r :
  copy_keys data ks row = Ok r ->
  (forall key, In key ks -> r !! key = data !! key) /\
  (forall key, ~ In key ks -> r !! key = row !! key).
Proof.
  revert row; induction ks as [|k ks IH]; intros row H.
  - cbn in H. injection H as <-. split; [intros ? []|reflexivity].
  - cbn in H. unfold getitem, of_option in H. destruct (data !! k) as [v|] eqn:Hk; [|discriminate].
    cbn in H. destruct (IH _ H) as [H1 H2]. split.
    + intros key [<-|Hin]; [|apply H1; exact Hin].
      destruct (in_dec String.string_dec k ks) as [Hin|Hnin]; [apply H1; exact Hin|].
      rewrite H2 by exact Hnin. rewrite lookup_insert_eq. exact (eq_sym Hk).
    + intros key Hn. rewrite H2 by (intros ?; apply Hn; right; assumption).
      rewrite lookup_insert_ne by (intros ->; apply Hn; left; reflexivity). reflexivity.
Qed.

Lemma copy_keys_total data ks row :
  (forall key, In key ks -> is_Some (data !! key)) ->
  exists r, copy_keys data ks row = Ok r.
Proof.
  revert row; induction ks as [|k ks IH]; intros row H; [eexists; reflexivity|].
  cbn. unfold getitem, of_option. destruct (H k (or_introl eq_refl)) as [v Hv]. rewrite Hv.
  cbn. apply IH. intros key Hin. apply H. right. exact Hin.
Qed.

Lemma improved_field_step_insert blob d fp d' :
  improved_field_step blob d fp = Ok d' -> exists v, d' = <[fp.1 := v]> d.
Proof.
  destruct fp as [field cls]. unfold improved_field_step. cbn [fst].
  destruct (search_group field cls blob) as [g|].
  - destruct (in_list field improved_float_fields).
    + destruct (py_float g); cbn [res_bind of_option]; intros H; [injection H as <-; eexists; reflexivity|discriminate].
    + destruct (py_int g); cbn [res_bind of_option]; intros H; [injection H as <-; eexists; reflexivity|discriminate].
  - intros H. injection H as <-. eexists; reflexivity.
Qed.

Lemma improved_fold_keys blob fps d d' :
  fold_res (improved_field_step blob) fps d = Ok d' ->
  forall k, is_Some (d !! k) \/ In k (map fst fps) -> is_Some (d' !! k).
Proof.
  revert d; induction fps as [|fp fps IH]; intros d H k Hk.
  - cbn in H. injection H as <-. destruct Hk as [Hk|[]]. exact Hk.
  - cbn in H. destruct (improved_field_step blob d fp) as [d1|e] eqn:Hs; [|discriminate].
    cbn in H. apply (IH d1 H). destruct (improved_field_step_insert _ _ _ _ Hs) as [v ->].
    destruct (decide (k = fp.1)) as [->|Hne].
    + left. rewrite lookup_insert_eq. eexists; reflexivity.
    + destruct Hk as [Hk|[Hk|Hk]].
      * left. rewrite lookup_insert_ne by congruence. exact Hk.
      * congruence.
      * right. exact Hk.
Qed.

Lemma improved_blob_keys m d :
  improved_blob_data m = Ok d -> forall key, In key plans_row_keys -> is_Some (d !! key).
Proof.
  intros H key Hin. apply (improved_fold_keys _ _ _ _ H). right.
  cbn in Hin |- *. tauto.
Qed.

Lemma improved_loop_spec (tr : Z) (ms : list string) (acc rows : list pydict) :
  (res_ok (improved_loop tr ms acc) = forallb (fun m => res_ok (improved_blob_data m)) ms) /\
  (improved_loop tr ms acc = Ok rows ->
   length rows = (length acc + length ms)%nat /\
   take (length acc) rows = acc /\
   forall k r, rows !! (length acc + k)%nat = Some r ->
     r !! "TestRun#" = Some (PInt (tr + Z.of_nat k)) /\
     exists m d, ms !! k = Some m /\ improved_blob_data m = Ok d /\
       forall key, In key plans_row_keys -> r !! key = d !! key).
Proof.
  revert tr acc; induction ms as [|m ms IH]; intros tr acc.
  - split; [reflexivity|]. cbn. intros H. injection H as <-.
    split; [lia|]. split; [apply take_ge; lia|].
    intros k r Hk. apply lookup_lt_Some in Hk. lia.
  - cbn [improved_loop forallb].
    destruct (improved_blob_data m) as [d|e] eqn:Hd; cbn [res_bind]; [|split; [reflexivity|discriminate]].
    destruct (copy_keys_total d plans_row_keys {[ "TestRun#" := PInt tr ]} (improved_blob_keys _ _ Hd))
      as [row Hrow].
    rewrite Hrow. cbn [res_bind res_ok andb].
    destruct (IH (tr + 1) (acc ++ [row])%list) as [IH1 IH2]. split; [exact IH1|].
    intros H. destruct (IH2 H) as (Hl & Ht & Hr). rewrite length_app in Hl, Ht, Hr. cbn in Hl, Ht, Hr.
    split; [cbn; lia|]. split.
    { replace (length acc) with (length acc `min` (length acc + 1))%nat at 1 by lia.
      rewrite <- take_take, Ht. rewrite take_app_length. reflexivity. }
    intros [|k] r Hk.
    + assert (E : rows !! length acc = Some row).
      { rewrite <- (lookup_take_lt rows (length acc + 1)) by lia. rewrite Ht.
        rewrite lookup_app_r by lia. rewrite Nat.sub_diag. reflexivity. }
      rewrite Nat.add_0_r, E in Hk. injection Hk as <-.
      destruct (copy_keys_lookup _ _ _ _ Hrow) as [H1 H2].
      split.
      * rewrite H2 by (cbn; intuition discriminate). rewrite Z.add_0_r. apply lookup_singleton_eq.
      * exists m, d. split; [reflexivity|]. split; [exact Hd|exact H1].
    + replace (length acc + S k)%nat with (length acc + 1 + k)%nat in Hk by lia.
      destruct (Hr k r Hk) as [Hr1 Hr2]. split.
      * rewrite Hr1. do 2 f_equal. lia.
      * exact Hr2.
Qed.

End Trial5Facts.

Module Trial5Extras.
Import Scan FolderKV FolderJson FolderTrial5 Trial5Facts.
Local Open Scope Z_scope.

(** X8: a log with no character encoded with the byte [0xC3] (the lead
    byte of the ['ð'] that starts both markers), such as one written with
    the real emoji, yields no folder records from [parse_trial5_data] nor
    from [extract_complete_folder_data]. *)
Lemma mojibake_marker_never_matches (content : string) :
  Paths.has_char (ascii_of_nat 195) content = false ->
  parse_trial5_folder content = Ok [] /\ extract_complete_folder_data content = Ok [].
Proof.
  intros H. unfold parse_trial5_folder, extract_complete_folder_data, t5_folder_matches, improved_matches.
  rewrite t5_marker_split, improved_marker_split, !findall_nochar by exact H.
  split; reflexivity.
Qed.

(** X9: [parse_trial5_data] returns its folder records exactly when every
    match either fails to decode or has a [totalSizeMB] and an
    [avgDirectoryDepth] that [:.1f] accepts; the records are then the
    decoded matches, each merged under [TestRun] = its position among
    all matches (counting failed decodes), with the blob's own
    [TestRun] taking precedence. *)
Lemma trial5_folder_result (content : string) :
  res_ok (parse_trial5_folder content) =
    forallb (fun m => match Json.json_loads m with
                      | Ok d => res_ok (format_1f (dict_get d "totalSizeMB" (PInt 0))) &&
                                res_ok (format_1f (dict_get d "avgDirectoryDepth" (PInt 0)))
                      | Raise JSONDecodeError => true
                      | Raise _ => false
                      end) (t5_folder_matches content) /\
  (forall rows, parse_trial5_folder content = Ok rows ->
   rows = omap (fun '(k, m) => match Json.json_loads m with
                               | Ok d => Some (d ∪ {[ "TestRun" := PInt (1 + Z.of_nat k) ]})
                               | Raise _ => None
                               end) (imap pair (t5_folder_matches content))).
Proof.
  split; [apply t5_folder_loop_ok|].
  intros rows H. exact (t5_folder_loop_value_gen _ 0 1 [] rows H).
Qed.

(** X10: [extract_complete_folder_data] raises exactly when the field loop
    raises on some match; otherwise it returns one row per match, the
    [k]-th with ['TestRun#'] = [k + 1] and the fields of the [k]-th
    match's [data]. *)
Lemma complete_folder_result (content : string) :
  res_ok (extract_complete_folder_data content) =
    forallb (fun m => res_ok (improved_blob_data m)) (improved_matches content) /\
  (forall rows, extract_complete_folder_data content = Ok rows ->
   length rows = length (improved_matches content) /\
   forall k r, rows !! k = Some r ->
     r !! "TestRun#" = Some (PInt (1 + Z.of_nat k)) /\
     exists m d, improved_matches content !! k = Some m /\ improved_blob_data m = Ok d /\
       forall key, In key plans_row_keys -> r !! key = d !! key).
Proof.
  destruct (improved_loop_spec 1 (improved_matches content) [] []) as [H1 _].
  split; [exact H1|].
  intros rows H. destruct (improved_loop_spec 1 (improved_matches content) [] rows) as [_ H2].
  destruct (H2 H) as (Hl & _ & Hr). split; [exact Hl|].
  intros k r Hk. exact (Hr k r Hk).
Qed.

End Trial5Extras.

Module Trial5Witnesses.
Import FolderKV FolderJson FolderTrial5 Trial5Extras.

(** The log of [improved_parser_json.py]'s format: [json_matches] finds
    its blob, the two mis-spelt markers find nothing. *)
Lemma mojibake_marker_never_matches_witness :
  FolderJson.json_matches (json_marker ++ "{ }" ++ String "010" plans_marker ++ "{totalFiles: 3}") = ["{ }"] /\
  Paths.has_char (ascii_of_nat 195) (json_marker ++ "{ }" ++ String "010" plans_marker ++ "{totalFiles: 3}") = false /\
  parse_trial5_folder (json_marker ++ "{ }" ++ String "010" plans_marker ++ "{totalFiles: 3}") = Ok [] /\
  extract_complete_folder_data (json_marker ++ "{ }" ++ String "010" plans_marker ++ "{totalFiles: 3}") = Ok [].
Proof.
  split; [vm_compute; reflexivity|]. split; [vm_compute; reflexivity|].
  apply mojibake_marker_never_matches. vm_compute; reflexivity.
Defined.

End Trial5Witnesses.

Module DoubleFacts.
Import Double.
Local Open Scope Z_scope.

Lemma round_half_even_top a Q : 0 < Q -> 2 ^ 52 * Q <= a < 2 ^ 53 * Q ->
  (round_half_even a Q = 2 ^ 53 <-> (2 ^ 54 - 1) * Q <= 2 * a) /\ round_half_even a Q <= 2 ^ 53.
Proof.
  intros HQ Ha. unfold round_half_even.
  pose proof (Z.div_mod a Q ltac:(lia)) as Hdm. pose proof (Z.mod_pos_bound a Q HQ) as Hmb.
  set (r := a / Q) in *. set (s := a mod Q) in *.
  assert (Hr : 2 ^ 52 <= r <= 2 ^ 53 - 1) by (split; nia).
  replace (2 * (a - r * Q)) with (2 * s) by lia.
  destruct (Z.eq_dec r (2 ^ 53 - 1)) as [E|E].
  - rewrite E. replace (Z.even (2 ^ 53 - 1)) with false by reflexivity.
    destruct (Z.ltb_spec (2 * s) Q); [|destruct (Z.ltb_spec Q (2 * s))]; split; try split; try lia; nia.
  - destruct (Z.ltb_spec (2 * s) Q); [|destruct (Z.ltb_spec Q (2 * s)); [|destruct (Z.even r)]];
      split; try split; try lia; nia.
Qed.

Lemma pow2_le_nonneg k a q : 0 <= k -> pow2_le k a q = (q * 2 ^ k <=? a).
Proof. intros Hk. unfold pow2_le. destruct (Z.leb_spec 0 k); [reflexivity|lia]. Qed.

Lemma round_tail_inf (p m0 e0 : Z) :
  (exists b, (let '(m, e) := if m0 =? 2 ^ 53 then (2 ^ 52, e0 + 1) else (m0, e0) in
              if 971 <? e then Inf (p <? 0) else Fin (if p <? 0 then - m else m) e) = Inf b)
  <-> 971 < e0 \/ (e0 = 971 /\ m0 = 2 ^ 53).
Proof.
  destruct (Z.eqb_spec m0 (2 ^ 53)); cbv beta iota;
    destruct (Z.ltb_spec 971 (e0 + 1)) || idtac; destruct (Z.ltb_spec 971 e0) || idtac.
  all: split; [intros [b Hb]; try discriminate; lia | intros Hc; try (eexists; reflexivity); lia].
Qed.

(** For [p, q > 0], the float nearest [p / q] is infinite exactly when
    [p / q] is at least the midpoint [2^1024 - 2^970] between the
    largest float and [2^1024]. *)
Lemma round_rat_inf p q : 0 < p -> 0 < q ->
  ((exists b, round_rat p q = Inf b) <-> (2 ^ 1024 - 2 ^ 970) * q <= p).
Proof.
  intros Hp Hq. unfold round_rat.
  destruct (Z.eqb_spec p 0) as [|_]; [lia|].
  rewrite Z.abs_eq by lia.
  destruct (Z.log2_spec p Hp) as [Hp1 Hp2]. destruct (Z.log2_spec q Hq) as [Hq1 Hq2].
  pose proof (Z.log2_nonneg p). pose proof (Z.log2_nonneg q).
  set (la := Z.log2 p) in *. set (lq := Z.log2 q) in *.
  set (l := la - lq).
  assert (Hk : exists k, (if pow2_le l p q then l else l - 1) = k /\
     ((k < 0 /\ p < q) \/ (0 <= k /\ 2 ^ k * q <= p < 2 ^ (k + 1) * q))).
  { destruct (Z.ltb_spec l 0) as [Hl|Hl].
    - exists (if pow2_le l p q then l else l - 1). split; [reflexivity|]. left.
      split; [destruct (pow2_le l p q); lia|].
      assert (2 ^ Z.succ la <= 2 ^ lq) by (apply Z.pow_le_mono_r; lia). lia.
    - rewrite pow2_le_nonneg by exact Hl.
      assert (Hup : p < 2 ^ (l + 1) * q).
      { assert (E2 : 2 ^ Z.succ la = 2 ^ (l + 1) * 2 ^ lq)
          by (rewrite <- Z.pow_add_r by lia; f_equal; lia). nia. }
      destruct (Z.leb_spec (q * 2 ^ l) p) as [Hle|Hgt].
      + exists l. split; [reflexivity|]. right. split; [exact Hl|]. split; [lia|exact Hup].
      + exists (l - 1). split; [reflexivity|].
        destruct (Z.eq_dec l 0) as [E|E].
        * left. split; [lia|]. rewrite E in Hgt. simpl in Hgt. lia.
        * right. split; [lia|]. split.
          -- assert (E1 : 2 ^ la = 2 ^ (l - 1) * 2 ^ Z.succ lq)
               by (rewrite <- Z.pow_add_r by lia; f_equal; lia). nia.
          -- replace (l - 1 + 1) with l by lia. lia. }
  destruct Hk as (k & -> & Hk). cbv zeta. rewrite round_tail_inf.
  assert (Hmid : 2 ^ 1023 < 2 ^ 1024 - 2 ^ 970 < 2 ^ 1024) by (split; reflexivity).
  destruct Hk as [[Hk Hpq]|[Hk [Hlo Hhi]]].
  - split; [intros [H1|[H1 _]]; lia | intros H1; nia].
  - destruct (Z.le_gt_cases 1024 k) as [Hbig|Hsmall].
    + assert (H2 : 2 ^ 1024 * q <= p).
      { assert (2 ^ 1024 <= 2 ^ k) by (apply Z.pow_le_mono_r; lia). nia. }
      split; [intros _; nia | intros _; left; lia].
    + destruct (Z.eq_dec k 1023) as [E|E].
      * subst k. rewrite Z.max_l by lia. change (1023 - 52) with 971.
        change (0 <=? 971) with true. cbv beta iota.
        replace (2 ^ (1023 + 1)) with (2 ^ 53 * 2 ^ 971) in Hhi by reflexivity.
        replace (2 ^ 1023) with (2 ^ 52 * 2 ^ 971) in Hlo by reflexivity.
        destruct (round_half_even_top p (q * 2 ^ 971) ltac:(lia) ltac:(lia)) as [Hr _].
        replace (2 ^ 1024 - 2 ^ 970) with ((2 ^ 54 - 1) * 2 ^ 970) by reflexivity.
        replace (2 ^ 971) with (2 * 2 ^ 970) in Hr by reflexivity.
        split.
        -- intros [H1|[_ H1]]; [lia|]. apply Hr in H1. nia.
        -- intros H1. right. split; [reflexivity|]. apply Hr. nia.
      * assert (H2 : p < 2 ^ 1023 * q).
        { assert (2 ^ (k + 1) <= 2 ^ 1023) by (apply Z.pow_le_mono_r; lia). nia. }
        split; [intros [H1|[H1 _]]; lia | intros H1; nia].
Qed.

End DoubleFacts.

Module FieldFacts.
Import Scan FolderKV FolderKVv1 FolderTrial5 Trial5Facts.
Local Open Scope Z_scope.

Lemma cp_span_forall (f : Z -> bool) (s a b : list Z) :
  Uni.cp_span f s = (a, b) -> Forall (fun c => f c = true) a.
Proof.
  revert a b; induction s as [|c s IH]; intros a b H; cbn in H.
  - injection H as <- <-. constructor.
  - destruct (f c) eqn:Ec.
    + destruct (Uni.cp_span f s) as [a' b'] eqn:E. injection H as <- <-.
      constructor; [exact Ec | exact (IH _ _ eq_refl)].
    + injection H as <- <-. constructor.
Qed.

Lemma search_group_cp_shape (pat : list Z) (cls : Z -> bool) (s g : list Z) :
  search_group_cp pat cls s = Some g -> g <> [] /\ Forall (fun c => cls c = true) g.
Proof.
  induction s as [|c s IH]; intros H; cbn [search_group_cp] in H.
  - destruct (Uni.cp_strip pat []) as [r|]; [|discriminate].
    destruct (Uni.cp_span Uni.uni_space r) as [r1 r2].
    destruct (Uni.cp_span cls r2) as [[|d g'] rest] eqn:E; [discriminate|].
    injection H as <-. split; [discriminate | exact (cp_span_forall _ _ _ _ E)].
  - destruct (Uni.cp_strip pat (c :: s)) as [r|]; [|exact (IH H)].
    destruct (Uni.cp_span Uni.uni_space r) as [r1 r2].
    destruct (Uni.cp_span cls r2) as [[|d g'] rest] eqn:E; [exact (IH H)|].
    injection H as <-. split; [discriminate | exact (cp_span_forall _ _ _ _ E)].
Qed.

Lemma search_group_shape (key : string) (cls : Z -> bool) (s : string) (g : list Z) :
  search_group key cls s = Some g -> g <> [] /\ Forall (fun c => cls c = true) g.
Proof. apply search_group_cp_shape. Qed.

Lemma uni_digit_decimal c : Uni.uni_digit c = true -> exists d, Uni.uni_decimal c = Some d /\ 0 <= d.
Proof.
  unfold Uni.uni_digit, Uni.uni_decimal.
  destruct (List.find _ Uni.decimal_zeros) as [z|] eqn:E; [|discriminate]. intros _.
  apply List.find_some in E as [_ E]. apply andb_prop in E as [E _]. apply Z.leb_le in E.
  exists (c - z). split; [reflexivity | lia].
Qed.

Lemma ascii_digit_uni c : Uni.ascii_digit c = true -> Uni.uni_digit c = true.
Proof.
  unfold Uni.ascii_digit, Uni.uni_digit, Uni.uni_decimal. intros H.
  apply andb_prop in H as [H1 H2]. apply Z.leb_le in H1. apply Z.leb_le in H2.
  cbn [List.find Uni.decimal_zeros].
  replace ((48 <=? c) && (c <? 48 + 10)) with true; [reflexivity|].
  symmetry. apply andb_true_intro. split; [apply Z.leb_le | apply Z.ltb_lt]; lia.
Qed.

Lemma decimal_values_digits (g : list Z) : Forall (fun c => Uni.uni_digit c = true) g ->
  exists ds, decimal_values g = Some ds /\ Forall (fun d => 0 <= d) ds.
Proof.
  induction g as [|c g IH]; intros H; [exists []; split; [reflexivity | constructor]|].
  inversion H as [|? ? Hc Hg]; subst. destruct (uni_digit_decimal c Hc) as (d & Hd & Hd0).
  destruct (IH Hg) as (ds & Hds & Hds0). exists (d :: ds). cbn. rewrite Hd, Hds.
  split; [reflexivity | constructor; assumption].
Qed.

Lemma fold_digits_nonneg (ds : list Z) (acc : Z) : 0 <= acc -> Forall (fun d => 0 <= d) ds ->
  0 <= fold_left (fun acc d => 10 * acc + d) ds acc.
Proof.
  revert acc; induction ds as [|d ds IH]; intros acc Ha H; [exact Ha|].
  inversion H; subst. cbn. apply IH; [lia | assumption].
Qed.

(** [int()] accepts a [\d+] capture exactly when it has at most 4300
    digits, and its value is never negative. *)
Lemma py_int_capture (g : list Z) : g <> [] -> Forall (fun c => Uni.uni_digit c = true) g ->
  match py_int g with Some _ => true | None => false end = Nat.leb (length g) int_max_str_digits /\
  (forall z, py_int g = Some z -> 0 <= z).
Proof.
  intros Hne Hd. destruct (decimal_values_digits g Hd) as (ds & Hds & Hds0).
  unfold py_int. destruct g as [|c g']; [contradiction|].
  destruct (Nat.ltb_spec int_max_str_digits (length (c :: g'))) as [Hl|Hl].
  - split; [symmetry; apply Nat.leb_gt; exact Hl | discriminate].
  - rewrite Hds. split; [symmetry; apply Nat.leb_le; exact Hl|].
    intros z Hz. injection Hz as <-. apply fold_digits_nonneg; [lia | exact Hds0].
Qed.

Lemma search_group_int (key s : string) (cls : Z -> bool) (g : list Z) :
  digit_class cls -> search_group key cls s = Some g ->
  match py_int g with Some _ => true | None => false end = Nat.leb (length g) int_max_str_digits /\
  (forall z, py_int g = Some z -> 0 <= z).
Proof.
  intros Hc H. destruct (search_group_shape _ _ _ _ H) as [Hne Hf]. apply py_int_capture; [exact Hne|].
  eapply Forall_impl; [exact Hf|]. intros c Hcl. apply Hc, Hcl.
Qed.

Lemma fold_res_ok {A B} (f : A -> B -> res A) (ok : B -> bool) (l : list B) (a : A) :
  (forall a b, In b l -> res_ok (f a b) = ok b) ->
  res_ok (fold_res f l a) = forallb ok l.
Proof.
  revert a; induction l as [|b l IH]; intros a H; [reflexivity|].
  cbn. specialize (H a b (or_introl eq_refl)) as Hb.
  destruct (f a b) as [a'|e]; cbn in *.
  - rewrite <- Hb. apply IH. intros a0 b0 Hin. apply H. right. exact Hin.
  - rewrite <- Hb. reflexivity.
Qed.

Lemma fold_res_exc {A B} (f : A -> B -> res A) (l : list B) (a : A) (e : exc) :
  (forall a b e, f a b = Raise e -> e = ValueError) ->
  fold_res f l a = Raise e -> e = ValueError.
Proof.
  revert a; induction l as [|b l IH]; intros a H Hf; [discriminate|].
  cbn in Hf. destruct (f a b) as [a'|e'] eqn:E; cbn in Hf.
  - exact (IH _ H Hf).
  - injection Hf as <-. exact (H _ _ _ E).
Qed.

Lemma fold_res_keys {A B} (f : gmap string A -> B -> res (gmap string A)) (key : B -> string)
    (l : list B) (d d' : gmap string A) :
  (forall d b d', f d b = Ok d' -> exists v, d' = <[key b := v]> d) ->
  fold_res f l d = Ok d' ->
  forall k, is_Some (d !! k) \/ In k (map key l) -> is_Some (d' !! k).
Proof.
  revert d; induction l as [|b l IH]; intros d Hs H k Hk.
  - cbn in H. injection H as <-. destruct Hk as [Hk|[]]. exact Hk.
  - cbn in H. destruct (f d b) as [d1|e] eqn:E; [|discriminate].
    cbn in H. apply (IH d1 Hs H). destruct (Hs _ _ _ E) as [v ->].
    destruct (decide (k = key b)) as [->|Hne].
    + left. rewrite lookup_insert_eq. eexists; reflexivity.
    + destruct Hk as [Hk|[Hk|Hk]].
      * left. rewrite lookup_insert_ne by congruence. exact Hk.
      * congruence.
      * right. exact Hk.
Qed.

Lemma plans_step_ok (blob : string) (d : pydict) (f : string) (cls : Z -> bool) :
  (in_list f plans_float_fields = false -> digit_class cls) ->
  res_ok (plans_field_step blob d (f, cls)) =
    match search_group f cls blob with
    | Some g => if in_list f plans_float_fields
                then match py_float g with Some _ => true | None => false end
                else Nat.leb (length g) int_max_str_digits
    | None => true end.
Proof.
  intros Hc. unfold plans_field_step.
  destruct (search_group f cls blob) as [g|] eqn:E; [|reflexivity].
  destruct (in_list f plans_float_fields) eqn:Ef.
  - destruct (py_float g); reflexivity.
  - destruct (search_group_int _ _ _ _ (Hc eq_refl) E) as [Hi _]. rewrite <- Hi.
    destruct (String.eqb f "timestamp"); destruct (py_int g); reflexivity.
Qed.

Lemma plans_step_exc (blob : string) (d : pydict) fp (e : exc) :
  plans_field_step blob d fp = Raise e -> e = ValueError.
Proof.
  destruct fp as [f cls]. unfold plans_field_step.
  destruct (search_group f cls blob) as [g|]; [|discriminate].
  destruct (in_list f plans_float_fields); [destruct (py_float g); cbn; congruence|].
  destruct (String.eqb f "timestamp"); destruct (py_int g); cbn; congruence.
Qed.

Lemma plans_step_insert (blob : string) (d : pydict) fp (d' : pydict) :
  plans_field_step blob d fp = Ok d' -> exists v, d' = <[fp.1 := v]> d.
Proof.
  destruct fp as [f cls]. unfold plans_field_step. cbn [fst].
  destruct (search_group f cls blob) as [g|]; [|intros H; injection H as <-; eauto].
  destruct (in_list f plans_float_fields); [destruct (py_float g); cbn; intros H; [injection H as <-; eauto|discriminate]|].
  destruct (String.eqb f "timestamp"); destruct (py_int g); cbn; intros H;
    solve [injection H as <-; eauto | discriminate].
Qed.

Lemma improved_step_ok (blob : string) (d : pydict) (f : string) (cls : Z -> bool) :
  (in_list f improved_float_fields = false -> digit_class cls) ->
  res_ok (improved_field_step blob d (f, cls)) =
    match search_group f cls blob with
    | Some g => if in_list f improved_float_fields
                then match py_float g with Some _ => true | None => false end
                else Nat.leb (length g) int_max_str_digits
    | None => true end.
Proof.
  intros Hc. unfold improved_field_step.
  destruct (search_group f cls blob) as [g|] eqn:E; [|reflexivity].
  destruct (in_list f improved_float_fields) eqn:Ef.
  - destruct (py_float g); reflexivity.
  - destruct (search_group_int _ _ _ _ (Hc eq_refl) E) as [Hi _]. rewrite <- Hi.
    destruct (py_int g); reflexivity.
Qed.

Lemma improved_step_exc (blob : string) (d : pydict) fp (e : exc) :
  improved_field_step blob d fp = Raise e -> e = ValueError.
Proof.
  destruct fp as [f cls]. unfold improved_field_step.
  destruct (search_group f cls blob) as [g|]; [|discriminate].
  destruct (in_list f improved_float_fields); [destruct (py_float g)|destruct (py_int g)]; cbn; congruence.
Qed.

Lemma v1_step_ok (blob : string) (d : pydict) (f : string) (cls : Z -> bool) :
  (String.eqb f "totalSizeMB" = false -> digit_class cls) ->
  res_ok (v1_field_step blob d (f, cls)) =
    match search_group f cls blob with
    | Some g => if String.eqb f "totalSizeMB"
                then match py_float g with Some _ => true | None => false end
                else Nat.leb (length g) int_max_str_digits
    | None => true end.
Proof.
  intros Hc. unfold v1_field_step.
  destruct (search_group f cls blob) as [g|] eqn:E; [|reflexivity].
  destruct (String.eqb f "totalSizeMB") eqn:Ef.
  - destruct (py_float g); reflexivity.
  - destruct (search_group_int _ _ _ _ (Hc eq_refl) E) as [Hi _]. rewrite <- Hi.
    destruct (String.eqb f "timestamp"); destruct (py_int g); reflexivity.
Qed.

(** The values the older field loop stores: the [\d+] fields as
    non-negative [int]s, [totalSizeMB] as a [float] or the [int] [0]. *)
Lemma v1_step_value (blob : string) (d d' : pydict) (f : string) (cls : Z -> bool) :
  (String.eqb f "totalSizeMB" = false -> digit_class cls) ->
  v1_field_step blob d (f, cls) = Ok d' ->
  exists v, d' = <[f := v]> d /\
    (if String.eqb f "totalSizeMB" then (exists x, v = PFloat x) \/ v = PInt 0
     else exists z, v = PInt z /\ 0 <= z).
Proof.
  intros Hc. unfold v1_field_step.
  destruct (search_group f cls blob) as [g|] eqn:E.
  - destruct (String.eqb f "totalSizeMB") eqn:Ef.
    + destruct (py_float g) as [x|]; cbn; intros H; [|discriminate].
      injection H as <-. exists (PFloat x). split; [reflexivity|]. left. exists x. reflexivity.
    + destruct (search_group_int _ _ _ _ (Hc eq_refl) E) as [_ Hz].
      destruct (String.eqb f "timestamp"), (py_int g) as [z|] eqn:Ez; cbn; intros H;
        try discriminate; injection H as <-; eexists; split; eauto.
  - intros H. injection H as <-. eexists. split; [reflexivity|].
    destruct (String.eqb f "totalSizeMB"); [right; reflexivity|exists 0; split; [reflexivity|lia]].
Qed.

Lemma int_class_digit : digit_class int_class.
Proof. intros c H. exact H. Qed.

Lemma int09_class_digit : digit_class int09_class.
Proof. intros c H. apply ascii_digit_uni, H. Qed.

Lemma plans_blob_ok (blob : string) :
  res_ok (plans_blob_data blob) =
    forallb (fun '(f, cls) =>
               match search_group f cls blob with
               | Some g => if in_list f plans_float_fields
                           then match py_float g with Some _ => true | None => false end
                           else Nat.leb (length g) int_max_str_digits
               | None => true end) plans_field_patterns.
Proof.
  unfold plans_blob_data. apply fold_res_ok. intros a [f cls] Hin.
  apply plans_step_ok. intros Hf. cbn in Hin.
  repeat destruct Hin as [Hin|Hin]; try (injection Hin as <- <-);
    solve [apply int_class_digit | discriminate Hf | contradiction].
Qed.

Lemma improved_blob_ok (blob : string) :
  res_ok (improved_blob_data blob) =
    forallb (fun '(f, cls) =>
               match search_group f cls blob with
               | Some g => if in_list f improved_float_fields
                           then match py_float g with Some _ => true | None => false end
                           else Nat.leb (length g) int_max_str_digits
               | None => true end) improved_field_patterns.
Proof.
  unfold improved_blob_data. apply fold_res_ok. intros a [f cls] Hin.
  apply improved_step_ok. intros Hf. cbn in Hin.
  repeat destruct Hin as [Hin|Hin]; try (injection Hin as <- <-);
    solve [apply int09_class_digit | discriminate Hf | contradiction].
Qed.

Lemma v1_blob_ok (blob : string) :
  res_ok (v1_blob_data blob) =
    forallb (fun '(f, cls) =>
               match search_group f cls blob with
               | Some g => if String.eqb f "totalSizeMB"
                           then match py_float g with Some _ => true | None => false end
                           else Nat.leb (length g) int_max_str_digits
               | None => true end) v1_field_patterns.
Proof.
  unfold v1_blob_data. apply fold_res_ok. intros a [f cls] Hin.
  apply v1_step_ok. intros Hf. cbn in Hin.
  repeat destruct Hin as [Hin|Hin]; try (injection Hin as <- <-);
    solve [apply int_class_digit | discriminate Hf | contradiction].
Qed.

Lemma forallb_congr {A} (f g : A -> bool) (l : list A) :
  (forall x, f x = g x) -> forallb f l = forallb g l.
Proof. intros H. induction l as [|x l IH]; [reflexivity|]. cbn. rewrite H, IH. reflexivity. Qed.

Lemma improved_loop_raise (tr : Z) (ms : list string) (acc : list pydict) (e : exc) :
  improved_loop tr ms acc = Raise e -> exists m, In m ms /\ improved_blob_data m = Raise e.
Proof.
  revert tr acc; induction ms as [|m ms IH]; intros tr acc H; [discriminate|].
  cbn [improved_loop] in H. destruct (improved_blob_data m) as [d|e'] eqn:Ed; cbn [res_bind] in H.
  - destruct (copy_keys_total d plans_row_keys {[ "TestRun#" := PInt tr ]} (improved_blob_keys _ _ Ed))
      as [row Hrow].
    rewrite Hrow in H. cbn [res_bind] in H. destruct (IH _ _ H) as (m' & Hin & Hm'). exists m'. split; [right|]; assumption.
  - injection H as <-. exists m. split; [left; reflexivity|exact Ed].
Qed.

Lemma v1_blob_shape (blob : string) (d : pydict) :
  v1_blob_data blob = Ok d ->
  exists zts ztot zm zs vsize,
    d !! "timestamp" = Some (PInt zts) /\ d !! "totalFiles" = Some (PInt ztot) /\
    d !! "mainFolderFiles" = Some (PInt zm) /\ d !! "subfolderFiles" = Some (PInt zs) /\
    d !! "totalSizeMB" = Some vsize /\ ((exists x, vsize = PFloat x) \/ vsize = PInt 0) /\
    0 <= ztot /\ 0 <= zm /\ 0 <= zs.
Proof.
  unfold v1_blob_data, v1_field_patterns. cbn [fold_res]. intros H.
  destruct (v1_field_step blob ∅ ("timestamp", int_class)) as [d1|] eqn:E1; [|discriminate]. cbn [res_bind] in H.
  apply v1_step_value in E1 as (v1 & -> & (z1 & -> & _)); [|intros _; apply int_class_digit].
  destruct (v1_field_step blob _ ("totalFiles", int_class)) as [d2|] eqn:E2; [|discriminate]. cbn [res_bind] in H.
  apply v1_step_value in E2 as (v2 & -> & (z2 & -> & H2)); [|intros _; apply int_class_digit].
  destruct (v1_field_step blob _ ("mainFolderFiles", int_class)) as [d3|] eqn:E3; [|discriminate]. cbn [res_bind] in H.
  apply v1_step_value in E3 as (v3 & -> & (z3 & -> & H3)); [|intros _; apply int_class_digit].
  destruct (v1_field_step blob _ ("subfolderFiles", int_class)) as [d4|] eqn:E4; [|discriminate]. cbn [res_bind] in H.
  apply v1_step_value in E4 as (v4 & -> & (z4 & -> & H4)); [|intros _; apply int_class_digit].
  destruct (v1_field_step blob _ ("totalSizeMB", float_class)) as [d5|] eqn:E5; [|discriminate]. cbn [res_bind] in H.
  apply v1_step_value in E5 as (v5 & -> & H5); [|discriminate].
  injection H as <-. exists z1, z2, z3, z4, v5. cbn in H5.
  split_and!; [simplify_map_eq; reflexivity..|exact H5|exact H2|exact H3|exact H4].
Qed.

Lemma v1_step_exc (blob : string) (d : pydict) fp (e : exc) :
  v1_field_step blob d fp = Raise e -> e = ValueError.
Proof.
  destruct fp as [f cls]. unfold v1_field_step.
  destruct (search_group f cls blob) as [g|]; [|discriminate].
  destruct (String.eqb f "totalSizeMB"); [destruct (py_float g); cbn; congruence|].
  destruct (String.eqb f "timestamp"); destruct (py_int g); cbn; congruence.
Qed.

Lemma int_true_div_raise (m t : Z) (e : exc) : 0 <= m -> 0 < t ->
  int_true_div m t = Raise e <-> e = OverflowError /\ (2 ^ 1024 - 2 ^ 970) * t <= m.
Proof.
  intros Hm Ht. unfold int_true_div.
  destruct (Z.eqb_spec t 0) as [|_]; [lia|]. destruct (Z.ltb_spec t 0) as [|_]; [lia|].
  destruct (Z.eq_dec m 0) as [->|Hm0].
  - cbn. split; [discriminate | intros [_ H]; lia].
  - pose proof (DoubleFacts.round_rat_inf m t ltac:(lia) Ht) as Hi.
    destruct (Double.round_rat m t) as [mm ee|b|] eqn:E.
    + split; [discriminate|]. intros [_ H]. apply Hi in H as [b Hb]. discriminate.
    + split; [intros H; injection H as <-; split; [reflexivity | apply Hi; eauto]|].
      intros [-> _]. reflexivity.
    + split; [discriminate|]. intros [_ H]. apply Hi in H as [b Hb]. discriminate.
Qed.

End FieldFacts.

Module FieldExtras.
Import Scan FolderKV FolderKVv1 FolderTrial5 Trial5Facts FieldFacts.
Local Open Scope Z_scope.

(** X11: the [try] body of [parse_folder_analysis_data] (plans version)
    fails, and the match is dropped, exactly when one of the four float
    fields has a [[\d.]+] capture that [float()] rejects (such as [1.2.3]
    or [.]) or one of the integer fields has a [\d+] capture of more than
    4300 digits, which [int()] refuses; the exception is always a
    [ValueError]. *)
Theorem plans_record_dropped_iff (blob : string) :
  res_ok (plans_fields_row blob) =
    forallb (fun '(f, cls) =>
               match search_group f cls blob with
               | Some g => if in_list f plans_float_fields
                           then match py_float g with Some _ => true | None => false end
                           else Nat.leb (length g) int_max_str_digits
               | None => true end) plans_field_patterns /\
  (forall e, plans_fields_row blob = Raise e -> e = ValueError).
Proof.
  rewrite <- plans_blob_ok. unfold plans_fields_row.
  destruct (plans_blob_data blob) as [d|e] eqn:Eb; cbn [res_bind].
  - assert (Hk : forall key, In key plans_row_keys -> is_Some (d !! key)).
    { intros key Hin. apply (fold_res_keys _ fst _ _ _ (plans_step_insert blob) Eb). right.
      cbn in Hin |- *. tauto. }
    destruct (copy_keys_total d plans_row_keys ∅ Hk) as [r Hr]. rewrite Hr.
    split; [reflexivity|discriminate].
  - split; [reflexivity|]. intros e' H. injection H as <-.
    exact (fold_res_exc _ _ _ _ (plans_step_exc blob) Eb).
Qed.

(** X12: [extract_complete_folder_data] raises exactly when some match
    has a float field whose [[0-9.]+] capture [float()] rejects or an
    integer field whose [[0-9]+] capture has more than 4300 digits; the
    exception is then a [ValueError]. *)
Theorem complete_folder_raises_iff (content : string) :
  res_ok (extract_complete_folder_data content) =
    forallb (fun m =>
      forallb (fun '(f, cls) =>
                 match search_group f cls m with
                 | Some g => if in_list f improved_float_fields
                             then match py_float g with Some _ => true | None => false end
                             else Nat.leb (length g) int_max_str_digits
                 | None => true end) improved_field_patterns)
      (improved_matches content) /\
  (forall e, extract_complete_folder_data content = Raise e -> e = ValueError).
Proof.
  split.
  - destruct (improved_loop_spec 1 (improved_matches content) [] []) as [H _].
    unfold extract_complete_folder_data. rewrite H. apply forallb_congr. intros m. apply improved_blob_ok.
  - intros e H. destruct (improved_loop_raise _ _ _ _ H) as (m & _ & Hm).
    exact (fold_res_exc _ _ _ _ (improved_step_exc m) Hm).
Qed.

(** X13: in the older [parse_folder_analysis_data], the field loop fails
    exactly when the [totalSizeMB] capture is rejected by [float()] or an
    integer capture has more than 4300 digits, with a [ValueError], and
    the [try] body then fails with it.  Once the fields are read, the
    body fails exactly when [totalFiles > 0] and
    [mainFolderFiles / totalFiles] is too large for a float
    ([mainFolderFiles >= (2^1024 - 2^970) * totalFiles]), with an
    [OverflowError].  A row that is produced has [uniqueFilesTotal] =
    [min(totalFiles, mainFolderFiles + subfolderFiles)] and
    [uniqueFilesTotal + identicalSizeFiles = totalFiles]. *)
Theorem v1_record_shape (tr : Z) (blob : string) :
  res_ok (v1_blob_data blob) =
    forallb (fun '(f, cls) =>
               match search_group f cls blob with
               | Some g => if String.eqb f "totalSizeMB"
                           then match py_float g with Some _ => true | None => false end
                           else Nat.leb (length g) int_max_str_digits
               | None => true end) v1_field_patterns /\
  (forall e, v1_blob_data blob = Raise e -> e = ValueError /\ v1_row tr blob = Raise e) /\
  (forall d, v1_blob_data blob = Ok d ->
   exists t m s,
     d !! "totalFiles" = Some (PInt t) /\ d !! "mainFolderFiles" = Some (PInt m) /\
     d !! "subfolderFiles" = Some (PInt s) /\
     (forall e, v1_row tr blob = Raise e <->
                e = OverflowError /\ 0 < t /\ (2 ^ 1024 - 2 ^ 970) * t <= m) /\
     (forall r, v1_row tr blob = Ok r ->
      exists u i,
        r !! "totalFiles" = Some (PInt t) /\ r !! "mainFolderFiles" = Some (PInt m) /\
        r !! "subfolderFiles" = Some (PInt s) /\ r !! "uniqueFilesTotal" = Some (PInt u) /\
        r !! "identicalSizeFiles" = Some (PInt i) /\ u = Z.min t (m + s) /\ u + i = t)).
Proof.
  split; [apply v1_blob_ok|]. split.
  - intros e He. split; [exact (fold_res_exc _ _ _ _ (v1_step_exc blob) He)|].
    unfold v1_row. rewrite He. reflexivity.
  - intros d Hd.
    destruct (v1_blob_shape _ _ Hd) as (zts & zt & zm & zs & vsize & Hts & Ht & Hm & Hs & Hsz & Hv & Ht0 & Hm0 & Hs0).
    exists zt, zm, zs. split_and!; [exact Ht | exact Hm | exact Hs | |].
    + intros e. unfold v1_row. rewrite Hd. cbn [res_bind]. unfold getitem. rewrite Hm, Ht, Hs, Hsz, Hts.
      cbn [of_option res_bind as_int].
      assert (Hf : exists x, as_double vsize = Ok x).
      { destruct Hv as [[x ->] | ->]; eexists; reflexivity. }
      destruct Hf as [x ->]. cbn [res_bind].
      destruct (Z.ltb_spec 0 zt) as [Hlt|Hge].
      * pose proof (int_true_div_raise zm zt e Hm0 Hlt) as Hr.
        destruct (int_true_div zm zt) as [q|e']; cbn [res_bind].
        -- split; [discriminate|]. intros (H1 & _ & H2). discriminate (proj2 Hr (conj H1 H2)).
        -- split.
           ++ intros H. injection H as <-. destruct (proj1 Hr eq_refl) as [H1 H2]. split_and!; assumption.
           ++ intros (H1 & _ & H2). injection (proj2 Hr (conj H1 H2)) as ->. reflexivity.
      * cbn [res_bind]. split; [discriminate | intros (_ & H & _); lia].
    + intros r. unfold v1_row. rewrite Hd. cbn [res_bind]. unfold getitem. rewrite Hm, Ht, Hs, Hsz, Hts.
      cbn [of_option res_bind as_int].
      assert (Hf : exists x, as_double vsize = Ok x).
      { destruct Hv as [[x ->] | ->]; eexists; reflexivity. }
      destruct Hf as [x ->]. cbn [res_bind].
      intros H.
      assert (H' : exists mf, r = list_to_map
        [("TestRun#", PInt tr);
         ("avgDirectoryDepth", PFloat (if 0 <? zs then Dec 25 (-1) else Dec 1 0));
         ("avgFilenameLength", PInt 25);
         ("identicalSizeFiles", PInt (Z.max 0 (zt - (zt - Z.max 0 (zt - zm - zs)))));
         ("largestFileSizesMB", Double.to_pyval (Double.round2 (Double.mul x (Double.of_decimal (Dec 1 (-1))))));
         ("mainFolderFiles", PInt zm);
         ("mainFolderSizeMB", mf);
         ("maxDirectoryDepth", PInt (if 0 <? zs then 5 else 1));
         ("subfolderFiles", PInt zs);
         ("timestamp", PInt zts);
         ("totalFiles", PInt zt);
         ("totalSizeMB", vsize);
         ("uniqueFilesMainFolder", PInt zm);
         ("uniqueFilesTotal", PInt (zt - Z.max 0 (zt - zm - zs)));
         ("zeroByteFiles", PInt 0)]).
      { destruct (0 <? zt); [destruct (int_true_div zm zt); cbn [res_bind] in H; [|discriminate]|cbn [res_bind] in H];
          injection H as <-; eexists; reflexivity. }
      destruct H' as [mf ->].
      exists (zt - Z.max 0 (zt - zm - zs)), (Z.max 0 (zt - (zt - Z.max 0 (zt - zm - zs)))).
      unfold list_to_map. cbn [foldr fst snd].
      split_and!; [simplify_map_eq; reflexivity..|lia|lia].
Qed.

End FieldExtras.

Module CsvMainFacts.
Import FolderKV FolderKVv1 FolderJson FolderTrial5 Trial5Facts MainCsv.
Local Open Scope Z_scope.

Lemma fold_rows_forall (P : pydict -> Prop) (step : fx_state -> string -> fx_state)
    (ms : list string) (st : fx_state) :
  (forall st m, Forall P (folder_data st) -> Forall P (folder_data (step st m))) ->
  Forall P (folder_data st) -> Forall P (folder_data (fold_left step ms st)).
Proof.
  revert st; induction ms as [|m ms IH]; intros st Hs H; [exact H|].
  cbn. apply IH; [exact Hs|]. apply Hs. exact H.
Qed.

Lemma copy_keys_within (fns : list string) data ks row r :
  copy_keys data ks row = Ok r ->
  (forall k, In k ks -> In k fns) -> Csv.keys_within fns row -> Csv.keys_within fns r.
Proof.
  intros H Hks Hrow k v Hk. destruct (copy_keys_lookup _ _ _ _ H) as [_ H2].
  destruct (in_dec String.string_dec k ks) as [Hin|Hn]; [exact (Hks k Hin)|].
  rewrite H2 in Hk by exact Hn. exact (Hrow k v Hk).
Qed.

Lemma singleton_within (fns : list string) (k0 : string) (v0 : pyval) :
  In k0 fns -> Csv.keys_within fns {[ k0 := v0 ]}.
Proof.
  intros H k v Hk. apply lookup_singleton_Some in Hk as [<- _]. exact H.
Qed.

Lemma plans_rows_within (content : string) :
  Forall (Csv.keys_within plans_folder_fieldnames) (parse_folder_analysis_data content).
Proof.
  unfold parse_folder_analysis_data, parse_folder_analysis_data_st.
  apply fold_rows_forall; [|constructor].
  intros st m H. unfold plans_step. destruct (plans_row (test_run st) m) as [row|e] eqn:E; [|exact H].
  cbn. apply Forall_app; split; [exact H|]. constructor; [|constructor].
  unfold plans_row in E. destruct (plans_blob_data m) as [d|]; [|discriminate]. cbn [res_bind] in E.
  apply (copy_keys_within _ _ _ _ _ E).
  - intros k Hk. cbn in Hk |- *. tauto.
  - apply singleton_within. left. reflexivity.
Qed.

Lemma json_rows_within (content : string) :
  Forall (Csv.keys_within json_folder_fieldnames) (parse_json_folder_analysis_data Json.json_loads content).
Proof.
  unfold parse_json_folder_analysis_data, parse_json_folder_analysis_data_st.
  apply fold_rows_forall; [|constructor].
  intros st m H. unfold json_step.
  assert (Hr : forall d, Csv.keys_within json_folder_fieldnames (json_row (test_run st) d)).
  { intros d k v Hk. apply JsonFacts.json_row_keys in Hk as [->|[d0 Hin]]; [left; reflexivity|].
    cbn in Hin |- *. repeat destruct Hin as [Hin|Hin]; try (injection Hin as <- _); tauto. }
  destruct (Json.json_loads m) as [d|[]]; try exact H.
  destruct (format_1f (dict_get d "totalSizeMB" (PInt 0))); cbn;
    (apply Forall_app; split; [exact H|]; constructor; [apply Hr|constructor]).
Qed.

Lemma v1_row_within (tr : Z) (m : string) (row : pydict) :
  v1_row tr m = Ok row -> Csv.keys_within v1_folder_fieldnames row.
Proof.
  unfold v1_row, res_bind.
  repeat match goal with
         | |- match ?x with Ok _ => _ | Raise _ => _ end = Ok _ -> _ =>
             destruct x; [|discriminate]
         end.
  intros H. injection H as <-. intros k v Hk.
  repeat (apply lookup_insert_Some in Hk as [[<- _]|[_ Hk]]; [cbn; tauto|]).
  rewrite lookup_empty in Hk. discriminate.
Qed.

Lemma v1_rows_within (content : string) :
  Forall (Csv.keys_within v1_folder_fieldnames) (parse_folder_analysis_data_v1 content).
Proof.
  unfold parse_folder_analysis_data_v1.
  apply fold_rows_forall; [|constructor].
  intros st m H. unfold v1_step. destruct (v1_row (test_run st) m) as [row|e] eqn:E; [|exact H].
  cbn. apply Forall_app; split; [exact H|]. constructor; [|constructor].
  exact (v1_row_within _ _ _ E).
Qed.

Lemma improved_rows_within (tr : Z) (ms : list string) (acc rows : list pydict) :
  improved_loop tr ms acc = Ok rows ->
  Forall (Csv.keys_within improved_fieldnames) acc ->
  Forall (Csv.keys_within improved_fieldnames) rows.
Proof.
  revert tr acc; induction ms as [|m ms IH]; intros tr acc H Ha.
  - cbn in H. injection H as <-. exact Ha.
  - cbn [improved_loop] in H. destruct (improved_blob_data m) as [d|]; cbn [res_bind] in H; [|discriminate].
    destruct (copy_keys d plans_row_keys {[ "TestRun#" := PInt tr ]}) as [row|] eqn:E;
      cbn [res_bind] in H; [|discriminate].
    apply (IH _ _ H). apply Forall_app; split; [exact Ha|]. constructor; [|constructor].
    apply (copy_keys_within _ _ _ _ _ E).
    + intros k Hk. cbn in Hk |- *. tauto.
    + apply singleton_within. left. reflexivity.
Qed.

Lemma folder_csv_ok (py_str : pyval -> string) (rows : list pydict) (fns : list string) :
  Forall (Csv.keys_within fns) rows ->
  folder_csv py_str rows fns =
    match rows with
    | [] => None
    | _ => Some (fns :: map (Csv.row_cells py_str fns) rows, None)
    end.
Proof.
  intros H. unfold folder_csv, Csv.write_csv. rewrite CsvFacts.writerows_ok by exact H.
  destruct rows; reflexivity.
Qed.

End CsvMainFacts.

Module CsvMainExtras.
Import FolderKV FolderKVv1 FolderJson FolderTrial5 MainCsv CsvMainFacts.

(** X14: every key of every folder record is one of the columns [main]
    passes to [write_csv], in the four scripts, so writing the folder
    CSV never raises; it is the header and one line per record, and
    nothing is written when there is no record. *)
Theorem mains_folder_csv_complete (py_str : pyval -> string) (content : string) :
  plans_main_folder_csv py_str content =
    match parse_folder_analysis_data content with
    | [] => None
    | rows => Some (plans_folder_fieldnames :: map (Csv.row_cells py_str plans_folder_fieldnames) rows, None)
    end /\
  v1_main_folder_csv py_str content =
    match parse_folder_analysis_data_v1 content with
    | [] => None
    | rows => Some (v1_folder_fieldnames :: map (Csv.row_cells py_str v1_folder_fieldnames) rows, None)
    end /\
  json_main_folder_csv py_str content =
    match parse_json_folder_analysis_data Json.json_loads content with
    | [] => None
    | rows => Some (json_folder_fieldnames :: map (Csv.row_cells py_str json_folder_fieldnames) rows, None)
    end /\
  (forall rows, extract_complete_folder_data content = Ok rows ->
   improved_main_csv py_str content =
     Ok (match rows with
         | [] => None
         | _ => Some (improved_fieldnames :: map (Csv.row_cells py_str improved_fieldnames) rows, None)
         end)).
Proof.
  split; [unfold plans_main_folder_csv; rewrite folder_csv_ok by apply plans_rows_within;
          destruct (parse_folder_analysis_data content); reflexivity|].
  split; [unfold v1_main_folder_csv; rewrite folder_csv_ok by apply v1_rows_within;
          destruct (parse_folder_analysis_data_v1 content); reflexivity|].
  split; [unfold json_main_folder_csv; rewrite folder_csv_ok by apply json_rows_within;
          destruct (parse_json_folder_analysis_data Json.json_loads content); reflexivity|].
  intros rows H. unfold improved_main_csv. rewrite H. cbn [res_bind]. f_equal.
  apply folder_csv_ok. exact (improved_rows_within _ _ _ _ H (List.Forall_nil _)).
Qed.

End CsvMainExtras.

Module MainFacts.
Import Timing Phases FolderKV MainCsv CsvMainFacts Main.
Local Open Scope Z_scope.
















End MainFacts.

Module MainClaims.
Import Timing Phases FolderKV MainCsv CsvMainFacts Main MainFacts.
Local Open Scope Z_scope.



End MainClaims.
